(** * Claude-Code-Remote: the Telegram channel and its webhook handler

    A shallow embedding of
      - src/channels/telegram/telegram.js  (class TelegramChannel), and
      - the webhook handler (class TelegramWebhookHandler),
    followed by the properties of the session/token protocol.

    JavaScript strings are sequences of UTF-16 code units, so a string is a
    list of integers; [.length] is the length of that list. *)

From Stdlib Require Import ZArith Lia Bool String Ascii DecimalString.
From Stdlib Require DecimalZ DecimalPos.
From stdpp Require Import base tactics option list gmap.

Local Open Scope Z_scope.

(* ================================================================== *)
(** ** JavaScript strings *)
(* ================================================================== *)

Module JS.

Definition char := Z.
Definition jsstring := list char.

(** An ASCII literal of the source, as code units. *)
Definition lit (s : string) : jsstring :=
  (fun a => Z.of_N (N_of_ascii a)) <$> list_ascii_of_string s.

(** The escape [\n] inside a source literal. *)
Definition nl : jsstring := [10].

Definition between (lo hi c : char) : bool := (lo <=? c) && (c <=? hi).

(** LineTerminator of ECMAScript: LF, CR, LS, PS. *)
Definition isLineTerminator (c : char) : bool :=
  (c =? 10) || (c =? 13) || (c =? 8232) || (c =? 8233).

(** WhiteSpace and LineTerminator of ECMAScript: what [\s] matches and what
    [String.prototype.trim] strips. *)
Definition isWhiteSpace (c : char) : bool :=
  between 9 13 c || (c =? 32) || (c =? 160) || (c =? 5760) ||
  between 8192 8202 c || (c =? 8232) || (c =? 8233) || (c =? 8239) ||
  (c =? 8287) || (c =? 12288) || (c =? 65279).

Definition isLower (c : char) : bool := between 97 122 c.
Definition isUpper (c : char) : bool := between 65 90 c.
Definition isDigit (c : char) : bool := between 48 57 c.

(** The alphabet [[A-Z0-9]] of tokens. *)
Definition isTokenChar (c : char) : bool := isUpper c || isDigit c.

(** A letter of either case or a digit: what [[A-Z0-9]] matches under the
    flag [i]. *)
Definition isAlnum (c : char) : bool := isUpper c || isLower c || isDigit c.

(** [toUpperCase] on the Basic Latin block.  The handler applies it only to
    what [[A-Z0-9]{8}] captured, where it is the whole of
    [String.prototype.toUpperCase]. *)
Definition upperChar (c : char) : char := if isLower c then c - 32 else c.
Definition toUpperCase (s : jsstring) : jsstring := upperChar <$> s.

Fixpoint dropWhile (p : char -> bool) (s : jsstring) : jsstring :=
  match s with
  | c :: s' => if p c then dropWhile p s' else s
  | [] => []
  end.

(** [String.prototype.trim]. *)
Definition trim (s : jsstring) : jsstring :=
  reverse (dropWhile isWhiteSpace (reverse (dropWhile isWhiteSpace s))).

Fixpoint eqb (s t : jsstring) : bool :=
  match s, t with
  | [], [] => true
  | c :: s', d :: t' => (c =? d) && eqb s' t'
  | _, _ => false
  end.

(** [String.prototype.startsWith]. *)
Fixpoint startsWith (s p : jsstring) : bool :=
  match p, s with
  | [], _ => true
  | d :: p', c :: s' => (c =? d) && startsWith s' p'
  | _ :: _, [] => false
  end.

(** [String.prototype.endsWith]. *)
Definition endsWith (s p : jsstring) : bool :=
  startsWith (reverse s) (reverse p).

(** [String.prototype.includes]. *)
Fixpoint includes (s p : jsstring) : bool :=
  startsWith s p ||
  match s with
  | [] => false
  | _ :: s' => includes s' p
  end.

(** [s.split(sep)] for a separator of one code unit: [cur] collects, in
    reverse, the piece being read. *)
Fixpoint splitAux (sep : char) (cur : jsstring) (s : jsstring) : list jsstring :=
  match s with
  | [] => [reverse cur]
  | c :: s' =>
      if c =? sep then reverse cur :: splitAux sep [] s'
      else splitAux sep (c :: cur) s'
  end.

Definition split (sep : char) (s : jsstring) : list jsstring := splitAux sep [] s.

(** [parts.join(sep)]. *)
Fixpoint join (sep : jsstring) (parts : list jsstring) : jsstring :=
  match parts with
  | [] => []
  | [p] => p
  | p :: ps => p ++ sep ++ join sep ps
  end.

(** [String(n)] of an integer Number: the decimal digits, with a minus
    sign for a negative one.  This is what JavaScript prints for the safe
    integers ([isSafeInteger] below), where chat and user ids lie; from
    [1e21] on [String] prints an exponent, which is not modelled. *)
Definition ofInt (n : Z) : jsstring := lit (NilEmpty.string_of_int (Z.to_int n)).

(** Truthiness of a string: the empty string is falsy. *)
Definition truthy (s : jsstring) : bool :=
  match s with [] => false | _ => true end.

End JS.

Import JS.

(* ================================================================== *)
(** ** Regular expressions: a backtracking matcher *)
(* ================================================================== *)

Module Regex.

(** Sets of code units that one pattern character stands for. *)
Inductive cset :=
| CChar (c : char)            (* a pattern character *)
| CRange (lo hi : char)       (* lo-hi inside a class *)
| CUnion (a b : cset)         (* juxtaposition inside a class *)
| CSpace                      (* \s *)
| CDot.                       (* . *)

(** The other member of the simple case pair of [c].  Without the [u] flag
    Canonicalize never maps a code unit above 127 to one below 128, so only
    the two Basic Latin cases of a letter are identified with it. *)
Definition swapCase (c : char) : char :=
  if isLower c then c - 32 else if isUpper c then c + 32 else c.

Fixpoint member (s : cset) (c : char) : bool :=
  match s with
  | CChar d => c =? d
  | CRange lo hi => between lo hi c
  | CUnion a b => member a c || member b c
  | CSpace => isWhiteSpace c
  | CDot => negb (isLineTerminator c)
  end.

(** [accepts ic s c]: [c] matches [s], with flag [i] when [ic]. *)
Definition accepts (ic : bool) (s : cset) (c : char) : bool :=
  member s c || (ic && member s (swapCase c)).

Inductive regex :=
| RBol                           (* ^ , no m flag *)
| REol                           (* $ , no m flag *)
| RSet (s : cset)                (* one code unit *)
| RRepeat (n : nat) (s : cset)   (* s{n} *)
| RPlus (s : cset)               (* s+ , greedy *)
| RGroup (r : regex)             (* ( r ) , capturing *)
| RSeq (r1 r2 : regex).

(** The literal text [s] as a pattern. *)
Fixpoint rlit (s : jsstring) (rest : regex) : regex :=
  match s with
  | [] => rest
  | c :: s' => RSeq (RSet (CChar c)) (rlit s' rest)
  end.

Section Matcher.
Context {A : Type} (ic : bool).

(** [s{m}]: exactly [m] code units of [s]. *)
Fixpoint repeatSet (cs : cset) (m : nat) (n : nat) (s : jsstring)
    (k : nat -> jsstring -> option A) : option A :=
  match m with
  | O => k n s
  | S m' =>
      match s with
      | c :: s' => if accepts ic cs c then repeatSet cs m' (S n) s' k else None
      | [] => None
      end
  end.

(** [s+], greedy: the longest run first, then shorter ones while the
    continuation fails. *)
Fixpoint plusGreedy (cs : cset) (n : nat) (s : jsstring)
    (k : nat -> jsstring -> option A) : option A :=
  match s with
  | c :: s' =>
      if accepts ic cs c then
        match plusGreedy cs (S n) s' k with
        | Some a => Some a
        | None => k (S n) s'
        end
      else None
  | [] => None
  end.

(** [run r n s caps k]: match [r] at index [n], where [s] is the rest of
    the input; [caps] are the groups closed so far.  The patterns of the
    handler have no nested groups, so groups close in the order of their
    numbers. *)
Fixpoint run (r : regex) (n : nat) (s : jsstring) (caps : list jsstring)
    (k : nat -> jsstring -> list jsstring -> option A) : option A :=
  match r with
  | RBol => if Nat.eqb n 0 then k n s caps else None
  | REol => match s with [] => k n s caps | _ :: _ => None end
  | RSet cs =>
      match s with
      | c :: s' => if accepts ic cs c then k (S n) s' caps else None
      | [] => None
      end
  | RRepeat m cs => repeatSet cs m n s (fun n' s' => k n' s' caps)
  | RPlus cs => plusGreedy cs n s (fun n' s' => k n' s' caps)
  | RGroup r1 =>
      run r1 n s caps (fun n' s' caps' => k n' s' (caps' ++ [take (n' - n) s]))
  | RSeq r1 r2 =>
      run r1 n s caps (fun n' s' caps' => run r2 n' s' caps' k)
  end.
End Matcher.

(** The first index from [n] on at which [r] matches. *)
Fixpoint search (ic : bool) (r : regex) (n : nat) (s : jsstring) : option (list jsstring) :=
  match run ic r n s [] (fun _ _ caps => Some caps) with
  | Some caps => Some caps
  | None =>
      match s with
      | [] => None
      | _ :: s' => search ic r (S n) s'
      end
  end.

(** [str.match(/r/)] or [str.match(/r/i)]: the captured groups [m[1]],
    [m[2]], ... of the first match, or [None] for [null]. *)
Definition jsMatch (ic : bool) (r : regex) (str : jsstring) : option (list jsstring) :=
  search ic r 0 str.

(** [m[i]] for [i >= 1]. *)
Definition group (m : list jsstring) (i : nat) : jsstring :=
  default [] (m !! (i - 1)%nat).

End Regex.

Import Regex.

(* ================================================================== *)
(** ** The command grammar of [_handleMessage] *)
(* ================================================================== *)

(** [[A-Z0-9]] *)
Definition tokenChar : cset := CUnion (CRange 65 90) (CRange 48 57).

(** [\s+(.+)$], the end of the three patterns. *)
Definition commandTail : regex :=
  RSeq (RPlus CSpace) (RSeq (RGroup (RPlus CDot)) REol).

(** [/^\/cmd([A-Z0-9]{8})\s+(.+)$/i] *)
Definition newFormat : regex :=
  RSeq RBol (rlit (lit "/cmd")
    (RSeq (RGroup (RRepeat 8 tokenChar)) commandTail)).

(** [/^\/cmd\s+([A-Z0-9]{8})\s+(.+)$/i] *)
Definition oldFormat : regex :=
  RSeq RBol (rlit (lit "/cmd")
    (RSeq (RPlus CSpace)
    (RSeq (RGroup (RRepeat 8 tokenChar)) commandTail))).

(** [/^([A-Z0-9]{8})\s+(.+)$/] *)
Definition directFormat : regex :=
  RSeq RBol (RSeq (RGroup (RRepeat 8 tokenChar)) commandTail).

(** The three attempts of [_handleMessage] on the trimmed text, in their
    order: [Some (token, command)], or [None] where the handler answers
    with the usage hint. *)
Definition parseCommand (messageText : jsstring) : option (jsstring * jsstring) :=
  match jsMatch true newFormat messageText with
  | Some newFormatMatch =>
      Some (toUpperCase (group newFormatMatch 1), group newFormatMatch 2)
  | None =>
      match jsMatch true oldFormat messageText with
      | Some oldFormatMatch =>
          Some (toUpperCase (group oldFormatMatch 1), group oldFormatMatch 2)
      | None =>
          match jsMatch false directFormat messageText with
          | Some directMatch =>
              Some (toUpperCase (group directMatch 1), group directMatch 2)
          | None => None
          end
      end
  end.

(** Eight letters or digits, of either case. *)
Definition alnumToken (T : jsstring) : Prop :=
  length T = 8%nat /\ Forall (fun c => isAlnum c = true) T.

(** A command the grammar hands on as it is: not empty, no line terminator
    inside, no white space around. *)
Definition plainCommand (C : jsstring) : Prop :=
  C <> [] /\ trim C = C /\ Forall (fun c => isLineTerminator c = false) C.

(** The three ways of writing a command, for a token [T] and a command
    [C]. *)
Definition attachedForm (T C : jsstring) : jsstring := lit "/cmd" ++ T ++ lit " " ++ C.
Definition spacedForm (T C : jsstring) : jsstring := lit "/cmd " ++ T ++ lit " " ++ C.
Definition bareForm (T C : jsstring) : jsstring := T ++ lit " " ++ C.

(* ================================================================== *)
(** ** Text of the messages *)
(* ================================================================== *)

Module Text.

(** A code point outside the Basic Multilingual Plane, as its surrogate
    pair. *)
Definition astral (cp : Z) : jsstring :=
  [55296 + (cp - 65536) / 1024; 56320 + (cp - 65536) mod 1024].

Definition warningSign : jsstring := [0x26A0; 0xFE0F].
Definition crossMark : jsstring := [0x274C].
Definition checkMark : jsstring := [0x2705].
Definition hourglass : jsstring := [0x23F3].
Definition bullet : jsstring := [0x2022].
Definition memo : jsstring := astral 0x1F4DD.
Definition desktop : jsstring := astral 0x1F5A5 ++ [0xFE0F].
Definition bulb : jsstring := astral 0x1F4A1.
Definition people : jsstring := astral 0x1F465.
Definition clipboard : jsstring := astral 0x1F4CB.
Definition robot : jsstring := astral 0x1F916.
Definition books : jsstring := astral 0x1F4DA.
Definition speech : jsstring := astral 0x1F4AC.

Definition unauthorized : jsstring :=
  warningSign ++ lit " You are not authorized to use this bot.".

Definition invalidFormat : jsstring :=
  crossMark ++ lit " Invalid format. Use:" ++ nl ++ lit "/cmdTOKEN command" ++ nl ++ nl ++
  lit "Example:" ++ nl ++ lit "/cmdABC12345 analyze this code".

Definition invalidToken : jsstring :=
  crossMark ++ lit " Invalid or expired token. Please wait for a new task notification.".

Definition tokenExpired : jsstring :=
  crossMark ++ lit " Token has expired. Please wait for a new task notification.".

Definition commandSent (command tmuxSession : jsstring) : jsstring :=
  checkMark ++ lit " *Command sent successfully*" ++ nl ++ nl ++
  memo ++ lit " *Command:* " ++ command ++ nl ++
  desktop ++ lit " *Session:* " ++ tmuxSession ++ nl ++ nl ++
  lit "Claude is now processing your request...".

Definition commandFailed (errorMessage : jsstring) : jsstring :=
  crossMark ++ lit " *Command execution failed:* " ++ errorMessage.

Definition personalFormat (token : jsstring) : jsstring :=
  memo ++ lit " *Personal Chat Command Format:*" ++ nl ++ nl ++
  lit "`/cmd " ++ token ++ lit " <your command>`" ++ nl ++ nl ++
  lit "*Example:*" ++ nl ++
  lit "`/cmd " ++ token ++ lit " please analyze this code`" ++ nl ++ nl ++
  bulb ++ lit " *Copy and paste the format above, then add your command!*".

Definition groupFormat (botUsername token : jsstring) : jsstring :=
  people ++ lit " *Group Chat Command Format:*" ++ nl ++ nl ++
  lit "`@" ++ botUsername ++ lit " /cmd " ++ token ++ lit " <your command>`" ++ nl ++ nl ++
  lit "*Example:*" ++ nl ++
  lit "`@" ++ botUsername ++ lit " /cmd " ++ token ++ lit " please analyze this code`" ++ nl ++ nl ++
  bulb ++ lit " *Copy and paste the format above, then add your command!*".

Definition copyFormat (token : jsstring) : jsstring :=
  clipboard ++ lit " Copy this command format:" ++ nl ++ nl ++
  lit "/cmd" ++ token ++ lit " " ++ nl ++ nl ++
  lit "Then add your command and send!" ++ nl ++ nl ++
  lit "Example: /cmd" ++ token ++ lit " please analyze this code".

Definition commandFormat (token : jsstring) : jsstring :=
  memo ++ lit " Command Format:" ++ nl ++ nl ++
  lit "/cmd" ++ token ++ lit " [your command]" ++ nl ++ nl ++
  lit "Example:" ++ nl ++
  lit "/cmd" ++ token ++ lit " please analyze this code" ++ nl ++ nl ++
  bulb ++ lit " Copy and paste the format above, then add your command!".

Definition sessionHelp (token : jsstring) : jsstring :=
  memo ++ lit " *How to send a command:*" ++ nl ++ nl ++
  lit "Type:" ++ nl ++
  lit "`/cmd " ++ token ++ lit " <your command>`" ++ nl ++ nl ++
  lit "Example:" ++ nl ++
  lit "`/cmd " ++ token ++ lit " please analyze this code`" ++ nl ++ nl ++
  bulb ++ lit " *Tip:* New notifications have a button that auto-fills the command for you!".

Definition welcome : jsstring :=
  robot ++ lit " Welcome to Claude Code Remote Bot!" ++ nl ++ nl ++
  lit "I'll notify you when Claude completes tasks or needs input." ++ nl ++ nl ++
  lit "When you receive a notification with a token, you can send commands back using:" ++ nl ++
  lit "/cmdTOKEN your command" ++ nl ++ nl ++
  lit "Type /help for more information.".

Definition help : jsstring :=
  books ++ lit " Claude Code Remote Bot Help" ++ nl ++ nl ++
  lit "Commands:" ++ nl ++
  bullet ++ lit " /start - Welcome message" ++ nl ++
  bullet ++ lit " /help - Show this help" ++ nl ++
  bullet ++ lit " /cmdTOKEN command - Send command to Claude" ++ nl ++ nl ++
  lit "Example:" ++ nl ++
  lit "/cmdABC12345 analyze the performance of this function" ++ nl ++ nl ++
  lit "Tips:" ++ nl ++
  bullet ++ lit " Tokens are case-insensitive" ++ nl ++
  bullet ++ lit " Tokens persist for 7 days" ++ nl ++
  bullet ++ lit " You can also just type TOKEN command without /cmd".

End Text.

(* ================================================================== *)
(** ** Sessions and the sessions directory *)
(* ================================================================== *)

(** A session object, as [_createSession] writes it and as
    [_findSessionByToken] hands it to [_processCommand].  [createdAt] is
    absent from the object converted from a persistent session, [chatId]
    from the files of [_createSession]. *)
Module Session.
Record t := mk {
  id : jsstring;
  token : jsstring;
  tmuxSession : jsstring;
  project : jsstring;
  createdAt : option Z;
  expiresAt : Z;
  chatId : option jsstring
}.
End Session.

(** The sessions directory [data/sessions]: file name to content, the
    content being the object [JSON.parse] yields, or [None] where
    [JSON.parse] throws. *)
Abbreviation Dir := (gmap jsstring (option Session.t)).

(** [`${sessionId}.json`] *)
Definition sessionFile (sessionId : jsstring) : jsstring := sessionId ++ lit ".json".

(** What the handler needs from [./persistent-session], which is not part of
    the sources at hand: its two queries.  The manager is built on the
    sessions directory, so its answers may depend on what the directory
    holds; the handler never writes through this interface. *)
Module PersistentSession.
Record t := mk {
  sessionId : jsstring;
  token : jsstring;
  tmuxSession : jsstring;
  project : jsstring;
  expiresAt : Z;
  chatId : jsstring
}.
End PersistentSession.

Record PersistentSessionManager := {
  getSessionByToken : Dir -> jsstring -> option PersistentSession.t;
  getCurrentChatSession : Dir -> jsstring -> option PersistentSession.t
}.

(* ================================================================== *)
(** ** Handlers: the directory as state, the calls made as a log *)
(* ================================================================== *)

(** The calls a handler makes to its collaborators, in order; the logger
    is left out.  [_sendMessage] and [_answerCallbackQuery] catch the
    failure of their request and only log it, so the event is the call,
    whatever becomes of it. *)
Inductive Event :=
| SendMessage (chatId : Z) (text : jsstring) (markdown : bool)
| AnswerCallbackQuery (callbackQueryId : jsstring)
| GetSessionByToken (token : jsstring)
| GetCurrentChatSession (chatId : jsstring)
| ReadSessionsDir
| Unlink (file : jsstring)
| InjectCommand (command tmuxSession : jsstring)
| GetBotUsername.

Definition Handler (A : Type) : Type := Dir -> A * Dir * list Event.

Definition ret {A} (a : A) : Handler A := fun d => (a, d, []).

Definition bind {A B} (m : Handler A) (f : A -> Handler B) : Handler B :=
  fun d =>
    let '(a, d1, log1) := m d in
    let '(b, d2, log2) := f a d1 in
    (b, d2, log1 ++ log2).

Definition emit (e : Event) : Handler unit := fun d => (tt, d, [e]).

(** A call that reads: its answer may depend on the directory. *)
Definition ask {A} (e : Event) (answer : Dir -> A) : Handler A :=
  fun d => (answer d, d, [e]).

Declare Scope handler_scope.
Delimit Scope handler_scope with handler.
Notation "x <- m ;; k" := (bind m (fun x => k))
  (at level 100, m at next level, right associativity) : handler_scope.
Notation "m ;; k" := (bind m (fun _ => k))
  (at level 100, right associativity) : handler_scope.

(** The state a handler leaves and the calls it made. *)
Definition finalDir {A} (r : A * Dir * list Event) : Dir := r.1.2.
Definition calls {A} (r : A * Dir * list Event) : list Event := r.2.

(* ================================================================== *)
(** ** The webhook handler *)
(* ================================================================== *)

Record Config := {
  whitelist : list jsstring;          (* this.config.whitelist || [] *)
  configChatId : option jsstring;     (* this.config.chatId *)
  configGroupId : option jsstring;    (* this.config.groupId *)
  botToken : option jsstring          (* this.config.botToken *)
}.

(** [a || b] on optional strings. *)
Definition orElse (a b : option jsstring) : option jsstring :=
  match a with
  | Some s => if truthy s then a else b
  | None => b
  end.

Record User := { userId : Z; is_bot : bool }.

Record RepliedMessage := { replyFrom : option User }.

Record Message := {
  chat : Z;                                   (* message.chat.id *)
  from : Z;                                   (* message.from.id *)
  text : option jsstring;                     (* message.text *)
  reply_to_message : option RepliedMessage
}.

Record CallbackQuery := {
  callbackId : jsstring;                      (* callbackQuery.id *)
  callbackFrom : Z;                           (* callbackQuery.from.id *)
  callbackChat : Z;                           (* callbackQuery.message.chat.id *)
  data : jsstring
}.

Inductive Update :=
| UpdateMessage (message : Message)
| UpdateCallbackQuery (callback_query : CallbackQuery)
| UpdateOther.

(** What surrounds one call of the handler. *)
Record Env := {
  config : Config;
  persistentSessions : PersistentSessionManager;
  (** [injector.injectCommand(command, session)]: [None] when it resolves,
      [Some message] when it throws an error with that message. *)
  injectCommand : jsstring -> jsstring -> option jsstring;
  (** [Date.now()], in milliseconds. *)
  dateNow : Z;
  (** What [_getBotUsername] resolves to. *)
  botUsername : jsstring
}.

Module Webhook.
Section Handler.
Context (env : Env).
Local Open Scope handler_scope.

Definition sendMessage (chatId : Z) (text : jsstring) (markdown : bool) : Handler unit :=
  emit (SendMessage chatId text markdown).

Definition isAuthorized (userId chatId : Z) : bool :=
  let whitelist := whitelist (config env) in
  if existsb (eqb (ofInt chatId)) whitelist || existsb (eqb (ofInt userId)) whitelist
  then true
  else
    match whitelist with
    | [] =>
        match orElse (configChatId (config env)) (configGroupId (config env)) with
        | Some configuredChatId => eqb (ofInt chatId) configuredChatId
        | None => false
        end
    | _ :: _ => false
    end.

(** The loop of [_findSessionByToken] over the files of the directory. *)
Fixpoint scanFiles (token : jsstring) (files : list (jsstring * option Session.t))
    : option Session.t :=
  match files with
  | [] => None
  | (file, content) :: rest =>
      if negb (endsWith file (lit ".json")) || eqb file (lit "chat-sessions.json")
      then scanFiles token rest
      else
        match content with
        | Some session =>
            if eqb (Session.token session) token then Some session
            else scanFiles token rest
        | None => scanFiles token rest
        end
  end.

(** The files are scanned in the order of [readdirSync], here the order in
    which [map_to_list] lists the directory; no property below depends on
    it. *)
Definition findSessionByToken (token : jsstring) : Handler (option Session.t) :=
  found <- ask (GetSessionByToken token)
             (fun d => getSessionByToken (persistentSessions env) d token) ;;
  match found with
  | Some session =>
      ret (Some {| Session.id := PersistentSession.sessionId session;
                   Session.token := PersistentSession.token session;
                   Session.tmuxSession := PersistentSession.tmuxSession session;
                   Session.project := PersistentSession.project session;
                   Session.createdAt := None;
                   Session.expiresAt := PersistentSession.expiresAt session;
                   Session.chatId := Some (PersistentSession.chatId session) |})
  | None => ask ReadSessionsDir (fun d => scanFiles token (map_to_list d))
  end.

Definition removeSession (sessionId : jsstring) : Handler unit :=
  fun d =>
    match d !! sessionFile sessionId with
    | Some _ => (tt, delete (sessionFile sessionId) d, [Unlink (sessionFile sessionId)])
    | None => (tt, d, [])
    end.

Definition processCommand (chatId : Z) (token command : jsstring) : Handler unit :=
  session <- findSessionByToken token ;;
  match session with
  | None => sendMessage chatId Text.invalidToken true
  | Some session =>
      if Session.expiresAt session <? dateNow env / 1000 then
        sendMessage chatId Text.tokenExpired true ;;
        removeSession (Session.id session)
      else
        let tmuxSession :=
          if truthy (Session.tmuxSession session) then Session.tmuxSession session
          else lit "default" in
        emit (InjectCommand command tmuxSession) ;;
        match injectCommand env command tmuxSession with
        | None => sendMessage chatId (Text.commandSent command tmuxSession) true
        | Some errorMessage => sendMessage chatId (Text.commandFailed errorMessage) true
        end
  end.

Definition sendWelcomeMessage (chatId : Z) : Handler unit :=
  sendMessage chatId Text.welcome false.

Definition sendHelpMessage (chatId : Z) : Handler unit :=
  sendMessage chatId Text.help false.

(** Lines 112-140 of [_handleMessage]: parse, then dispatch or answer
    with the usage hint. *)
Definition parseAndProcess (chatId : Z) (messageText : jsstring) : Handler unit :=
  match parseCommand messageText with
  | Some (token, command) => processCommand chatId token command
  | None => sendMessage chatId Text.invalidFormat false
  end.

(** [message.reply_to_message && message.reply_to_message.from &&
    message.reply_to_message.from.is_bot] *)
Definition repliesToBot (message : Message) : bool :=
  match reply_to_message message with
  | Some replied =>
      match replyFrom replied with
      | Some user => is_bot user
      | None => false
      end
  | None => false
  end.

Definition handleMessage (message : Message) : Handler unit :=
  let chatId := chat message in
  let userId := from message in
  match trim <$> text message with
  | None => ret tt
  | Some messageText =>
      if negb (truthy messageText) then ret tt
      else if negb (isAuthorized userId chatId) then
        sendMessage chatId Text.unauthorized false
      else if eqb messageText (lit "/start") then sendWelcomeMessage chatId
      else if eqb messageText (lit "/help") then sendHelpMessage chatId
      else if repliesToBot message then
        current <- ask (GetCurrentChatSession (ofInt chatId))
                     (fun d => getCurrentChatSession (persistentSessions env) d
                                 (ofInt chatId)) ;;
        match current with
        | Some currentSession =>
            processCommand chatId (PersistentSession.token currentSession) messageText
        | None => parseAndProcess chatId messageText
        end
      else parseAndProcess chatId messageText
  end.

(** [data.split(':')[i]]; every use follows a [startsWith] of a prefix
    that ends in a colon, so index 1 exists. *)
Definition part (parts : list jsstring) (i : nat) : jsstring :=
  default [] (parts !! i).

Definition handleCallbackQuery (callbackQuery : CallbackQuery) : Handler unit :=
  let chatId := callbackChat callbackQuery in
  let data := data callbackQuery in
  emit (AnswerCallbackQuery (callbackId callbackQuery)) ;;
  if startsWith data (lit "personal:") then
    let token := part (split 58 data) 1 in
    sendMessage chatId (Text.personalFormat token) true
  else if startsWith data (lit "group:") then
    let token := part (split 58 data) 1 in
    emit GetBotUsername ;;
    sendMessage chatId (Text.groupFormat (botUsername env) token) true
  else if startsWith data (lit "copy:") then
    let token := part (split 58 data) 1 in
    sendMessage chatId (Text.copyFormat token) false
  else if startsWith data (lit "format:") then
    let token := part (split 58 data) 1 in
    sendMessage chatId (Text.commandFormat token) false
  else if startsWith data (lit "quickcmd:") then
    let parts := split 58 data in
    let token := part parts 1 in
    let command := join (lit ":") (drop 2 parts) in
    processCommand chatId token command
  else if startsWith data (lit "session:") then
    let token := part (split 58 data) 1 in
    sendMessage chatId (Text.sessionHelp token) true
  else ret tt.

(** [_handleWebhook], up to the HTTP answer. *)
Definition handleWebhook (update : Update) : Handler unit :=
  match update with
  | UpdateMessage message => handleMessage message
  | UpdateCallbackQuery callbackQuery => handleCallbackQuery callbackQuery
  | UpdateOther => ret tt
  end.

End Handler.
End Webhook.

(** What a lookup of [token] finds in the store as it is. *)
Definition lookupSession (env : Env) (token : jsstring) (d : Dir) : option Session.t :=
  (Webhook.findSessionByToken env token d).1.1.

(* ================================================================== *)
(** ** The webhook handler when a call throws *)
(* ================================================================== *)

(** The calls of the handler that sit outside every [try] of its own: the
    two queries of the persistent sessions, [fs.readdirSync] and
    [fs.unlinkSync].  A throw of one of them ends the handler and reaches
    the [catch] of [_handleWebhook].  ([_sendMessage],
    [_answerCallbackQuery] and [_getBotUsername] catch what their request
    throws, [_processCommand] what the injector throws, and
    [_findSessionByToken] what reading or parsing one file throws.) *)
Record Faults := {
  getSessionByTokenThrows : Dir -> jsstring -> bool;
  getCurrentChatSessionThrows : Dir -> jsstring -> bool;
  readdirSyncThrows : Dir -> bool;
  unlinkSyncThrows : Dir -> jsstring -> bool
}.

(** [res.status(200)] and [res.status(500)] of [_handleWebhook]. *)
Inductive Status := Status200 | Status500.

(** A handler that may throw: [None] for a throw, with the directory and
    the calls made up to it. *)
Definition Try (A : Type) : Type := Dir -> option A * Dir * list Event.

Definition retT {A} (a : A) : Try A := fun d => (Some a, d, []).

Definition bindT {A B} (m : Try A) (f : A -> Try B) : Try B :=
  fun d =>
    let '(r, d1, log1) := m d in
    match r with
    | Some a => let '(b, d2, log2) := f a d1 in (b, d2, log1 ++ log2)
    | None => (None, d1, log1)
    end.

(** A part of the handler that cannot throw. *)
Definition lift {A} (m : Handler A) : Try A :=
  fun d => let '(a, d1, log) := m d in (Some a, d1, log).

(** A call that reads and may throw. *)
Definition askT {A} (e : Event) (answer : Dir -> A) (throws : Dir -> bool) : Try A :=
  fun d => if throws d then (None, d, [e]) else (Some (answer d), d, [e]).

Declare Scope try_scope.
Delimit Scope try_scope with try.
Notation "x <- m ;; k" := (bindT m (fun x => k))
  (at level 100, m at next level, right associativity) : try_scope.
Notation "m ;; k" := (bindT m (fun _ => k))
  (at level 100, right associativity) : try_scope.

Module Throwing.
Section Handler.
Context (env : Env) (faults : Faults).
Local Open Scope try_scope.

Definition findSessionByToken (token : jsstring) : Try (option Session.t) :=
  found <- askT (GetSessionByToken token)
             (fun d => getSessionByToken (persistentSessions env) d token)
             (fun d => getSessionByTokenThrows faults d token) ;;
  match found with
  | Some session =>
      retT (Some {| Session.id := PersistentSession.sessionId session;
                    Session.token := PersistentSession.token session;
                    Session.tmuxSession := PersistentSession.tmuxSession session;
                    Session.project := PersistentSession.project session;
                    Session.createdAt := None;
                    Session.expiresAt := PersistentSession.expiresAt session;
                    Session.chatId := Some (PersistentSession.chatId session) |})
  | None =>
      askT ReadSessionsDir (fun d => Webhook.scanFiles token (map_to_list d))
        (readdirSyncThrows faults)
  end.

Definition removeSession (sessionId : jsstring) : Try unit :=
  fun d =>
    match d !! sessionFile sessionId with
    | Some _ =>
        if unlinkSyncThrows faults d (sessionFile sessionId)
        then (None, d, [Unlink (sessionFile sessionId)])
        else (Some tt, delete (sessionFile sessionId) d, [Unlink (sessionFile sessionId)])
    | None => (Some tt, d, [])
    end.

Definition processCommand (chatId : Z) (token command : jsstring) : Try unit :=
  session <- findSessionByToken token ;;
  match session with
  | None => lift (Webhook.sendMessage chatId Text.invalidToken true)
  | Some session =>
      if Session.expiresAt session <? dateNow env / 1000 then
        lift (Webhook.sendMessage chatId Text.tokenExpired true) ;;
        removeSession (Session.id session)
      else
        let tmuxSession :=
          if truthy (Session.tmuxSession session) then Session.tmuxSession session
          else lit "default" in
        lift (emit (InjectCommand command tmuxSession)) ;;
        match injectCommand env command tmuxSession with
        | None => lift (Webhook.sendMessage chatId (Text.commandSent command tmuxSession) true)
        | Some errorMessage =>
            lift (Webhook.sendMessage chatId (Text.commandFailed errorMessage) true)
        end
  end.

Definition parseAndProcess (chatId : Z) (messageText : jsstring) : Try unit :=
  match parseCommand messageText with
  | Some (token, command) => processCommand chatId token command
  | None => lift (Webhook.sendMessage chatId Text.invalidFormat false)
  end.

Definition handleMessage (message : Message) : Try unit :=
  let chatId := chat message in
  let userId := from message in
  match trim <$> text message with
  | None => retT tt
  | Some messageText =>
      if negb (truthy messageText) then retT tt
      else if negb (Webhook.isAuthorized env userId chatId) then
        lift (Webhook.sendMessage chatId Text.unauthorized false)
      else if eqb messageText (lit "/start") then lift (Webhook.sendWelcomeMessage chatId)
      else if eqb messageText (lit "/help") then lift (Webhook.sendHelpMessage chatId)
      else if Webhook.repliesToBot message then
        current <- askT (GetCurrentChatSession (ofInt chatId))
                     (fun d => getCurrentChatSession (persistentSessions env) d
                                 (ofInt chatId))
                     (fun d => getCurrentChatSessionThrows faults d (ofInt chatId)) ;;
        match current with
        | Some currentSession =>
            processCommand chatId (PersistentSession.token currentSession) messageText
        | None => parseAndProcess chatId messageText
        end
      else parseAndProcess chatId messageText
  end.

Definition handleCallbackQuery (callbackQuery : CallbackQuery) : Try unit :=
  let chatId := callbackChat callbackQuery in
  let data := data callbackQuery in
  lift (emit (AnswerCallbackQuery (callbackId callbackQuery))) ;;
  if startsWith data (lit "personal:") then
    let token := Webhook.part (split 58 data) 1 in
    lift (Webhook.sendMessage chatId (Text.personalFormat token) true)
  else if startsWith data (lit "group:") then
    let token := Webhook.part (split 58 data) 1 in
    lift (emit GetBotUsername) ;;
    lift (Webhook.sendMessage chatId (Text.groupFormat (botUsername env) token) true)
  else if startsWith data (lit "copy:") then
    let token := Webhook.part (split 58 data) 1 in
    lift (Webhook.sendMessage chatId (Text.copyFormat token) false)
  else if startsWith data (lit "format:") then
    let token := Webhook.part (split 58 data) 1 in
    lift (Webhook.sendMessage chatId (Text.commandFormat token) false)
  else if startsWith data (lit "quickcmd:") then
    let parts := split 58 data in
    let token := Webhook.part parts 1 in
    let command := join (lit ":") (drop 2 parts) in
    processCommand chatId token command
  else if startsWith data (lit "session:") then
    let token := Webhook.part (split 58 data) 1 in
    lift (Webhook.sendMessage chatId (Text.sessionHelp token) true)
  else retT tt.

(** [_handleWebhook] with its [catch]: the answer is 500 when the handling
    threw, 200 otherwise. *)
Definition handleWebhook (update : Update) : Dir -> Status * Dir * list Event :=
  fun d =>
    let '(r, d1, log) :=
      match update with
      | UpdateMessage message => handleMessage message d
      | UpdateCallbackQuery callbackQuery => handleCallbackQuery callbackQuery d
      | UpdateOther => retT tt d
      end in
    (match r with Some _ => Status200 | None => Status500 end, d1, log).

End Handler.
End Throwing.

(** No call throws. *)
Definition noFaults : Faults :=
  {| getSessionByTokenThrows := fun _ _ => false;
     getCurrentChatSessionThrows := fun _ _ => false;
     readdirSyncThrows := fun _ => false;
     unlinkSyncThrows := fun _ _ => false |}.

(** [Number.isSafeInteger(n)]: the integers a Number holds exactly, which
    [String(n)] prints digit by digit.  (From [1e21] on [String] prints an
    exponent, and above [2^53] not every integer is a Number.) *)
Definition isSafeInteger (n : Z) : Prop := - 2 ^ 53 < n < 2 ^ 53.

(** No call of the handler throws, whatever the directory and the
    argument. *)
Definition quiet (faults : Faults) : Prop :=
  (forall d token, getSessionByTokenThrows faults d token = false) /\
  (forall d chatId, getCurrentChatSessionThrows faults d chatId = false) /\
  (forall d, readdirSyncThrows faults d = false) /\
  (forall d file, unlinkSyncThrows faults d file = false).

(** How a run [t] that may throw stands to the run [h] of the same code
    where nothing throws: it is that run when it ends without a throw; a
    throw needs a call that throws, and leaves the calls of [h] up to
    it. *)
Definition cutShort {A} (faults : Faults) (t : option A * Dir * list Event)
    (h : A * Dir * list Event) : Prop :=
  match t.1.1 with
  | Some a => h = (a, t.1.2, t.2)
  | None => ~ quiet faults /\ exists rest, calls h = t.2 ++ rest
  end.

(* ================================================================== *)
(** ** Double-precision products *)
(* ================================================================== *)

Module Double.

(** Round the positive integer [x] to 53 significant bits, ties to even:
    the rounding of an exact product of two doubles (no overflow or
    underflow can occur for the products of this program). *)
Definition round53 (x : Z) : Z :=
  let s := Z.log2 x - 52 in
  if s <=? 0 then x
  else
    let q := x / 2 ^ s in
    let r := x mod 2 ^ s in
    let h := 2 ^ (s - 1) in
    if (h <? r) || ((r =? h) && Z.odd q) then (q + 1) * 2 ^ s else q * 2 ^ s.

(** A non-negative double [mant * 2^-expo]. *)
Record t := mk { mant : Z; expo : Z }.

(** [Math.floor(a * b)]. *)
Definition floorMul (a b : t) : Z :=
  round53 (mant a * mant b) / 2 ^ (expo a + expo b).

Definition ofInt (n : Z) : t := mk n 0.

(** The literal [0.3]: the double nearest to three tenths is
    [5404319552844595 * 2^-54]. *)
Definition threeTenths : t := mk 5404319552844595 54.

(** A double in the interval from 0 (included) to 1 (excluded), the range
    of [Math.random()]. *)
Definition inUnitInterval (d : t) : Prop :=
  0 <= mant d < 2 ^ 53 /\ 0 <= expo d /\ mant d < 2 ^ expo d.

End Double.

(* ================================================================== *)
(** ** The notification channel (telegram.js) *)
(* ================================================================== *)

(** [notification.metadata]; an absent field is the empty string, which the
    code treats alike (both are falsy). *)
Record Metadata := {
  userQuestion : jsstring;
  claudeResponse : jsstring;
  metaTmuxSession : jsstring
}.

Record Notification := {
  type : jsstring;
  notifProject : jsstring;
  message : jsstring;
  metadata : option Metadata
}.

(** [tmuxMonitor.getRecentConversation(tmuxSession)] *)
Record Conversation := {
  convUserQuestion : jsstring;
  convClaudeResponse : jsstring
}.

(** The body of the [sendMessage] request. *)
Record Request := {
  chat_id : option jsstring;
  requestText : jsstring;
  callback_data : list jsstring
}.

(** What surrounds one call of [_sendImpl]. *)
Record ChannelEnv := {
  channelConfig : Config;
  uuidv4 : jsstring;
  (** the results of the successive calls of [Math.random()] *)
  random : nat -> Double.t;
  (** [_getCurrentTmuxSession()], [None] for [null] *)
  currentTmuxSession : option jsstring;
  getRecentConversation : jsstring -> Conversation;
  (** [Date.now()] where [createdAt] and where [expiresAt] is computed *)
  dateNowCreated : Z;
  dateNowExpires : Z;
  (** whether [axios.post] resolves *)
  postResolves : Request -> bool
}.

Inductive Outcome :=
| Throws
| Returns (sent : bool) (request : Request).

Module Channel.

Definition chars : jsstring := lit "ABCDEFGHIJKLMNOPQRSTUVWXYZ0123456789".

(** [chars.charAt(i)]: the empty string outside the string. *)
Definition charAt (s : jsstring) (i : Z) : jsstring :=
  if i <? 0 then []
  else match s !! Z.to_nat i with
       | Some c => [c]
       | None => []
       end.

(** The loop of [_generateToken]: [i] counts the rounds done, [n] those
    left. *)
Fixpoint generateTokenFrom (random : nat -> Double.t) (i n : nat) (token : jsstring)
    : jsstring :=
  match n with
  | O => token
  | S n' =>
      let index := Double.floorMul (random i) (Double.ofInt (Z.of_nat (length chars))) in
      generateTokenFrom random (S i) n' (token ++ charAt chars index)
  end.

Definition generateToken (random : nat -> Double.t) : jsstring :=
  generateTokenFrom random 0 8 [].

Definition truthyOpt (a : option jsstring) : bool :=
  match a with Some s => truthy s | None => false end.

Definition validateConfig (config : Config) : bool :=
  if negb (truthyOpt (botToken config)) then false
  else if negb (truthyOpt (configChatId config)) && negb (truthyOpt (configGroupId config))
  then false
  else true.

Definition len (s : jsstring) : Z := Z.of_nat (length s).

(** [text.length > max ? text.substring(0, max - 3) + '...' : text] *)
Definition clip (text : jsstring) (max : Z) : jsstring :=
  if max <? len text then take (Z.to_nat (max - 3)) text ++ lit "..." else text.

Definition messageHead (notification : Notification) (token : jsstring) : jsstring :=
  let completed := eqb (type notification) (lit "completed") in
  let emoji := if completed then Text.checkMark else Text.hourglass in
  let status := if completed then lit "Completed" else lit "Waiting for Input" in
  emoji ++ lit " *Claude Task " ++ status ++ lit "*" ++ nl ++
  lit "*Project:* " ++ notifProject notification ++ nl ++
  lit "*Session Token:* `" ++ token ++ lit "`" ++ nl ++ nl.

Definition messageFoot (token : jsstring) : jsstring :=
  Text.speech ++ lit " *To send a new command:*" ++ nl ++
  lit "Reply with: `/cmd " ++ token ++ lit " <your command>`" ++ nl ++
  lit "Example: `/cmd " ++ token ++ lit " Please analyze this code`".

Definition userQuestionHeader : jsstring := Text.memo ++ lit " *Your Question:*" ++ nl.
Definition claudeResponseHeader : jsstring := Text.robot ++ lit " *Claude Response:*" ++ nl.
Definition sectionSeparator : jsstring := nl ++ nl.

(** The question section: the text added and the space left. *)
Definition questionSection (meta : Metadata) (remainingSpace : Z) : jsstring * Z :=
  if truthy (userQuestion meta) && (50 <? remainingSpace) then
    let headerLength := len userQuestionHeader + len sectionSeparator in
    let maxQuestionLength :=
      Z.min 500
        (Double.floorMul (Double.ofInt remainingSpace) Double.threeTenths - headerLength) in
    if 20 <? maxQuestionLength then
      let questionText := clip (userQuestion meta) maxQuestionLength in
      (userQuestionHeader ++ questionText ++ sectionSeparator,
       remainingSpace - (headerLength + len questionText))
    else ([], remainingSpace)
  else ([], remainingSpace).

Definition responseSection (meta : Metadata) (remainingSpace : Z) : jsstring :=
  if truthy (claudeResponse meta) && (50 <? remainingSpace) then
    let headerLength := len claudeResponseHeader + len sectionSeparator in
    let maxResponseLength := remainingSpace - headerLength - 10 in
    if 20 <? maxResponseLength then
      let responseText := clip (claudeResponse meta) maxResponseLength in
      claudeResponseHeader ++ responseText ++ sectionSeparator
    else []
  else [].

(** The fixed frame, whose length is measured first. *)
Definition fixedContent (notification : Notification) (token : jsstring) : jsstring :=
  messageHead notification token ++ messageFoot token.

Definition maxTotalLength : Z := 4000.

Definition generateTelegramMessage (notification : Notification)
    (sessionId token : jsstring) : jsstring :=
  let fixedContentLength := len (fixedContent notification token) in
  let availableSpace := maxTotalLength - fixedContentLength in
  let sections :=
    match metadata notification with
    | Some meta =>
        if 100 <? availableSpace then
          let '(question, remainingSpace) := questionSection meta availableSpace in
          question ++ responseSection meta remainingSpace
        else []
    | None => []
    end in
  messageHead notification token ++ sections ++ messageFoot token.

(** The object literal of [_createSession]; [t1] and [t2] are what
    [Date.now()] returns on the lines of [createdAt] and [expiresAt].  The
    quotient by 1000 of an integer number of milliseconds is far from any
    rounding of the double division, so [Math.floor] of it is the integer
    quotient. *)
Definition newSession (t1 t2 : Z) (sessionId : jsstring) (notification : Notification)
    (token : jsstring) : Session.t :=
  {| Session.id := sessionId;
     Session.token := token;
     Session.tmuxSession :=
       match metadata notification with
       | Some meta =>
           if truthy (metaTmuxSession meta) then metaTmuxSession meta else lit "default"
       | None => lit "default"
       end;
     Session.project := notifProject notification;
     Session.createdAt := Some (t1 / 1000);
     Session.expiresAt := (t2 + 24 * 60 * 60 * 1000) / 1000;
     Session.chatId := None |}.

Definition createSession (t1 t2 : Z) (sessionId : jsstring) (notification : Notification)
    (token : jsstring) (d : Dir) : Dir :=
  <[sessionFile sessionId := Some (newSession t1 t2 sessionId notification token)]> d.

Definition removeSession (sessionId : jsstring) (d : Dir) : Dir :=
  match d !! sessionFile sessionId with
  | Some _ => delete (sessionFile sessionId) d
  | None => d
  end.

(** The metadata [_sendImpl] fills in when the notification has none and
    a tmux session is current. *)
Definition withConversation (env : ChannelEnv) (notification : Notification) : Notification :=
  match currentTmuxSession env, metadata notification with
  | Some tmuxSession, None =>
      if truthy tmuxSession then
        let conversation := getRecentConversation env tmuxSession in
        {| type := type notification;
           notifProject := notifProject notification;
           message := message notification;
           metadata := Some
             {| userQuestion :=
                  if truthy (convUserQuestion conversation)
                  then convUserQuestion conversation else message notification;
                claudeResponse :=
                  if truthy (convClaudeResponse conversation)
                  then convClaudeResponse conversation else message notification;
                metaTmuxSession := tmuxSession |} |}
      else notification
  | _, _ => notification
  end.

Definition sendImpl (env : ChannelEnv) (notification : Notification) (d : Dir)
    : Outcome * Dir :=
  if negb (validateConfig (channelConfig env)) then (Throws, d)
  else
    let sessionId := uuidv4 env in
    let token := generateToken (random env) in
    let notification := withConversation env notification in
    let d1 := createSession (dateNowCreated env) (dateNowExpires env)
                sessionId notification token d in
    let messageText := generateTelegramMessage notification sessionId token in
    let chatId := orElse (configGroupId (channelConfig env))
                         (configChatId (channelConfig env)) in
    let requestData :=
      {| chat_id := chatId;
         requestText := messageText;
         callback_data := [lit "personal:" ++ token; lit "group:" ++ token] |} in
    if postResolves env requestData then (Returns true requestData, d1)
    else (Returns false requestData, removeSession sessionId d1).

End Channel.

(* ================================================================== *)
(** ** The name of the bot *)
(* ================================================================== *)

(** What the request [getMe] comes to: it throws, or it resolves with
    [response.data.ok] and [response.data.result.username] (the empty
    string where there is none). *)
Inductive GetMe :=
| GetMeThrows
| GetMeResponse (ok : bool) (username : jsstring).

(** [_getBotUsername], the same in both classes.  [cache] is
    [this.botUsername] before the call and [configBotUsername] is
    [this.config.botUsername]; the result is the name returned, the cache
    after the call, and whether Telegram was asked. *)
Definition getBotUsername (configBotUsername : option jsstring) (getMe : GetMe)
    (cache : option jsstring) : jsstring * option jsstring * bool :=
  let fallback :=
    match orElse configBotUsername (Some (lit "claude_remote_bot")) with
    | Some name => name
    | None => lit "claude_remote_bot"
    end in
  let fetch :=
    match getMe with
    | GetMeResponse true username =>
        if truthy username then (username, Some username, true)
        else (fallback, cache, true)
    | GetMeResponse false _ => (fallback, cache, true)
    | GetMeThrows => (fallback, cache, true)
    end in
  match cache with
  | Some name => if truthy name then (name, cache, false) else fetch
  | None => fetch
  end.

(* ================================================================== *)
(** ** What a log shows *)
(* ================================================================== *)

(** The messages sent to the operator. *)
Fixpoint replies (log : list Event) : list (Z * jsstring) :=
  match log with
  | [] => []
  | SendMessage chatId text _ :: log' => (chatId, text) :: replies log'
  | _ :: log' => replies log'
  end.

(** The commands handed to the injector. *)
Fixpoint injections (log : list Event) : list (jsstring * jsstring) :=
  match log with
  | [] => []
  | InjectCommand command tmuxSession :: log' => (command, tmuxSession) :: injections log'
  | _ :: log' => injections log'
  end.

(** The tokens looked up in the session store. *)
Fixpoint lookups (log : list Event) : list jsstring :=
  match log with
  | [] => []
  | GetSessionByToken token :: log' => token :: lookups log'
  | _ :: log' => lookups log'
  end.

(** [text] is [original], or a prefix of it followed by ["..."]. *)
Definition clipOf (original text : jsstring) : Prop :=
  text = original \/ exists k, text = take k original ++ lit "...".

(* ================================================================== *)
(** ** Sample data *)
(* ================================================================== *)

Module Sample.

(** Eight draws of [Math.random()], multiples of [2^-53]. *)
Definition draws (i : nat) : Double.t :=
  Double.mk ((Z.of_nat i * 1111111111111111 + 123456789012345) mod 2 ^ 53) 53.

(** A notification whose question and response are far longer than a
    Telegram message. *)
Definition longNotification : Notification :=
  {| type := lit "completed";
     notifProject := lit "repo-x";
     message := lit "done";
     metadata := Some {| userQuestion := replicate 700 113;
                         claudeResponse := replicate 5000 114;
                         metaTmuxSession := lit "main" |} |}.

Definition personalChat : Config :=
  {| whitelist := [];
     configChatId := Some (lit "42");
     configGroupId := None;
     botToken := Some (lit "123456:bot-token") |}.

(** A call of [_sendImpl] whose request to Telegram fails. *)
Definition failingSend : ChannelEnv :=
  {| channelConfig := personalChat;
     uuidv4 := lit "6ec0bd7f-11c0-43da-975e-2a8ad9ebae0b";
     random := draws;
     currentTmuxSession := Some (lit "main");
     getRecentConversation := fun _ =>
       {| convUserQuestion := lit "run the tests"; convClaudeResponse := [] |};
     dateNowCreated := 1700000000123;
     dateNowExpires := 1700000000123;
     postResolves := fun _ => false |}.

Definition notification : Notification :=
  {| type := lit "waiting";
     notifProject := lit "repo-x";
     message := lit "Claude needs your input";
     metadata := None |}.

(** A persistent-session manager that knows no session. *)
Definition noPersistentSessions : PersistentSessionManager :=
  {| getSessionByToken := fun _ _ => None; getCurrentChatSession := fun _ _ => None |}.

Definition currentSession : PersistentSession.t :=
  {| PersistentSession.sessionId := lit "7c9e6679-7425-40de-944b-e07fc1f90ae7";
     PersistentSession.token := lit "XYZ98765";
     PersistentSession.tmuxSession := lit "main";
     PersistentSession.project := lit "repo-x";
     PersistentSession.expiresAt := 1700604800;
     PersistentSession.chatId := lit "42" |}.

(** A manager for which chat 42 has a current session; as the spec has it
    for [getByToken], the token is compared in upper case. *)
Definition persistentSessionsOfChat42 : PersistentSessionManager :=
  {| getSessionByToken := fun _ token =>
       if eqb (toUpperCase token) (lit "XYZ98765") then Some currentSession else None;
     getCurrentChatSession := fun _ chatId =>
       if eqb chatId (lit "42") then Some currentSession else None |}.

(** The session a notification at second 1700000000 leaves behind. *)
Definition storedSession : Session.t :=
  Channel.newSession 1700000000123 1700000000123
    (lit "1b9d6bcd-bbfd-4b2d-9b5d-ab8dfbbd4bed") longNotification (lit "ABC12345").

Definition sessionsDir : Dir :=
  {[ sessionFile (lit "1b9d6bcd-bbfd-4b2d-9b5d-ab8dfbbd4bed") := Some storedSession ]}.

Definition webhookConfig : Config :=
  {| whitelist := [lit "42"];
     configChatId := Some (lit "42");
     configGroupId := None;
     botToken := Some (lit "123456:bot-token") |}.

(** The handler at the millisecond [now], with an injector that always
    succeeds. *)
Definition webhook (manager : PersistentSessionManager) (now : Z) : Env :=
  {| config := webhookConfig;
     persistentSessions := manager;
     injectCommand := fun _ _ => None;
     dateNow := now;
     botUsername := lit "claude_remote_bot" |}.

(** A text message of user 42 in chat 42. *)
Definition textMessage (text : jsstring) (replyToBot : bool) : Message :=
  {| chat := 42;
     from := 42;
     text := Some text;
     reply_to_message :=
       if replyToBot
       then Some {| replyFrom := Some {| userId := 7000; is_bot := true |} |}
       else None |}.

(** A button pressed by user 666 in chat 777, neither of them allowed. *)
Definition strangerCallback : CallbackQuery :=
  {| callbackId := lit "cb-1";
     callbackFrom := 666;
     callbackChat := 777;
     data := lit "quickcmd:ABC12345:ls" |}.

(** A call of [_sendImpl] whose request to Telegram succeeds. *)
Definition succeedingSend : ChannelEnv :=
  {| channelConfig := personalChat;
     uuidv4 := lit "9b1deb4d-3b7d-4bad-9bdd-2b0d7b3dcb6d";
     random := draws;
     currentTmuxSession := None;
     getRecentConversation := fun _ => {| convUserQuestion := []; convClaudeResponse := [] |};
     dateNowCreated := 1700000000123;
     dateNowExpires := 1700000000123;
     postResolves := fun _ => true |}.

(** A notification whose question and response are short. *)
Definition shortNotification : Notification :=
  {| type := lit "completed";
     notifProject := lit "repo-x";
     message := lit "done";
     metadata := Some {| userQuestion := lit "run the tests";
                         claudeResponse := lit "All 42 tests pass.";
                         metaTmuxSession := lit "main" |} |}.

(** A sessions directory that cannot be listed: [readdirSync] throws. *)
Definition missingDirectory : Faults :=
  {| getSessionByTokenThrows := fun _ _ => false;
     getCurrentChatSessionThrows := fun _ _ => false;
     readdirSyncThrows := fun _ => true;
     unlinkSyncThrows := fun _ _ => false |}.

End Sample.

(* ================================================================== *)
(** ** Properties of the double-precision products *)
(* ================================================================== *)

Section DoubleFacts.
Import Double.

Lemma round53_nonneg x : 0 <= x -> 0 <= round53 x.
Proof.
  intros Hx. unfold round53. cbv zeta.
  destruct (Z.leb_spec (Z.log2 x - 52) 0) as [Hs|Hs]; [lia|].
  assert (Hp : 0 < 2 ^ (Z.log2 x - 52)) by (apply Z.pow_pos_nonneg; lia).
  assert (Hq : 0 <= x / 2 ^ (Z.log2 x - 52)) by (apply Z.div_pos; lia).
  destruct (_ || _); nia.
Qed.

(** Rounding moves a product up by at most half a unit in the last
    place. *)
Lemma round53_upper x : 0 <= x -> round53 x <= x + 2 ^ (Z.log2 x - 53).
Proof.
  intros Hx. unfold round53. cbv zeta.
  destruct (Z.leb_spec (Z.log2 x - 52) 0) as [Hs|Hs].
  - assert (0 <= 2 ^ (Z.log2 x - 53)) by (apply Z.pow_nonneg; lia). lia.
  - set (s := Z.log2 x - 52) in *.
    replace (Z.log2 x - 53) with (s - 1) by lia.
    assert (Hp : 2 ^ s = 2 * 2 ^ (s - 1)).
    { replace s with (Z.succ (s - 1)) at 1 by lia. apply Z.pow_succ_r. lia. }
    assert (Hh : 0 < 2 ^ (s - 1)) by (apply Z.pow_pos_nonneg; lia).
    pose proof (Z.div_mod x (2 ^ s) ltac:(lia)) as Hdm.
    pose proof (Z.mod_pos_bound x (2 ^ s) ltac:(lia)) as Hm.
    destruct (Z.ltb_spec (2 ^ (s - 1)) (x mod 2 ^ s)) as [H1|H1]; cbn [orb].
    + nia.
    + destruct (Z.eqb_spec (x mod 2 ^ s) (2 ^ (s - 1))) as [H2|H2]; cbn [andb].
      * destruct (Z.odd _); nia.
      * nia.
Qed.

(** [Math.floor(Math.random() * 36)] is an index into a string of 36
    code units, also after the product is rounded. *)
Lemma floorMul_random_index d :
  inUnitInterval d -> 0 <= floorMul d (ofInt 36) < 36.
Proof.
  destruct d as [m e]. unfold inUnitInterval, floorMul. cbn [mant expo ofInt].
  intros ([Hm0 Hm] & He & Hme). rewrite Z.add_0_r.
  assert (Hpe : 0 < 2 ^ e) by (apply Z.pow_pos_nonneg; lia).
  assert (Hx : 0 <= m * 36) by lia.
  pose proof (round53_nonneg _ Hx) as Hlo.
  pose proof (round53_upper _ Hx) as Hup.
  assert (Hulp : 2 ^ (Z.log2 (m * 36) - 53) <= 32).
  { change 32 with (2 ^ 5). apply Z.pow_le_mono_r; [lia|].
    destruct (Z.eq_dec m 0) as [->|Hne]; [now vm_compute|].
    assert (Z.log2 (m * 36) < 59); [|lia].
    apply Z.log2_lt_pow2; [lia|].
    change (2 ^ 59) with (64 * 2 ^ 53). lia. }
  split.
  - apply Z.div_pos; lia.
  - apply Z.div_lt_upper_bound; [lia|].
    destruct (Z.le_gt_cases e 53) as [Hle|Hgt].
    + lia.
    + assert (2 * 2 ^ 53 <= 2 ^ e).
      { change (2 * 2 ^ 53) with (2 ^ 54). apply Z.pow_le_mono_r; lia. }
      lia.
Qed.

(** [Math.floor(r * 0.3)] never exceeds [r]. *)
Lemma floorMul_threeTenths_le r :
  0 <= r -> floorMul (ofInt r) threeTenths <= r.
Proof.
  intros Hr. unfold floorMul, ofInt, threeTenths. cbn [mant expo].
  rewrite Z.add_0_l.
  set (m := 5404319552844595).
  assert (Hx : 0 <= r * m) by (subst m; lia).
  pose proof (round53_upper _ Hx) as Hup.
  assert (Hulp : 2 ^ (Z.log2 (r * m) - 53) <= r * m).
  { destruct (Z.eq_dec r 0) as [->|Hne]; [now vm_compute|].
    assert (Hpos : 0 < r * m) by (subst m; lia).
    pose proof (Z.log2_spec _ Hpos) as [Hl _].
    assert (2 ^ (Z.log2 (r * m) - 53) <= 2 ^ Z.log2 (r * m)); [|lia].
    apply Z.pow_le_mono_r; lia. }
  apply Z.div_le_upper_bound; [lia|].
  change (2 ^ 54) with 18014398509481984. subst m. lia.
Qed.

End DoubleFacts.

(* ================================================================== *)
(** ** The token generator *)
(* ================================================================== *)

Section TokenGenerator.
Import Channel.

Lemma chars_length : length chars = 36%nat.
Proof. reflexivity. Qed.

Lemma chars_alphabet : Forall (fun c => isTokenChar c = true) chars.
Proof. apply Forall_fold_right. vm_compute. tauto. Qed.

Lemma charAt_chars i :
  0 <= i < 36 -> exists c, charAt chars i = [c] /\ isTokenChar c = true.
Proof.
  intros Hi. unfold charAt.
  destruct (Z.ltb_spec i 0) as [?|_]; [lia|].
  pose proof chars_alphabet as Hall. rewrite Forall_lookup in Hall.
  specialize (Hall (Z.to_nat i)).
  pose proof (lookup_lt_is_Some_2 chars (Z.to_nat i)) as Hsome.
  rewrite chars_length in Hsome.
  destruct (_ !! _) as [c|]; [|destruct Hsome; [lia|discriminate]].
  exists c. split; [reflexivity|]. now apply Hall.
Qed.

Lemma generateTokenFrom_spec random n : forall i token,
  (forall j, (i <= j < i + n)%nat -> Double.inUnitInterval (random j)) ->
  Forall (fun c => isTokenChar c = true) token ->
  length (generateTokenFrom random i n token) = (length token + n)%nat /\
  Forall (fun c => isTokenChar c = true) (generateTokenFrom random i n token).
Proof.
  induction n as [|n IH]; intros i token Hrand Htok; cbn [generateTokenFrom].
  - split; [lia|exact Htok].
  - rewrite chars_length. change (Z.of_nat 36) with 36.
    destruct (charAt_chars (Double.floorMul (random i) (Double.ofInt 36)))
      as (c & -> & Hc).
    { apply floorMul_random_index, Hrand. lia. }
    destruct (IH (S i) (token ++ [c])) as [Hlen Hall].
    + intros j Hj. apply Hrand. lia.
    + apply Forall_app. split; [exact Htok|]. constructor; [exact Hc|constructor].
    + split; [|exact Hall]. rewrite Hlen, length_app. cbn. lia.
Qed.

(** C8.  Whatever the eight draws of [Math.random()] are, as long as each
    lies in the interval from 0 (included) to 1 (excluded), the token of
    [_generateToken] has exactly 8 characters and each of them is an
    uppercase letter or a digit. *)
Theorem generateToken_alphabet (random : nat -> Double.t) :
  (forall i, (i < 8)%nat -> Double.inUnitInterval (random i)) ->
  length (generateToken random) = 8%nat /\
  Forall (fun c => isTokenChar c = true) (generateToken random).
Proof.
  intros Hrand. unfold generateToken.
  destruct (generateTokenFrom_spec random 8 0 []) as [Hlen Hall].
  - intros j Hj. apply Hrand. lia.
  - constructor.
  - split; [exact Hlen|exact Hall].
Qed.

Lemma generateToken_alphabet_witness :
  length (generateToken Sample.draws) = 8%nat /\
  Forall (fun c => isTokenChar c = true) (generateToken Sample.draws).
Proof.
  apply (generateToken_alphabet Sample.draws).
  intros i Hi. unfold Double.inUnitInterval, Sample.draws. cbn [Double.mant Double.expo].
  pose proof (Z.mod_pos_bound (Z.of_nat i * 1111111111111111 + 123456789012345) (2 ^ 53)
                ltac:(lia)).
  lia.
Defined.

End TokenGenerator.

(* ================================================================== *)
(** ** The length of the notification text *)
(* ================================================================== *)

Section MessageLength.
Import Channel.

Lemma len_app (s t : jsstring) : len (s ++ t) = len s + len t.
Proof. unfold len. rewrite length_app. lia. Qed.

Lemma len_nonneg (s : jsstring) : 0 <= len s.
Proof. unfold len. lia. Qed.

(** A clipped text fits, and is the text or a prefix of it followed by
    three full stops. *)
Lemma clip_length text max : 3 <= max -> len (clip text max) <= max.
Proof.
  intros Hmax. unfold clip.
  destruct (Z.ltb_spec max (len text)) as [Hlt|Hge]; [|lia].
  rewrite len_app. unfold len in *. rewrite length_take. cbn. lia.
Qed.

Lemma clip_shape text max :
  clip text max = text \/
  exists k, clip text max = take k text ++ lit "..." /\ max < len text.
Proof.
  unfold clip. destruct (Z.ltb_spec max (len text)) as [Hlt|Hge]; [|now left].
  right. eexists. split; [reflexivity|exact Hlt].
Qed.

Lemma questionSection_length meta remainingSpace :
  0 <= remainingSpace ->
  let '(question, rest) := questionSection meta remainingSpace in
  len question = remainingSpace - rest /\ 0 <= rest.
Proof.
  intros Hrem. unfold questionSection.
  destruct (truthy (userQuestion meta) && (50 <? remainingSpace)); [|cbn; change (len []) with 0; lia].
  change (len userQuestionHeader) with 20. change (len sectionSeparator) with 2.
  pose proof (floorMul_threeTenths_le remainingSpace Hrem) as Hfl.
  set (fl := Double.floorMul _ _) in *.
  destruct (Z.ltb_spec 20 (Z.min 500 (fl - (20 + 2)))) as [Hlt|Hge]; [|cbn; change (len []) with 0; lia].
  pose proof (clip_length (userQuestion meta) (Z.min 500 (fl - (20 + 2))) ltac:(lia)).
  rewrite !len_app.
  change (len userQuestionHeader) with 20. change (len sectionSeparator) with 2.
  lia.
Qed.

Lemma responseSection_length meta remainingSpace :
  0 <= remainingSpace -> len (responseSection meta remainingSpace) <= remainingSpace.
Proof.
  intros Hrem. unfold responseSection.
  destruct (truthy (claudeResponse meta) && (50 <? remainingSpace)); [|cbn; change (len []) with 0; lia].
  change (len claudeResponseHeader) with 22. change (len sectionSeparator) with 2.
  destruct (Z.ltb_spec 20 (remainingSpace - (22 + 2) - 10)) as [Hlt|Hge]; [|cbn; change (len []) with 0; lia].
  pose proof (clip_length (claudeResponse meta) (remainingSpace - (22 + 2) - 10) ltac:(lia)).
  rewrite !len_app.
  change (len claudeResponseHeader) with 22. change (len sectionSeparator) with 2.
  lia.
Qed.

Lemma clipOf_clip text max : clipOf text (clip text max).
Proof.
  destruct (clip_shape text max) as [->|(k & -> & _)]; [now left|right; eauto].
Qed.

Lemma questionSection_shape meta remainingSpace :
  (questionSection meta remainingSpace).1 = [] \/
  exists text,
    (questionSection meta remainingSpace).1 = userQuestionHeader ++ text ++ sectionSeparator /\
    clipOf (userQuestion meta) text.
Proof.
  unfold questionSection.
  destruct (_ && _); [|now left].
  destruct (20 <? _); [|now left].
  right. eexists. split; [reflexivity|apply clipOf_clip].
Qed.

Lemma responseSection_shape meta remainingSpace :
  responseSection meta remainingSpace = [] \/
  exists text,
    responseSection meta remainingSpace = claudeResponseHeader ++ text ++ sectionSeparator /\
    clipOf (claudeResponse meta) text.
Proof.
  unfold responseSection.
  destruct (_ && _); [|now left].
  destruct (20 <? _); [|now left].
  right. eexists. split; [reflexivity|apply clipOf_clip].
Qed.

(** C10.  When the fixed frame (status header, project label, token line
    and command-format footer) has at most 4000 code units, so has the
    whole text of [_generateTelegramMessage].  The text is the frame with
    at most two sections between its head and its foot; the sections are
    left out altogether when no more than 100 code units remain beside the
    frame; a section that is present carries the question (the response)
    itself or a prefix of it ended by three full stops. *)
Theorem generateTelegramMessage_fits notification sessionId token :
  len (fixedContent notification token) <= maxTotalLength ->
  len (generateTelegramMessage notification sessionId token) <= maxTotalLength /\
  (maxTotalLength - len (fixedContent notification token) <= 100 ->
     generateTelegramMessage notification sessionId token
     = fixedContent notification token) /\
  exists question response,
    generateTelegramMessage notification sessionId token
    = messageHead notification token ++ (question ++ response) ++ messageFoot token /\
    (question = [] \/
     exists meta text,
       metadata notification = Some meta /\
       question = userQuestionHeader ++ text ++ sectionSeparator /\
       clipOf (userQuestion meta) text) /\
    (response = [] \/
     exists meta text,
       metadata notification = Some meta /\
       response = claudeResponseHeader ++ text ++ sectionSeparator /\
       clipOf (claudeResponse meta) text).
Proof.
  intros Hfix. unfold generateTelegramMessage, maxTotalLength in *.
  set (fixedLength := len (fixedContent notification token)) in *.
  assert (Hframe : len (messageHead notification token) + len (messageFoot token)
                   = fixedLength).
  { unfold fixedLength, fixedContent. now rewrite len_app. }
  destruct (metadata notification) as [meta|] eqn:Hmeta.
  - destruct (Z.ltb_spec 100 (4000 - fixedLength)) as [Hroom|Hfull].
    + pose proof (questionSection_length meta (4000 - fixedLength) ltac:(lia)) as Hq.
      pose proof (questionSection_shape meta (4000 - fixedLength)) as Hqs.
      destruct (questionSection meta (4000 - fixedLength)) as [question rest].
      destruct Hq as [Hq Hrest]. cbn [fst] in Hqs.
      pose proof (responseSection_length meta rest Hrest) as Hr.
      pose proof (responseSection_shape meta rest) as Hrs.
      split; [|split].
      * rewrite !len_app. lia.
      * lia.
      * exists question, (responseSection meta rest). split; [reflexivity|]. split.
        -- destruct Hqs as [?|(text & ? & ?)]; [now left|right; eauto].
        -- destruct Hrs as [?|(text & ? & ?)]; [now left|right; eauto].
    + split; [|split].
      * rewrite !len_app. change (len []) with 0. lia.
      * reflexivity.
      * exists [], []. split; [reflexivity|]. split; now left.
  - split; [|split].
    + rewrite !len_app. change (len []) with 0. lia.
    + reflexivity.
    + exists [], []. split; [reflexivity|]. split; now left.
Qed.

Lemma generateTelegramMessage_fits_witness :
  len (generateTelegramMessage Sample.longNotification (lit "id-1") (lit "ABC12345"))
  <= maxTotalLength.
Proof.
  apply (generateTelegramMessage_fits Sample.longNotification (lit "id-1") (lit "ABC12345")).
  apply Z.leb_le. vm_compute. reflexivity.
Defined.

End MessageLength.

(* ================================================================== *)
(** ** Session creation and its cleanup *)
(* ================================================================== *)

Section SessionCreation.
Import Channel.

(** The send fails exactly when the request does, once the configuration
    is valid. *)
Lemma sendImpl_returns (env : ChannelEnv) (notification : Notification) (d : Dir) :
  validateConfig (channelConfig env) = true ->
  exists request,
    (sendImpl env notification d).1 = Returns (postResolves env request) request.
Proof.
  intros Hcfg. unfold sendImpl. rewrite Hcfg. cbn [negb].
  eexists. destruct (postResolves env _) eqn:Hpost; cbn [fst]; rewrite Hpost; reflexivity.
Qed.

(** C6.  [_sendImpl] returns [false] only when the request to Telegram
    failed, which is after the session record was written; whenever it
    does, the record of the session just created is gone from the sessions
    directory when the call returns, and nothing else was touched. *)
Theorem sendImpl_failure_removes_session
    (env : ChannelEnv) (notification : Notification) (d : Dir) (request : Request) :
  (sendImpl env notification d).1 = Returns false request ->
  postResolves env request = false /\
  (sendImpl env notification d).2 !! sessionFile (uuidv4 env) = None /\
  (sendImpl env notification d).2 = delete (sessionFile (uuidv4 env)) d.
Proof.
  unfold sendImpl.
  destruct (negb (validateConfig _)); [discriminate|].
  destruct (postResolves env _) eqn:Hpost; [discriminate|]. cbn [fst snd].
  intros [= <-]. split; [exact Hpost|].
  unfold removeSession, createSession.
  rewrite lookup_insert_eq, delete_insert_eq.
  split; [apply lookup_delete_eq|reflexivity].
Qed.

Lemma sendImpl_failure_removes_session_witness :
  (sendImpl Sample.failingSend Sample.notification Sample.sessionsDir).2
    !! sessionFile (uuidv4 Sample.failingSend) = None /\
  (sendImpl Sample.failingSend Sample.notification Sample.sessionsDir).2
  = delete (sessionFile (uuidv4 Sample.failingSend)) Sample.sessionsDir.
Proof.
  eapply (sendImpl_failure_removes_session
            Sample.failingSend Sample.notification Sample.sessionsDir).
  vm_compute. reflexivity.
Defined.

(** C5.  The session that [_createSession] writes expires 86400 seconds
    after its creation (both clock readings falling in one second), while
    the help message of the webhook handler promises 7 days and says
    nothing of 24 hours. *)
Theorem help_promises_7_days_sessions_last_24_hours
    (t1 t2 : Z) (sessionId : jsstring) (notification : Notification)
    (token : jsstring) (d : Dir) :
  t2 / 1000 = t1 / 1000 ->
  (exists session,
     createSession t1 t2 sessionId notification token d !! sessionFile sessionId
     = Some (Some session) /\
     Session.createdAt session = Some (t1 / 1000) /\
     Session.expiresAt session = t1 / 1000 + 86400) /\
  includes Text.help (lit "Tokens persist for 7 days") = true /\
  includes Text.help (lit "24 hours") = false.
Proof.
  intros Hsec. split.
  - exists (newSession t1 t2 sessionId notification token).
    unfold createSession. rewrite lookup_insert_eq.
    cbn [newSession Session.createdAt Session.expiresAt].
    split; [reflexivity|]. split; [reflexivity|].
    change (24 * 60 * 60 * 1000) with (86400 * 1000).
    rewrite Z.div_add by lia. lia.
  - split; vm_compute; reflexivity.
Qed.

Lemma help_promises_7_days_sessions_last_24_hours_witness :
  includes Text.help (lit "Tokens persist for 7 days") = true /\
  includes Text.help (lit "24 hours") = false.
Proof.
  apply (help_promises_7_days_sessions_last_24_hours
           1700000000123 1700000000456 (lit "id-1") Sample.notification (lit "ABC12345") ∅).
  reflexivity.
Defined.

End SessionCreation.

(* ================================================================== *)
(** ** Facts on strings *)
(* ================================================================== *)

(** Boolean tests on code units, as the inequalities they decide. *)
Ltac unbool :=
  repeat rewrite ?orb_true_iff, ?andb_true_iff, ?orb_false_iff, ?andb_false_iff,
    ?Z.leb_le, ?Z.leb_gt, ?Z.eqb_eq, ?Z.eqb_neq in *.

Section StringFacts.

Lemma eqb_eq (s t : jsstring) : eqb s t = true <-> s = t.
Proof.
  revert t. induction s as [|c s IH]; intros [|d t]; cbn; try easy.
  rewrite andb_true_iff, Z.eqb_eq, IH. split; [intros [-> ->]|intros [= -> ->]]; easy.
Qed.

Lemma eqb_refl (s : jsstring) : eqb s s = true.
Proof. now apply eqb_eq. Qed.

Lemma eqb_neq (s t : jsstring) : s <> t -> eqb s t = false.
Proof.
  intros Hne. destruct (eqb s t) eqn:E; [|reflexivity].
  now apply eqb_eq in E.
Qed.

Lemma dropWhile_length p (s : jsstring) : (length (dropWhile p s) <= length s)%nat.
Proof.
  induction s as [|c s IH]; cbn; [lia|]. destruct (p c); cbn; lia.
Qed.

Lemma dropWhile_fixed p (s : jsstring) :
  dropWhile p s = s -> forall c s', s = c :: s' -> p c = false.
Proof.
  intros Hfix c s' ->. cbn in Hfix. destruct (p c); [|reflexivity].
  pose proof (dropWhile_length p s') as Hlen. rewrite Hfix in Hlen. cbn in Hlen. lia.
Qed.

Lemma dropWhile_head p c (s : jsstring) : p c = false -> dropWhile p (c :: s) = c :: s.
Proof. intros H. cbn. now rewrite H. Qed.

(** A string that [trim] leaves alone does not start with white space,
    nor does it end with it. *)
Lemma trim_fixed_front (s : jsstring) : trim s = s -> dropWhile isWhiteSpace s = s.
Proof.
  unfold trim. intros Hfix.
  pose proof (dropWhile_length isWhiteSpace s) as H1.
  pose proof (dropWhile_length isWhiteSpace (reverse (dropWhile isWhiteSpace s))) as H2.
  rewrite length_reverse in H2.
  assert (Hlen : length (dropWhile isWhiteSpace s) = length s).
  { apply (f_equal length) in Hfix. rewrite length_reverse in Hfix. lia. }
  destruct s as [|c s]; [reflexivity|]. cbn in *.
  destruct (isWhiteSpace c); [|reflexivity].
  pose proof (dropWhile_length isWhiteSpace s). lia.
Qed.

Lemma trim_fixed_back (s : jsstring) :
  trim s = s -> dropWhile isWhiteSpace (reverse s) = reverse s.
Proof.
  intros Hfix. pose proof (trim_fixed_front s Hfix) as Hfront.
  unfold trim in Hfix. rewrite Hfront in Hfix.
  apply (f_equal reverse) in Hfix. now rewrite reverse_involutive in Hfix.
Qed.

(** [trim] leaves alone a text that starts with a code unit other than
    white space and ends with a command that [trim] leaves alone. *)
Lemma trim_framed c (pre C : jsstring) :
  isWhiteSpace c = false -> C <> [] -> trim C = C ->
  trim (c :: pre ++ C) = c :: pre ++ C.
Proof.
  intros Hc Hne Hfix. unfold trim. rewrite dropWhile_head by exact Hc.
  pose proof (trim_fixed_back C Hfix) as Hback.
  replace (reverse (c :: pre ++ C)) with (reverse C ++ reverse (c :: pre)).
  2:{ change (c :: pre ++ C) with ((c :: pre) ++ C). now rewrite reverse_app. }
  destruct (reverse C) as [|e rc] eqn:Hrc.
  { apply (f_equal reverse) in Hrc. rewrite reverse_involutive in Hrc. now subst. }
  pose proof (dropWhile_fixed _ _ Hback e rc eq_refl) as He.
  cbn [app]. rewrite dropWhile_head by exact He.
  change (e :: rc ++ reverse (c :: pre)) with ((e :: rc) ++ reverse (c :: pre)).
  rewrite <- Hrc, <- reverse_app, reverse_involutive. reflexivity.
Qed.

Lemma isAlnum_not_space c : isAlnum c = true -> isWhiteSpace c = false.
Proof.
  unfold isAlnum, isUpper, isLower, isDigit, isWhiteSpace, between.
  rewrite !orb_true_iff, !andb_true_iff, !Z.leb_le. intros H.
  repeat (apply orb_false_iff; split);
    rewrite ?andb_false_iff, ?Z.leb_gt, ?Z.eqb_neq; lia.
Qed.

Lemma isTokenChar_isAlnum c : isTokenChar c = true -> isAlnum c = true.
Proof.
  unfold isTokenChar, isAlnum. rewrite !orb_true_iff. tauto.
Qed.

(** On the token alphabet [toUpperCase] changes nothing. *)
Lemma toUpperCase_token (T : jsstring) :
  Forall (fun c => isTokenChar c = true) T -> toUpperCase T = T.
Proof.
  unfold toUpperCase. induction 1 as [|c T Hc _ IH]; [reflexivity|].
  cbn [fmap list_fmap]. fold (fmap upperChar T). rewrite IH. f_equal.
  unfold upperChar, isTokenChar, isUpper, isLower, isDigit, between in *.
  rewrite !orb_true_iff, !andb_true_iff, !Z.leb_le in Hc.
  destruct (Z.leb_spec 97 c); [|reflexivity].
  destruct (Z.leb_spec c 122); [lia|reflexivity].
Qed.

(** [toUpperCase] leaves a token in the token alphabet. *)
Lemma toUpperCase_alphabet (T : jsstring) :
  Forall (fun c => isAlnum c = true) T ->
  Forall (fun c => isTokenChar c = true) (toUpperCase T).
Proof.
  unfold toUpperCase. intros H. apply Forall_fmap. eapply Forall_impl; [exact H|].
  intros c Hc. cbn.
  unfold upperChar, isTokenChar, isAlnum, isUpper, isLower, isDigit, between in *.
  rewrite !orb_true_iff, !andb_true_iff, !Z.leb_le in Hc.
  destruct (Z.leb_spec 97 c); destruct (Z.leb_spec c 122); cbn [andb];
    rewrite !orb_true_iff, !andb_true_iff, !Z.leb_le; lia.
Qed.

End StringFacts.

(* ================================================================== *)
(** ** Facts on the matcher *)
(* ================================================================== *)

Section MatcherFacts.
Context {A : Type} (ic : bool).

Lemma repeatSet_app cs (w rest : jsstring) :
  forall n (k : nat -> jsstring -> option A),
  Forall (fun c => accepts ic cs c = true) w ->
  repeatSet ic cs (length w) n (w ++ rest) k = k (n + length w)%nat rest.
Proof.
  induction w as [|c w IH]; intros n k Hall; cbn.
  - f_equal. lia.
  - inversion Hall as [|? ? Hc Hw]; subst. rewrite Hc, IH by exact Hw.
    f_equal. lia.
Qed.

Lemma repeatSet_reject cs m n c (s : jsstring) (k : nat -> jsstring -> option A) :
  accepts ic cs c = false -> repeatSet ic cs (S m) n (c :: s) k = None.
Proof. intros H. cbn. now rewrite H. Qed.

(** The run [w] is the longest one when what follows does not start with
    a member of the set; the continuation is tried there first. *)
Lemma plusGreedy_longest cs (w rest : jsstring) :
  forall n (k : nat -> jsstring -> option A) a,
  w <> [] ->
  Forall (fun c => accepts ic cs c = true) w ->
  (forall c rest', rest = c :: rest' -> accepts ic cs c = false) ->
  k (n + length w)%nat rest = Some a ->
  plusGreedy ic cs n (w ++ rest) k = Some a.
Proof.
  induction w as [|c w IH]; intros n k a Hne Hall Hstop Hk; [easy|].
  inversion Hall as [|? ? Hc Hw]; subst. cbn [app plusGreedy]. rewrite Hc.
  destruct w as [|c' w].
  - cbn [app]. replace (plusGreedy ic cs (S n) rest k) with (@None A).
    + rewrite <- Hk. f_equal. cbn. lia.
    + destruct rest as [|e rest']; [reflexivity|].
      cbn. now rewrite (Hstop e rest' eq_refl).
  - erewrite IH; [reflexivity|easy|exact Hw|exact Hstop|].
    rewrite <- Hk. f_equal. cbn. lia.
Qed.

(** A literal matches itself. *)
Lemma run_rlit (p : jsstring) r :
  forall n (s : jsstring) caps (k : nat -> jsstring -> list jsstring -> option A),
  run ic (rlit p r) n (p ++ s) caps k = run ic r (n + length p)%nat s caps k.
Proof.
  induction p as [|c p IH]; intros n s caps k; cbn [rlit app length].
  - f_equal. lia.
  - cbn [run]. unfold accepts at 1. cbn [member]. rewrite Z.eqb_refl. cbn [orb].
    rewrite IH. f_equal. lia.
Qed.

Lemma run_rlit_reject c (p : jsstring) r d n (s : jsstring) caps
    (k : nat -> jsstring -> list jsstring -> option A) :
  accepts ic (CChar c) d = false ->
  run ic (rlit (c :: p) r) n (d :: s) caps k = None.
Proof. intros H. cbn [rlit run]. now rewrite H. Qed.

Lemma repeatSet_rejects cs :
  forall m n (s : jsstring) (k : nat -> jsstring -> option A),
  Exists (fun c => accepts ic cs c = false) (take m s) ->
  repeatSet ic cs m n s k = None.
Proof.
  induction m as [|m IH]; intros n s k Hex.
  - rewrite take_0 in Hex. now apply Exists_nil in Hex.
  - destruct s as [|c s]; [reflexivity|]. cbn [take] in Hex. cbn [repeatSet].
    destruct (accepts ic cs c) eqn:Hc; [|reflexivity].
    apply IH. apply Exists_cons in Hex as [Hex|Hex]; [congruence|exact Hex].
Qed.

Lemma plusGreedy_reject cs n c (s : jsstring) (k : nat -> jsstring -> option A) :
  accepts ic cs c = false -> plusGreedy ic cs n (c :: s) k = None.
Proof. intros H. cbn. now rewrite H. Qed.

End MatcherFacts.

Section SearchFacts.

(** A pattern that starts with [^] matches at index 0 or nowhere. *)
Lemma search_bol ic r (s : jsstring) :
  forall n, n <> 0%nat -> search ic (RSeq RBol r) n s = None.
Proof.
  induction s as [|c s IH]; intros n Hn; cbn [search run].
  - destruct n; [easy|reflexivity].
  - destruct n; [easy|]. cbn [Nat.eqb]. apply IH. lia.
Qed.

Lemma jsMatch_bol_fail ic r (s : jsstring) :
  run ic r 0 s [] (fun _ _ caps => Some caps) = None ->
  jsMatch ic (RSeq RBol r) s = None.
Proof.
  intros Hrun. unfold jsMatch. destruct s as [|c s]; cbn [search run Nat.eqb]; rewrite Hrun.
  - reflexivity.
  - apply search_bol. lia.
Qed.

Lemma jsMatch_bol_ok ic r (s : jsstring) caps :
  run ic r 0 s [] (fun _ _ caps => Some caps) = Some caps ->
  jsMatch ic (RSeq RBol r) s = Some caps.
Proof.
  intros Hrun. unfold jsMatch. destruct s as [|c s]; cbn [search run Nat.eqb]; now rewrite Hrun.
Qed.

Lemma swapCase_space c : isWhiteSpace c = false -> isWhiteSpace (swapCase c) = false.
Proof.
  intros Hc. unfold swapCase.
  destruct (isLower c) eqn:Hl.
  - apply isAlnum_not_space. unfold isAlnum, isLower, isUpper, isDigit, between in *.
    rewrite andb_true_iff, !Z.leb_le in Hl.
    rewrite !orb_true_iff, !andb_true_iff, !Z.leb_le. lia.
  - destruct (isUpper c) eqn:Hu; [|exact Hc].
    apply isAlnum_not_space. unfold isAlnum, isLower, isUpper, isDigit, between in *.
    rewrite andb_true_iff, !Z.leb_le in Hu.
    rewrite !orb_true_iff, !andb_true_iff, !Z.leb_le. lia.
Qed.

Lemma accepts_space ic c : accepts ic CSpace c = isWhiteSpace c.
Proof.
  unfold accepts. cbn [member]. destruct (isWhiteSpace c) eqn:Hc; [reflexivity|].
  rewrite (swapCase_space c Hc). now destruct ic.
Qed.

Lemma accepts_dot ic c : isLineTerminator c = false -> accepts ic CDot c = true.
Proof. intros Hc. unfold accepts. cbn [member]. now rewrite Hc. Qed.

Lemma isAlnum_swapCase c : isAlnum c = true -> isAlnum (swapCase c) = true.
Proof.
  intros Hc. unfold swapCase.
  destruct (isLower c) eqn:Hl; [|destruct (isUpper c) eqn:Hu; [|exact Hc]];
    unfold isAlnum, isLower, isUpper, isDigit, between in *; unbool; lia.
Qed.

Lemma accepts_token_ic c : isAlnum c = true -> accepts true tokenChar c = true.
Proof.
  intros Hc. unfold accepts, tokenChar. cbn [member andb].
  fold (isUpper c) (isDigit c) (isUpper (swapCase c)) (isDigit (swapCase c)).
  unfold isAlnum in Hc. apply orb_true_iff in Hc as [Hc|Hd].
  - apply orb_true_iff in Hc as [Hu|Hl].
    + now rewrite Hu.
    + unfold swapCase. rewrite Hl.
      replace (isUpper (c - 32)) with true; [now rewrite orb_true_r|].
      symmetry. unfold isUpper, isLower, between in *. unbool. lia.
  - rewrite Hd. now rewrite orb_true_r.
Qed.

Lemma accepts_token c : isTokenChar c = true -> accepts false tokenChar c = true.
Proof.
  unfold accepts, tokenChar, isTokenChar, isUpper, isDigit. cbn [member andb].
  now rewrite orb_false_r.
Qed.

(** Without the flag [i] a lowercase letter is no token character. *)
Lemma rejects_lower c : isLower c = true -> accepts false tokenChar c = false.
Proof.
  intros Hc. unfold accepts, tokenChar. cbn [member andb].
  rewrite orb_false_r. unfold isLower, between in *. unbool. lia.
Qed.

Lemma isAlnum_not_slash c : isAlnum c = true -> (c =? 47) = false.
Proof.
  unfold isAlnum, isUpper, isLower, isDigit, between. intros Hc. unbool. lia.
Qed.

Lemma rejects_slash c : isAlnum c = true -> accepts true (CChar 47) c = false.
Proof.
  intros Hc. unfold accepts. cbn [member andb].
  rewrite (isAlnum_not_slash c Hc).
  now rewrite (isAlnum_not_slash _ (isAlnum_swapCase c Hc)).
Qed.

Lemma run_commandTail ic n (w C : jsstring) caps :
  w <> [] -> Forall (fun c => isWhiteSpace c = true) w ->
  C <> [] -> dropWhile isWhiteSpace C = C ->
  Forall (fun c => isLineTerminator c = false) C ->
  run ic commandTail n (w ++ C) caps (fun _ _ caps => Some caps) = Some (caps ++ [C]).
Proof.
  intros Hw Hws HC Hfront Hlines. unfold commandTail. cbn [run].
  apply plusGreedy_longest; [exact Hw| | |].
  - eapply Forall_impl; [exact Hws|]. intros c Hc. now rewrite accepts_space.
  - intros c rest' ->. rewrite accepts_space.
    exact (dropWhile_fixed _ _ Hfront c rest' eq_refl).
  - rewrite <- (app_nil_r C) at 1.
    apply plusGreedy_longest; [exact HC| |easy|].
    + eapply Forall_impl; [exact Hlines|]. intros c Hc. now apply accepts_dot.
    + f_equal. f_equal. f_equal.
      replace (n + length w + length C - (n + length w))%nat with (length C) by lia.
      apply firstn_all.
Qed.

End SearchFacts.

(* ================================================================== *)
(** ** The three formats *)
(* ================================================================== *)

Section Formats.

Lemma space_white : Forall (fun c => isWhiteSpace c = true) (lit " ").
Proof. repeat constructor. Qed.

(** The token, then white space and the command to the end. *)
Lemma run_token_tail ic n (T C : jsstring) :
  length T = 8%nat ->
  Forall (fun c => accepts ic tokenChar c = true) T ->
  plainCommand C ->
  run ic (RSeq (RGroup (RRepeat 8 tokenChar)) commandTail) n (T ++ lit " " ++ C) []
    (fun _ _ caps => Some caps) = Some [T; C].
Proof.
  intros Hlen Htok (HC & Htrim & Hlines). cbn [run].
  rewrite <- Hlen, repeatSet_app by exact Htok.
  rewrite run_commandTail;
    [|easy|exact space_white|exact HC|now apply trim_fixed_front|exact Hlines].
  replace (n + length T - n)%nat with (length T) by lia.
  now rewrite take_app_length.
Qed.

Lemma alnumToken_head T :
  alnumToken T -> exists c T', T = c :: T' /\ isAlnum c = true.
Proof.
  intros [Hlen Hall]. destruct T as [|c T']; [discriminate|].
  exists c, T'. split; [reflexivity|]. now inversion Hall.
Qed.

Lemma alnumToken_accepted T :
  alnumToken T -> Forall (fun c => accepts true tokenChar c = true) T.
Proof.
  intros [_ Hall]. eapply Forall_impl; [exact Hall|]. exact accepts_token_ic.
Qed.

Lemma newFormat_attached T C :
  alnumToken T -> plainCommand C ->
  jsMatch true newFormat (attachedForm T C) = Some [T; C].
Proof.
  intros HT HC. unfold newFormat, attachedForm. apply jsMatch_bol_ok.
  rewrite run_rlit.
  apply run_token_tail; [apply HT|now apply alnumToken_accepted|exact HC].
Qed.

Lemma newFormat_spaced T C : jsMatch true newFormat (spacedForm T C) = None.
Proof.
  unfold newFormat, spacedForm. apply jsMatch_bol_fail.
  change (lit "/cmd ") with (lit "/cmd" ++ lit " "). rewrite <- app_assoc, run_rlit.
  reflexivity.
Qed.

Lemma oldFormat_spaced T C :
  alnumToken T -> plainCommand C ->
  jsMatch true oldFormat (spacedForm T C) = Some [T; C].
Proof.
  intros HT HC. unfold oldFormat, spacedForm. apply jsMatch_bol_ok.
  change (lit "/cmd ") with (lit "/cmd" ++ lit " "). rewrite <- app_assoc, run_rlit.
  cbn [run]. apply plusGreedy_longest; [easy|repeat constructor| |].
  - intros c rest' Heq. rewrite accepts_space. apply isAlnum_not_space.
    destruct (alnumToken_head T HT) as (c' & T' & -> & Hc). now inversion Heq; subst.
  - apply run_token_tail; [apply HT|now apply alnumToken_accepted|exact HC].
Qed.

Lemma newFormat_bare T C : alnumToken T -> jsMatch true newFormat (bareForm T C) = None.
Proof.
  intros HT. destruct (alnumToken_head T HT) as (c & T' & -> & Hc).
  unfold newFormat, bareForm. apply jsMatch_bol_fail.
  change (lit "/cmd") with (47 :: lit "cmd"). cbn [app].
  apply run_rlit_reject, rejects_slash, Hc.
Qed.

Lemma oldFormat_bare T C : alnumToken T -> jsMatch true oldFormat (bareForm T C) = None.
Proof.
  intros HT. destruct (alnumToken_head T HT) as (c & T' & -> & Hc).
  unfold oldFormat, bareForm. apply jsMatch_bol_fail.
  change (lit "/cmd") with (47 :: lit "cmd"). cbn [app].
  apply run_rlit_reject, rejects_slash, Hc.
Qed.

Lemma directFormat_bare T C :
  length T = 8%nat -> Forall (fun c => isTokenChar c = true) T -> plainCommand C ->
  jsMatch false directFormat (bareForm T C) = Some [T; C].
Proof.
  intros Hlen HT HC. unfold directFormat, bareForm. apply jsMatch_bol_ok.
  apply run_token_tail; [exact Hlen| |exact HC].
  eapply Forall_impl; [exact HT|]. exact accepts_token.
Qed.

Lemma directFormat_bare_lower T C :
  length T = 8%nat -> Exists (fun c => isLower c = true) T ->
  jsMatch false directFormat (bareForm T C) = None.
Proof.
  intros Hlen Hlow. unfold directFormat, bareForm. apply jsMatch_bol_fail.
  cbn [run]. apply repeatSet_rejects.
  rewrite <- Hlen, take_app_length.
  eapply Exists_impl; [exact Hlow|]. exact rejects_lower.
Qed.

Lemma parseCommand_attached T C :
  alnumToken T -> plainCommand C ->
  parseCommand (attachedForm T C) = Some (toUpperCase T, C).
Proof.
  intros HT HC. unfold parseCommand. now rewrite newFormat_attached.
Qed.

Lemma parseCommand_spaced T C :
  alnumToken T -> plainCommand C ->
  parseCommand (spacedForm T C) = Some (toUpperCase T, C).
Proof.
  intros HT HC. unfold parseCommand.
  now rewrite newFormat_spaced, oldFormat_spaced.
Qed.

Lemma parseCommand_bare T C :
  alnumToken T -> Forall (fun c => isTokenChar c = true) T -> plainCommand C ->
  parseCommand (bareForm T C) = Some (toUpperCase T, C).
Proof.
  intros HT Hup HC. unfold parseCommand.
  rewrite newFormat_bare, oldFormat_bare by exact HT.
  rewrite directFormat_bare; [reflexivity|apply HT|exact Hup|exact HC].
Qed.

(** The three forms are texts that [trim] leaves alone and that are
    neither [/start] nor [/help]. *)
Lemma forms_trimmed T C :
  alnumToken T -> plainCommand C ->
  trim (attachedForm T C) = attachedForm T C /\
  trim (spacedForm T C) = spacedForm T C /\
  trim (bareForm T C) = bareForm T C.
Proof.
  intros HT (HC & Htrim & _).
  destruct (alnumToken_head T HT) as (c & T' & -> & Hc).
  unfold attachedForm, spacedForm, bareForm.
  change (lit "/cmd") with (47 :: lit "cmd").
  change (lit "/cmd ") with (47 :: lit "cmd ").
  split; [|split].
  - rewrite !app_assoc. cbn [app]. apply trim_framed; easy.
  - rewrite !app_assoc. cbn [app]. apply trim_framed; easy.
  - rewrite !app_assoc. cbn [app]. apply trim_framed; [|easy|easy].
    now apply isAlnum_not_space.
Qed.

Lemma length_neq (s t : jsstring) : length s <> length t -> s <> t.
Proof. intros H ->. easy. Qed.

Lemma forms_not_bot_commands T C (text : jsstring) :
  alnumToken T -> plainCommand C ->
  text = attachedForm T C \/ text = spacedForm T C \/ text = bareForm T C ->
  truthy text = true /\ eqb text (lit "/start") = false /\ eqb text (lit "/help") = false.
Proof.
  intros [Hlen _] [HC _] Htext.
  assert (Hlong : (8 < length text)%nat).
  { destruct Htext as [-> | [-> | ->]];
      unfold attachedForm, spacedForm, bareForm; rewrite !length_app;
      pose proof (length_zero_iff_nil C); (destruct (length C); [tauto|lia]). }
  split; [|split].
  - destruct text; [cbn in Hlong; lia|reflexivity].
  - apply eqb_neq, length_neq. cbn. lia.
  - apply eqb_neq, length_neq. cbn. lia.
Qed.

End Formats.

(* ================================================================== *)
(** ** Messages: parsing and dispatch *)
(* ================================================================== *)

Section MessageDispatch.
Import Webhook.
Context (env : Env).

(** An authorized message that is no reply to a bot and whose trimmed
    text is neither empty nor a bot command goes to the parser. *)
Lemma handleMessage_parses (message : Message) (raw : jsstring) (d : Dir) :
  text message = Some raw ->
  truthy (trim raw) = true ->
  isAuthorized env (from message) (chat message) = true ->
  eqb (trim raw) (lit "/start") = false ->
  eqb (trim raw) (lit "/help") = false ->
  repliesToBot message = false ->
  handleMessage env message d = parseAndProcess env (chat message) (trim raw) d.
Proof.
  intros Htext Htruthy Hauth Hstart Hhelp Hreply. unfold handleMessage.
  rewrite Htext. cbn [fmap option_fmap option_map].
  now rewrite Htruthy, Hauth, Hstart, Hhelp, Hreply.
Qed.

Lemma handleMessage_form (message : Message) (T C text' : jsstring) (d : Dir) :
  alnumToken T -> plainCommand C ->
  text' = attachedForm T C \/ text' = spacedForm T C \/
    (text' = bareForm T C /\ Forall (fun c => isTokenChar c = true) T) ->
  text message = Some text' ->
  isAuthorized env (from message) (chat message) = true ->
  repliesToBot message = false ->
  handleMessage env message d
  = processCommand env (chat message) (toUpperCase T) C d.
Proof.
  intros HT HC Hform Htext Hauth Hreply.
  destruct (forms_trimmed T C HT HC) as (Ha & Hs & Hb).
  assert (Htrim : trim text' = text').
  { destruct Hform as [-> | [-> | [-> _]]]; assumption. }
  destruct (forms_not_bot_commands T C text' HT HC) as (Htruthy & Hstart & Hhelp).
  { tauto. }
  rewrite (handleMessage_parses message text' d Htext); rewrite ?Htrim; try assumption.
  unfold parseAndProcess.
  destruct Hform as [-> | [-> | [-> Hup]]].
  - now rewrite parseCommand_attached.
  - now rewrite parseCommand_spaced.
  - now rewrite parseCommand_bare.
Qed.

End MessageDispatch.

(* ================================================================== *)
(** ** The textual formats *)
(* ================================================================== *)

(** C3, as the code has it.  For a token [T] of eight letters or digits and
    a command [C] that is not empty, holds no line terminator and neither
    starts nor ends with white space, the attached and the spaced form
    parse to the pair of [T] in upper case and [C] as it is, and so does
    the bare form when [T] has no lowercase letter; an authorized message
    with such a text that is no reply to a bot is dispatched with that
    pair. *)
Theorem three_forms_one_pair (T C : jsstring) :
  alnumToken T -> plainCommand C ->
  parseCommand (attachedForm T C) = Some (toUpperCase T, C) /\
  parseCommand (spacedForm T C) = Some (toUpperCase T, C) /\
  (Forall (fun c => isTokenChar c = true) T ->
     parseCommand (bareForm T C) = Some (toUpperCase T, C)) /\
  forall (env : Env) (message : Message) (d : Dir) (form : jsstring),
    form = attachedForm T C \/ form = spacedForm T C \/
      (form = bareForm T C /\ Forall (fun c => isTokenChar c = true) T) ->
    text message = Some form ->
    Webhook.isAuthorized env (from message) (chat message) = true ->
    Webhook.repliesToBot message = false ->
    Webhook.handleMessage env message d
    = Webhook.processCommand env (chat message) (toUpperCase T) C d.
Proof.
  intros HT HC. split; [|split; [|split]].
  - now apply parseCommand_attached.
  - now apply parseCommand_spaced.
  - intros Hup. now apply parseCommand_bare.
  - intros env message d form Hform Htext Hauth Hreply.
    now apply (handleMessage_form env message T C form d).
Qed.

Lemma three_forms_one_pair_witness :
  parseCommand (attachedForm (lit "abC12345") (lit "do X: now"))
  = Some (toUpperCase (lit "abC12345"), lit "do X: now").
Proof.
  apply (three_forms_one_pair (lit "abC12345") (lit "do X: now")).
  - split; [reflexivity|]. apply Forall_fold_right. vm_compute. tauto.
  - split; [discriminate|]. split; [reflexivity|].
    apply Forall_fold_right. vm_compute. tauto.
Defined.

(** C3 as stated fails: a command with a line break inside is not parsed
    at all, in none of the three forms, and the operator gets the usage
    hint; white space around a command is not handed on. *)
Lemma three_forms_counterexample :
  let T := lit "ABC12345" in
  let C := lit "do" ++ nl ++ lit "X" in
  let env := Sample.webhook Sample.noPersistentSessions 1700000000000 in
  alnumToken T /\ C <> [] /\
  parseCommand (trim (attachedForm T C)) = None /\
  parseCommand (trim (spacedForm T C)) = None /\
  parseCommand (trim (bareForm T C)) = None /\
  calls (Webhook.handleMessage env (Sample.textMessage (attachedForm T C) false)
           Sample.sessionsDir)
  = [SendMessage 42 Text.invalidFormat false] /\
  parseCommand (trim (attachedForm T (lit " do X "))) = Some (T, lit "do X").
Proof.
  cbv zeta. split; [|split; [discriminate|]].
  - split; [reflexivity|]. apply Forall_fold_right. vm_compute. tauto.
  - repeat split; vm_compute; reflexivity.
Qed.

(** C2.  A token with a lowercase letter is accepted after [/cmd], attached
    or spaced, and comes out in upper case; the same token written bare is
    not matched at all, and the operator gets the usage hint. *)
Theorem bare_form_rejects_lowercase (T C : jsstring) :
  alnumToken T -> Exists (fun c => isLower c = true) T -> plainCommand C ->
  parseCommand (attachedForm T C) = Some (toUpperCase T, C) /\
  parseCommand (spacedForm T C) = Some (toUpperCase T, C) /\
  parseCommand (bareForm T C) = None /\
  forall (env : Env) (message : Message) (d : Dir),
    text message = Some (bareForm T C) ->
    Webhook.isAuthorized env (from message) (chat message) = true ->
    Webhook.repliesToBot message = false ->
    Webhook.handleMessage env message d
    = (tt, d, [SendMessage (chat message) Text.invalidFormat false]).
Proof.
  intros HT Hlow HC.
  assert (Hbare : parseCommand (bareForm T C) = None).
  { unfold parseCommand.
    rewrite newFormat_bare, oldFormat_bare by exact HT.
    rewrite directFormat_bare_lower; [reflexivity|apply HT|exact Hlow]. }
  split; [|split; [|split]].
  - now apply parseCommand_attached.
  - now apply parseCommand_spaced.
  - exact Hbare.
  - intros env message d Htext Hauth Hreply.
    destruct (forms_trimmed T C HT HC) as (_ & _ & Htrim).
    destruct (forms_not_bot_commands T C (bareForm T C) HT HC) as (Htruthy & Hstart & Hhelp).
    { tauto. }
    rewrite (handleMessage_parses env message (bareForm T C) d Htext);
      rewrite ?Htrim; try assumption.
    unfold Webhook.parseAndProcess. now rewrite Hbare.
Qed.

Lemma bare_form_rejects_lowercase_witness :
  parseCommand (attachedForm (lit "abc12345") (lit "y")) = Some (lit "ABC12345", lit "y") /\
  parseCommand (bareForm (lit "abc12345") (lit "y")) = None.
Proof.
  assert (H : alnumToken (lit "abc12345") /\
              Exists (fun c => isLower c = true) (lit "abc12345") /\
              plainCommand (lit "y")).
  { split; [|split].
    - split; [reflexivity|]. apply Forall_fold_right. vm_compute. tauto.
    - apply Exists_cons_hd. reflexivity.
    - split; [discriminate|]. split; [reflexivity|].
      apply Forall_fold_right. vm_compute. tauto. }
  destruct H as (H1 & H2 & H3).
  pose proof (bare_form_rejects_lowercase (lit "abc12345") (lit "y") H1 H2 H3)
    as (Ha & _ & Hb & _).
  split; [exact Ha|exact Hb].
Defined.

(** The scan of the session files takes the token as it is given: the
    stored token [ABC12345] is not found under [abc12345], the way a
    [quickcmd] payload may spell it. *)
Example file_scan_compares_as_given :
  let env := Sample.webhook Sample.noPersistentSessions 1700000000000 in
  lookupSession env (lit "ABC12345") Sample.sessionsDir = Some Sample.storedSession /\
  lookupSession env (lit "abc12345") Sample.sessionsDir = None.
Proof. cbv zeta. split; vm_compute; reflexivity. Qed.

(* ================================================================== *)
(** ** The reply shortcut *)
(* ================================================================== *)

(** C4, as the code has it.  An authorized message that replies to a
    message of a bot, in a chat that has a current session, and whose
    trimmed text is neither empty nor [/start] nor [/help], is dispatched
    with the token of the current session and the whole trimmed text as
    the command; the text is not parsed, whatever format it has. *)
Theorem reply_shortcut_first (env : Env) (message : Message) (raw : jsstring)
    (currentSession : PersistentSession.t) (d : Dir) :
  text message = Some raw ->
  truthy (trim raw) = true ->
  trim raw <> lit "/start" ->
  trim raw <> lit "/help" ->
  Webhook.isAuthorized env (from message) (chat message) = true ->
  Webhook.repliesToBot message = true ->
  getCurrentChatSession (persistentSessions env) d (ofInt (chat message))
  = Some currentSession ->
  Webhook.handleMessage env message d
  = bind (emit (GetCurrentChatSession (ofInt (chat message))))
      (fun _ => Webhook.processCommand env (chat message)
                  (PersistentSession.token currentSession) (trim raw)) d.
Proof.
  intros Htext Htruthy Hstart Hhelp Hauth Hreply Hcurrent.
  unfold Webhook.handleMessage. rewrite Htext. cbn [fmap option_fmap option_map].
  rewrite Htruthy, Hauth, (eqb_neq _ _ Hstart), (eqb_neq _ _ Hhelp), Hreply.
  unfold bind, ask, emit. cbn [negb]. rewrite Hcurrent. reflexivity.
Qed.

Lemma reply_shortcut_first_witness :
  let env := Sample.webhook Sample.persistentSessionsOfChat42 1700000000000 in
  let message := Sample.textMessage (lit "/cmdABC12345 do X") true in
  Webhook.handleMessage env message Sample.sessionsDir
  = bind (emit (GetCurrentChatSession (lit "42")))
      (fun _ => Webhook.processCommand env 42 (lit "XYZ98765") (lit "/cmdABC12345 do X"))
      Sample.sessionsDir.
Proof.
  cbv zeta.
  apply (reply_shortcut_first
           (Sample.webhook Sample.persistentSessionsOfChat42 1700000000000)
           (Sample.textMessage (lit "/cmdABC12345 do X") true)
           (lit "/cmdABC12345 do X") Sample.currentSession Sample.sessionsDir);
    try reflexivity; vm_compute; discriminate.
Defined.

(** C4 as stated fails: the reply [/help] to a notification, in a chat
    with a current session, is answered with the help text; nothing is
    looked up and nothing is injected. *)
Lemma reply_shortcut_counterexample :
  let env := Sample.webhook Sample.persistentSessionsOfChat42 1700000000000 in
  let message := Sample.textMessage (lit "/help") true in
  let r := Webhook.handleMessage env message Sample.sessionsDir in
  Webhook.repliesToBot message = true /\
  getCurrentChatSession (persistentSessions env) Sample.sessionsDir (ofInt (chat message))
  = Some Sample.currentSession /\
  calls r = [SendMessage 42 Text.help false] /\
  lookups (calls r) = [] /\ injections (calls r) = [] /\
  injections
    (calls (Webhook.processCommand env 42 (lit "XYZ98765") (lit "/help") Sample.sessionsDir))
  = [(lit "/help", lit "main")].
Proof. cbv zeta. repeat split; vm_compute; reflexivity. Qed.

(* ================================================================== *)
(** ** Expired tokens *)
(* ================================================================== *)

Section Expiry.
Import Webhook.
Context (env : Env).

Lemma scanFiles_Some token files session :
  scanFiles token files = Some session ->
  exists file, (file, Some session) ∈ files /\ Session.token session = token.
Proof.
  induction files as [|[file content] files IH]; cbn [scanFiles]; [discriminate|].
  intros Hscan.
  assert (Hrest : scanFiles token files = Some session ->
                  exists file', (file', Some session) ∈ (file, content) :: files /\
                                Session.token session = token).
  { intros H. destruct (IH H) as (file' & Hin & Htok).
    exists file'. split; [apply elem_of_cons; now right|exact Htok]. }
  destruct (negb (endsWith file (lit ".json")) || eqb file (lit "chat-sessions.json"));
    [now apply Hrest|].
  destruct content as [other|]; [|now apply Hrest].
  destruct (eqb (Session.token other) token) eqn:Htok; [|now apply Hrest].
  injection Hscan as ->. exists file. split; [apply elem_of_cons; now left|now apply eqb_eq].
Qed.

(** A lookup changes nothing, sends nothing and injects nothing. *)
Lemma findSessionByToken_pure (token : jsstring) (d : Dir) :
  exists log,
    findSessionByToken env token d = (lookupSession env token d, d, log) /\
    replies log = [] /\ injections log = [] /\ lookups log = [token].
Proof.
  unfold lookupSession, findSessionByToken, bind, ask, ret.
  destruct (getSessionByToken (persistentSessions env) d token);
    cbn; eexists; (split; [reflexivity|]); repeat split.
Qed.

(** With no persistent session of that token, the lookup is the scan of
    the files. *)
Lemma lookupSession_files (token : jsstring) (d : Dir) :
  getSessionByToken (persistentSessions env) d token = None ->
  lookupSession env token d = scanFiles token (map_to_list d).
Proof.
  intros Hnone. unfold lookupSession, findSessionByToken, bind, ask.
  rewrite Hnone. reflexivity.
Qed.

Lemma removeSession_spec (sessionId : jsstring) (d : Dir) :
  exists log,
    removeSession sessionId d = (tt, delete (sessionFile sessionId) d, log) /\
    replies log = [] /\ injections log = [] /\ lookups log = [].
Proof.
  unfold removeSession. destruct (d !! sessionFile sessionId) eqn:Hfile.
  - eexists. split; [reflexivity|]. repeat split.
  - exists []. split; [|repeat split]. now rewrite delete_id.
Qed.

Lemma replies_app log1 log2 : replies (log1 ++ log2) = replies log1 ++ replies log2.
Proof.
  induction log1 as [|e log1 IH]; [reflexivity|].
  destruct e; cbn; now rewrite ?IH.
Qed.

Lemma injections_app log1 log2 :
  injections (log1 ++ log2) = injections log1 ++ injections log2.
Proof.
  induction log1 as [|e log1 IH]; [reflexivity|].
  destruct e; cbn; now rewrite ?IH.
Qed.

Lemma lookups_app log1 log2 : lookups (log1 ++ log2) = lookups log1 ++ lookups log2.
Proof.
  induction log1 as [|e log1 IH]; [reflexivity|].
  destruct e; cbn; now rewrite ?IH.
Qed.

(** What [_processCommand] does with a session found past its expiry. *)
Lemma processCommand_expired (chatId : Z) (token command : jsstring) (d : Dir)
    (session : Session.t) :
  lookupSession env token d = Some session ->
  Session.expiresAt session < dateNow env / 1000 ->
  exists log,
    processCommand env chatId token command d
    = (tt, delete (sessionFile (Session.id session)) d, log) /\
    replies log = [(chatId, Text.tokenExpired)] /\ injections log = [] /\
    lookups log = [token].
Proof.
  intros Hfound Hexpired.
  destruct (findSessionByToken_pure token d) as (log1 & Hfind & Hr1 & Hi1 & Hl1).
  destruct (removeSession_spec (Session.id session) d) as (log2 & Hrem & Hr2 & Hi2 & Hl2).
  unfold processCommand, bind at 1. rewrite Hfind, Hfound.
  apply Z.ltb_lt in Hexpired. rewrite Hexpired.
  unfold bind, sendMessage, emit. rewrite Hrem.
  eexists. split; [reflexivity|].
  rewrite !replies_app, !injections_app, !lookups_app, Hr1, Hi1, Hl1, Hr2, Hi2, Hl2.
  repeat split.
Qed.

(** What [_processCommand] does with a session found before its expiry:
    the command goes to the injector, whoever sent it. *)
Lemma processCommand_live (chatId : Z) (token command : jsstring) (d : Dir)
    (session : Session.t) :
  lookupSession env token d = Some session ->
  dateNow env / 1000 <= Session.expiresAt session ->
  exists log,
    processCommand env chatId token command d = (tt, d, log) /\
    injections log
    = [(command, if truthy (Session.tmuxSession session)
                 then Session.tmuxSession session else lit "default")] /\
    lookups log = [token].
Proof.
  intros Hfound Hlive.
  destruct (findSessionByToken_pure token d) as (log1 & Hfind & Hr1 & Hi1 & Hl1).
  unfold processCommand, bind at 1. rewrite Hfind, Hfound.
  apply Z.ltb_ge in Hlive. rewrite Hlive.
  unfold bind, sendMessage, emit.
  destruct (injectCommand env command _); eexists; (split; [reflexivity|]);
    rewrite !injections_app, !lookups_app, Hi1, Hl1; repeat split.
Qed.

Lemma processCommand_lookups (chatId : Z) (token command : jsstring) (d : Dir) :
  lookups (calls (processCommand env chatId token command d)) = [token].
Proof.
  destruct (findSessionByToken_pure token d) as (log1 & Hfind & Hr1 & Hi1 & Hl1).
  unfold processCommand, bind at 1. rewrite Hfind.
  destruct (lookupSession env token d) as [session|].
  - destruct (Session.expiresAt session <? dateNow env / 1000).
    + destruct (removeSession_spec (Session.id session) d) as (log2 & Hrem & _ & _ & Hl2).
      unfold bind, sendMessage, emit. rewrite Hrem. unfold calls. cbn [snd].
      now rewrite !lookups_app, Hl1, Hl2.
    + unfold bind, sendMessage, emit.
      destruct (injectCommand env command _); unfold calls; cbn [snd];
        now rewrite !lookups_app, Hl1.
  - unfold sendMessage, emit, calls. cbn [snd]. now rewrite !lookups_app, Hl1.
Qed.

(** [_processCommand] sends exactly one message, and never the rejection
    of the authorization gate. *)
Lemma processCommand_replies (chatId : Z) (token command : jsstring) (d : Dir) :
  exists text,
    replies (calls (processCommand env chatId token command d)) = [(chatId, text)] /\
    text <> Text.unauthorized.
Proof.
  destruct (findSessionByToken_pure token d) as (log1 & Hfind & Hr1 & Hi1 & Hl1).
  unfold processCommand, bind at 1. rewrite Hfind.
  destruct (lookupSession env token d) as [session|].
  - destruct (Session.expiresAt session <? dateNow env / 1000).
    + destruct (removeSession_spec (Session.id session) d) as (log2 & Hrem & Hr2 & _).
      unfold bind, sendMessage, emit. rewrite Hrem. unfold calls. cbn [snd].
      rewrite !replies_app, Hr1, Hr2. eexists. split; [reflexivity|discriminate].
    + unfold bind, sendMessage, emit.
      destruct (injectCommand env command _); unfold calls; cbn [snd];
        rewrite !replies_app, Hr1; eexists; (split; [reflexivity|discriminate]).
  - unfold sendMessage, emit, calls. cbn [snd]. rewrite !replies_app, Hr1.
    eexists. split; [reflexivity|discriminate].
Qed.

End Expiry.

(** C1, as the code has it.  When the lookup of a token finds a session and
    the second of the lookup is past the session's [expiresAt], the operator
    gets the expired-token reply and nothing else, no command is injected,
    and the file of the session is deleted.  When moreover the persistent
    store then holds no session of that token and the file of the session
    was the only file that carried the token, the next lookup of the token
    finds nothing. *)
Theorem expired_token_is_refused (env : Env) (d : Dir) (chatId : Z)
    (token command : jsstring) (session : Session.t) :
  lookupSession env token d = Some session ->
  Session.expiresAt session < dateNow env / 1000 ->
  replies (calls (Webhook.processCommand env chatId token command d))
  = [(chatId, Text.tokenExpired)] /\
  injections (calls (Webhook.processCommand env chatId token command d)) = [] /\
  finalDir (Webhook.processCommand env chatId token command d)
  = delete (sessionFile (Session.id session)) d /\
  (getSessionByToken (persistentSessions env)
     (delete (sessionFile (Session.id session)) d) token = None ->
   (forall (file : jsstring) (other : Session.t),
      d !! file = Some (Some other) -> Session.token other = token ->
      file = sessionFile (Session.id session)) ->
   lookupSession env token (finalDir (Webhook.processCommand env chatId token command d))
   = None).
Proof.
  intros Hfound Hexpired.
  destruct (processCommand_expired env chatId token command d session Hfound Hexpired)
    as (log & -> & Hr & Hi & _).
  unfold calls, finalDir. cbn [fst snd].
  split; [exact Hr|]. split; [exact Hi|]. split; [reflexivity|].
  intros Hnone Honly. rewrite lookupSession_files by exact Hnone.
  destruct (Webhook.scanFiles token _) as [other|] eqn:Hscan; [|reflexivity].
  exfalso. apply scanFiles_Some in Hscan as (file & Hin & Htok).
  apply elem_of_map_to_list in Hin.
  apply lookup_delete_Some in Hin as [Hne Hin].
  apply Hne. symmetry. exact (Honly file other Hin Htok).
Qed.

Lemma expired_token_is_refused_witness :
  let env := Sample.webhook Sample.noPersistentSessions 1700086401000 in
  lookupSession env (lit "ABC12345")
    (finalDir (Webhook.processCommand env 42 (lit "ABC12345") (lit "ls") Sample.sessionsDir))
  = None.
Proof.
  cbv zeta.
  apply (expired_token_is_refused
           (Sample.webhook Sample.noPersistentSessions 1700086401000)
           Sample.sessionsDir 42 (lit "ABC12345") (lit "ls") Sample.storedSession).
  - vm_compute. reflexivity.
  - vm_compute. reflexivity.
  - reflexivity.
  - intros file other Hfile _. unfold Sample.sessionsDir in Hfile.
    apply lookup_singleton_Some in Hfile as [<- _]. reflexivity.
Defined.

(** C1 as stated fails at the very second of [expiresAt]: the session is
    still served, the command is injected and the record stays. *)
Lemma expiry_boundary_counterexample :
  let env := Sample.webhook Sample.noPersistentSessions 1700086400000 in
  let r := Webhook.processCommand env 42 (lit "ABC12345") (lit "ls") Sample.sessionsDir in
  lookupSession env (lit "ABC12345") Sample.sessionsDir = Some Sample.storedSession /\
  dateNow env / 1000 = Session.expiresAt Sample.storedSession /\
  injections (calls r) = [(lit "ls", lit "main")] /\
  replies (calls r) = [(42, Text.commandSent (lit "ls") (lit "main"))] /\
  lookupSession env (lit "ABC12345") (finalDir r) = Some Sample.storedSession.
Proof. cbv zeta. repeat split; vm_compute; reflexivity. Qed.

(* ================================================================== *)
(** ** Callback payloads *)
(* ================================================================== *)

Section Payloads.
Import Webhook.

Lemma splitAux_nonempty sep cur (s : jsstring) : splitAux sep cur s <> [].
Proof.
  revert cur. induction s as [|c s IH]; intros cur; cbn; [easy|].
  destruct (c =? sep); [easy|apply IH].
Qed.

(** Up to the first separator. *)
Lemma splitAux_first sep (a b : jsstring) :
  forall cur, Forall (fun c => c <> sep) a ->
  splitAux sep cur (a ++ sep :: b) = (reverse cur ++ a) :: splitAux sep [] b.
Proof.
  induction a as [|c a IH]; intros cur Hall; cbn [app splitAux].
  - now rewrite Z.eqb_refl, app_nil_r.
  - inversion Hall as [|? ? Hc Ha]; subst.
    apply Z.eqb_neq in Hc. rewrite Hc, IH by exact Ha.
    now rewrite reverse_cons, <- app_assoc.
Qed.

(** Joining the pieces with the separator gives the text back. *)
Lemma join_splitAux sep (s : jsstring) :
  forall cur, join [sep] (splitAux sep cur s) = reverse cur ++ s.
Proof.
  induction s as [|c s IH]; intros cur; cbn [splitAux].
  - cbn. now rewrite app_nil_r.
  - destruct (Z.eqb_spec c sep) as [->|Hne].
    + cbn [join]. pose proof (splitAux_nonempty sep [] s) as Hne.
      destruct (splitAux sep [] s) as [|p ps] eqn:Hs; [easy|].
      rewrite <- Hs, IH. reflexivity.
    + rewrite IH, reverse_cons, <- app_assoc. reflexivity.
Qed.

Lemma split_quickcmd (T C : jsstring) :
  Forall (fun c => c <> 58) T ->
  split 58 (lit "quickcmd:" ++ T ++ lit ":" ++ C)
  = lit "quickcmd" :: T :: split 58 C.
Proof.
  intros HT. unfold split.
  change (lit "quickcmd:") with (lit "quickcmd" ++ [58]).
  rewrite <- app_assoc. cbn [app].
  rewrite splitAux_first by (repeat constructor; discriminate).
  change (lit ":" ++ C) with (58 :: C).
  rewrite splitAux_first by exact HT. reflexivity.
Qed.

Lemma startsWith_app (p s : jsstring) : startsWith (p ++ s) p = true.
Proof.
  induction p as [|c p IH]; [now destruct s|]. cbn. now rewrite Z.eqb_refl, IH.
Qed.

(** A [quickcmd] payload takes the fifth branch of
    [_handleCallbackQuery], with the token and the command it was built
    from; no branch asks who pressed the button. *)
Lemma handleCallbackQuery_quickcmd (env : Env) (callbackQuery : CallbackQuery)
    (T C : jsstring) (d : Dir) :
  Forall (fun c => c <> 58) T ->
  data callbackQuery = lit "quickcmd:" ++ T ++ lit ":" ++ C ->
  handleCallbackQuery env callbackQuery d
  = bind (emit (AnswerCallbackQuery (callbackId callbackQuery)))
      (fun _ => processCommand env (callbackChat callbackQuery) T C) d.
Proof.
  intros HT Hdata. unfold handleCallbackQuery. rewrite Hdata.
  set (rest := T ++ lit ":" ++ C).
  change (startsWith (lit "quickcmd:" ++ rest) (lit "personal:")) with false.
  change (startsWith (lit "quickcmd:" ++ rest) (lit "group:")) with false.
  change (startsWith (lit "quickcmd:" ++ rest) (lit "copy:")) with false.
  change (startsWith (lit "quickcmd:" ++ rest) (lit "format:")) with false.
  rewrite startsWith_app. cbv iota. subst rest.
  rewrite split_quickcmd by exact HT.
  unfold part. cbn [lookup list_lookup default drop].
  unfold split. rewrite drop_0.
  pose proof (join_splitAux 58 C []) as Hjoin. cbn [reverse rev_append app] in Hjoin.
  change (join (lit ":") (splitAux 58 [] C)) with (join [58] (splitAux 58 [] C)).
  unfold jsstring, char in *. rewrite Hjoin.
  reflexivity.
Qed.

End Payloads.


(* ================================================================== *)
(** ** The authorization gate *)
(* ================================================================== *)

(** An unauthorized text message is answered with the rejection and
    nothing else happens. *)
Lemma unauthorized_message_rejected (env : Env) (message : Message) (raw : jsstring)
    (d : Dir) :
  text message = Some raw ->
  truthy (trim raw) = true ->
  Webhook.isAuthorized env (from message) (chat message) = false ->
  Webhook.handleWebhook env (UpdateMessage message) d
  = (tt, d, [SendMessage (chat message) Text.unauthorized false]).
Proof.
  intros Htext Htruthy Hauth. unfold Webhook.handleWebhook, Webhook.handleMessage.
  rewrite Htext. cbn [fmap option_fmap option_map]. now rewrite Htruthy, Hauth.
Qed.

(** C7.  A callback query is handled without any look at who sent it: for
    a caller that [_isAuthorized] turns down, a [quickcmd] payload still
    reaches the session store with its token, the one message sent is not
    the rejection, and when the session is found and has not expired the
    command is injected. *)
Theorem callback_query_skips_authorization (env : Env) (callbackQuery : CallbackQuery)
    (T C : jsstring) (d : Dir) :
  Webhook.isAuthorized env (callbackFrom callbackQuery) (callbackChat callbackQuery)
  = false ->
  Forall (fun c => c <> 58) T ->
  data callbackQuery = lit "quickcmd:" ++ T ++ lit ":" ++ C ->
  lookups (calls (Webhook.handleWebhook env (UpdateCallbackQuery callbackQuery) d)) = [T] /\
  (exists text,
     replies (calls (Webhook.handleWebhook env (UpdateCallbackQuery callbackQuery) d))
     = [(callbackChat callbackQuery, text)] /\
     text <> Text.unauthorized) /\
  forall session : Session.t,
    lookupSession env T d = Some session ->
    dateNow env / 1000 <= Session.expiresAt session ->
    injections (calls (Webhook.handleWebhook env (UpdateCallbackQuery callbackQuery) d))
    = [(C, if truthy (Session.tmuxSession session)
           then Session.tmuxSession session else lit "default")].
Proof.
  intros _ HT Hdata. cbn [Webhook.handleWebhook].
  rewrite (handleCallbackQuery_quickcmd env callbackQuery T C d HT Hdata).
  unfold bind, emit. split; [|split].
  - pose proof (processCommand_lookups env (callbackChat callbackQuery) T C d) as Hl.
    destruct (Webhook.processCommand env (callbackChat callbackQuery) T C d) as [[u d'] log].
    exact Hl.
  - pose proof (processCommand_replies env (callbackChat callbackQuery) T C d) as Hr.
    destruct (Webhook.processCommand env (callbackChat callbackQuery) T C d) as [[u d'] log].
    exact Hr.
  - intros session Hfound Hlive.
    destruct (processCommand_live env (callbackChat callbackQuery) T C d session Hfound Hlive)
      as (log & -> & Hi & _).
    exact Hi.
Qed.

Lemma callback_query_skips_authorization_witness :
  let env := Sample.webhook Sample.noPersistentSessions 1700000000000 in
  Webhook.isAuthorized env 666 777 = false /\
  lookups (calls (Webhook.handleWebhook env (UpdateCallbackQuery Sample.strangerCallback)
                    Sample.sessionsDir))
  = [lit "ABC12345"] /\
  injections (calls (Webhook.handleWebhook env (UpdateCallbackQuery Sample.strangerCallback)
                       Sample.sessionsDir))
  = [(lit "ls", lit "main")].
Proof.
  cbv zeta.
  pose proof (callback_query_skips_authorization
                (Sample.webhook Sample.noPersistentSessions 1700000000000)
                Sample.strangerCallback (lit "ABC12345") (lit "ls") Sample.sessionsDir) as H.
  destruct H as (H1 & _ & H2).
  - vm_compute. reflexivity.
  - repeat constructor; discriminate.
  - reflexivity.
  - split; [vm_compute; reflexivity|]. split; [exact H1|].
    apply (H2 Sample.storedSession); vm_compute; [reflexivity|discriminate].
Defined.

(* ================================================================== *)
(** ** What a match tells: the matcher read backwards *)
(* ================================================================== *)

Section MatcherInversion.
Context {A : Type} (ic : bool).

Lemma repeatSet_Some cs :
  forall m n (s : jsstring) (k : nat -> jsstring -> option A) a,
  repeatSet ic cs m n s k = Some a ->
  exists w rest,
    s = w ++ rest /\ length w = m /\
    Forall (fun c => accepts ic cs c = true) w /\
    k (n + m)%nat rest = Some a.
Proof.
  induction m as [|m IH]; intros n s k a Hrun; cbn [repeatSet] in Hrun.
  - exists [], s. repeat split; [constructor|]. now rewrite Nat.add_0_r.
  - destruct s as [|c s]; [discriminate|].
    destruct (accepts ic cs c) eqn:Hc; [|discriminate].
    destruct (IH _ _ _ _ Hrun) as (w & rest & -> & Hlen & Hall & Hk).
    exists (c :: w), rest. repeat split.
    + cbn. now rewrite Hlen.
    + now constructor.
    + rewrite <- Hk. f_equal. lia.
Qed.

Lemma plusGreedy_Some cs :
  forall (s : jsstring) n (k : nat -> jsstring -> option A) a,
  plusGreedy ic cs n s k = Some a ->
  exists w rest,
    s = w ++ rest /\ w <> [] /\
    Forall (fun c => accepts ic cs c = true) w /\
    k (n + length w)%nat rest = Some a.
Proof.
  induction s as [|c s IH]; intros n k a Hrun; cbn [plusGreedy] in Hrun; [discriminate|].
  destruct (accepts ic cs c) eqn:Hc; [|discriminate].
  destruct (plusGreedy ic cs (S n) s k) as [a'|] eqn:Hmore.
  - injection Hrun as ->.
    destruct (IH _ _ _ Hmore) as (w & rest & -> & _ & Hall & Hk).
    exists (c :: w), rest. repeat split; [easy|now constructor|].
    rewrite <- Hk. f_equal. cbn. lia.
  - exists [c], s. repeat split; [easy|now repeat constructor|].
    rewrite <- Hrun. f_equal. cbn. lia.
Qed.

Lemma run_rlit_Some (p : jsstring) r :
  forall n (s : jsstring) caps (k : nat -> jsstring -> list jsstring -> option A) a,
  run ic (rlit p r) n s caps k = Some a ->
  exists p' rest,
    s = p' ++ rest /\ length p' = length p /\
    run ic r (n + length p)%nat rest caps k = Some a.
Proof.
  induction p as [|c p IH]; intros n s caps k a Hrun; cbn [rlit] in Hrun.
  - exists [], s. repeat split. cbn. now rewrite Nat.add_0_r.
  - cbn [run] in Hrun. destruct s as [|d s]; [discriminate|].
    destruct (accepts ic (CChar c) d); [|discriminate].
    destruct (IH _ _ _ _ _ Hrun) as (p' & rest & -> & Hlen & Hk).
    exists (d :: p'), rest. repeat split; [cbn; now rewrite Hlen|].
    rewrite <- Hk. f_equal. cbn. lia.
Qed.

End MatcherInversion.

Section ParserSoundness.

Lemma jsMatch_bol_Some ic r (s : jsstring) caps :
  jsMatch ic (RSeq RBol r) s = Some caps ->
  run ic r 0 s [] (fun _ _ caps => Some caps) = Some caps.
Proof.
  unfold jsMatch. intros Hm.
  destruct (run ic r 0 s [] (fun _ _ caps => Some caps)) as [caps'|] eqn:Hrun.
  - destruct s; cbn [search run Nat.eqb] in Hm; rewrite Hrun in Hm; exact Hm.
  - pose proof (jsMatch_bol_fail ic r s Hrun) as Hfail. unfold jsMatch in Hfail.
    now rewrite Hfail in Hm.
Qed.

Lemma accepts_dot_inv ic c : accepts ic CDot c = true -> isLineTerminator c = false.
Proof.
  unfold accepts. cbn [member]. destruct (isLineTerminator c) eqn:Hc; [|reflexivity].
  cbn [negb orb]. intros Hswap. exfalso.
  assert (swapCase c = c) as Heq.
  { unfold swapCase, isLower, isUpper, isLineTerminator, between in *. unbool.
    destruct (Z.leb_spec 97 c); destruct (Z.leb_spec c 122); cbn [andb]; try lia;
      destruct (Z.leb_spec 65 c); destruct (Z.leb_spec c 90); cbn [andb]; lia. }
  rewrite Heq, Hc in Hswap. now destruct ic.
Qed.

Lemma accepts_token_inv ic c : accepts ic tokenChar c = true -> isAlnum c = true.
Proof.
  unfold accepts, tokenChar. cbn [member].
  fold (isUpper c) (isDigit c) (isUpper (swapCase c)) (isDigit (swapCase c)).
  intros H. apply orb_true_iff in H as [H|H].
  - apply isTokenChar_isAlnum. exact H.
  - apply andb_true_iff in H as [_ H].
    unfold swapCase in H. destruct (isLower c) eqn:Hl.
    + unfold isAlnum. rewrite Hl. now rewrite orb_true_r.
    + destruct (isUpper c) eqn:Hu.
      * unfold isAlnum. now rewrite Hu.
      * apply isTokenChar_isAlnum. exact H.
Qed.

(** What the end common to the three patterns has matched. *)
Lemma run_token_tail_Some ic n (s : jsstring) caps :
  run ic (RSeq (RGroup (RRepeat 8 tokenChar)) commandTail) n s []
    (fun _ _ caps => Some caps) = Some caps ->
  exists T w C,
    s = T ++ w ++ C /\ caps = [T; C] /\
    length T = 8%nat /\ Forall (fun c => isAlnum c = true) T /\
    (ic = false -> Forall (fun c => isTokenChar c = true) T) /\
    w <> [] /\ Forall (fun c => isWhiteSpace c = true) w /\
    C <> [] /\ Forall (fun c => isLineTerminator c = false) C.
Proof.
  cbn [run]. intros Hrun.
  apply repeatSet_Some in Hrun as (T & rest & -> & HlenT & HT & Hrun).
  unfold commandTail in Hrun. cbn [run] in Hrun.
  apply plusGreedy_Some in Hrun as (w & rest' & -> & Hw & Hws & Hrun).
  apply plusGreedy_Some in Hrun as (C & rest'' & -> & HC & Hdot & Hrun).
  destruct rest'' as [|e rest'']; [|discriminate].
  injection Hrun as <-. rewrite app_nil_r.
  exists T, w, C. split; [reflexivity|]. split.
  - cbn [app]. f_equal; [|f_equal].
    + replace (n + 8 - n)%nat with (length T) by lia. now rewrite take_app_length.
    + replace (n + 8 + length w + length C - (n + 8 + length w))%nat
        with (length C) by lia.
      apply firstn_all.
  - split; [exact HlenT|]. split.
    { eapply Forall_impl; [exact HT|]. intros c. apply accepts_token_inv. }
    split.
    { intros ->. eapply Forall_impl; [exact HT|]. intros c Hc.
      unfold accepts in Hc. cbn [member andb] in Hc. now rewrite orb_false_r in Hc. }
    split; [exact Hw|]. split.
    { eapply Forall_impl; [exact Hws|]. intros c Hc. rewrite <- (accepts_space ic c).
      exact Hc. }
    split; [exact HC|].
    eapply Forall_impl; [exact Hdot|]. intros c. apply accepts_dot_inv.
Qed.

(** Whatever [parseCommand] returns: a token of 8 uppercase letters or
    digits, and a command that is the non-empty end of the text, free of
    line terminators. *)
Lemma parseCommand_Some (messageText token command : jsstring) :
  parseCommand messageText = Some (token, command) ->
  length token = 8%nat /\
  Forall (fun c => isTokenChar c = true) token /\
  command <> [] /\
  Forall (fun c => isLineTerminator c = false) command /\
  exists before, messageText = before ++ command /\ (8 < length before)%nat.
Proof.
  unfold parseCommand. intros Hparse.
  assert (Hcaps : exists ic before caps,
             run ic (RSeq (RGroup (RRepeat 8 tokenChar)) commandTail)
               (length before) (drop (length before) messageText) []
               (fun _ _ caps => Some caps) = Some caps /\
             messageText = before ++ drop (length before) messageText /\
             token = toUpperCase (group caps 1) /\ command = group caps 2).
  { destruct (jsMatch true newFormat messageText) as [caps|] eqn:Hnew.
    - injection Hparse as <- <-. unfold newFormat in Hnew.
      apply jsMatch_bol_Some, run_rlit_Some in Hnew as (p & rest & -> & Hlen & Hrun).
      exists true, p, caps. rewrite drop_app_length. cbn [Nat.add] in Hrun.
      rewrite Hlen. repeat split. exact Hrun.
    - destruct (jsMatch true oldFormat messageText) as [caps|] eqn:Hold.
      + injection Hparse as <- <-. unfold oldFormat in Hold.
        apply jsMatch_bol_Some, run_rlit_Some in Hold as (p & rest & -> & Hlen & Hrun).
        cbn [run Nat.add] in Hrun.
        apply plusGreedy_Some in Hrun as (w & rest' & -> & _ & _ & Hrun).
        exists true, (p ++ w), caps. rewrite app_assoc, drop_app_length.
        rewrite length_app, Hlen. repeat split. exact Hrun.
      + destruct (jsMatch false directFormat messageText) as [caps|] eqn:Hdir;
          [|discriminate].
        injection Hparse as <- <-. unfold directFormat in Hdir.
        apply jsMatch_bol_Some in Hdir.
        exists false, [], caps. cbn [length drop app]. repeat split. exact Hdir. }
  destruct Hcaps as (ic & before & caps & Hrun & Htext & -> & ->).
  apply run_token_tail_Some in Hrun
    as (T & w & C & Hrest & -> & HlenT & HT & _ & Hw & _ & HC & Hlines).
  cbn [group Nat.sub lookup list_lookup default].
  split; [unfold toUpperCase; now rewrite length_fmap|].
  split; [now apply toUpperCase_alphabet|].
  split; [exact HC|]. split; [exact Hlines|].
  exists (before ++ T ++ w). split.
  - rewrite Htext at 1. rewrite Hrest. now rewrite <- !app_assoc.
  - rewrite !length_app, HlenT. destruct w; [easy|cbn; lia].
Qed.

End ParserSoundness.

(* ================================================================== *)
(** ** The handlers, case by case *)
(* ================================================================== *)

Section HandlerCases.
Import Webhook.
Context (env : Env).

(** The three ways [_processCommand] ends. *)
Lemma processCommand_outcome (chatId : Z) (token command : jsstring) (d : Dir) :
  exists (d' : Dir) (log : list Event),
    processCommand env chatId token command d = (tt, d', log) /\
    lookups log = [token] /\
    ((lookupSession env token d = None /\ d' = d /\
      replies log = [(chatId, Text.invalidToken)] /\ injections log = []) \/
     (exists session,
        lookupSession env token d = Some session /\
        Session.expiresAt session < dateNow env / 1000 /\
        d' = delete (sessionFile (Session.id session)) d /\
        replies log = [(chatId, Text.tokenExpired)] /\ injections log = []) \/
     (exists session tmuxSession,
        lookupSession env token d = Some session /\
        dateNow env / 1000 <= Session.expiresAt session /\
        tmuxSession = (if truthy (Session.tmuxSession session)
                       then Session.tmuxSession session else lit "default") /\
        d' = d /\
        injections log = [(command, tmuxSession)] /\
        replies log
        = [(chatId, match injectCommand env command tmuxSession with
                    | None => Text.commandSent command tmuxSession
                    | Some errorMessage => Text.commandFailed errorMessage
                    end)])).
Proof.
  destruct (findSessionByToken_pure env token d) as (log1 & Hfind & Hr1 & Hi1 & Hl1).
  destruct (lookupSession env token d) as [session|] eqn:Hfound.
  - destruct (Z.ltb_spec (Session.expiresAt session) (dateNow env / 1000)) as [Hexp|Hlive].
    + destruct (processCommand_expired env chatId token command d session Hfound Hexp)
        as (log & Hrun & Hr & Hi & Hl).
      exists (delete (sessionFile (Session.id session)) d), log.
      split; [exact Hrun|]. split; [exact Hl|]. right. left.
      exists session. repeat split; assumption.
    + unfold processCommand, bind at 1. rewrite Hfind.
      apply Z.ltb_ge in Hlive as Hlive'. rewrite Hlive'.
      unfold bind, sendMessage, emit.
      set (tmuxSession := if truthy (Session.tmuxSession session)
                          then Session.tmuxSession session else lit "default").
      destruct (injectCommand env command tmuxSession) as [errorMessage|] eqn:Hinj;
        eexists d, _; (split; [reflexivity|]);
        rewrite !lookups_app, Hl1; (split; [reflexivity|]); right; right;
        exists session, tmuxSession;
        rewrite !injections_app, !replies_app, Hi1, Hr1, Hinj; repeat split; assumption.
  - unfold processCommand, bind at 1. rewrite Hfind.
    unfold sendMessage, emit. eexists d, _. split; [reflexivity|].
    rewrite !lookups_app, !replies_app, !injections_app, Hl1, Hr1, Hi1.
    split; [reflexivity|]. left. repeat split.
Qed.

Lemma parseAndProcess_cases (chatId : Z) (messageText : jsstring) (d : Dir) :
  (parseCommand messageText = None /\
   parseAndProcess env chatId messageText d
   = (tt, d, [SendMessage chatId Text.invalidFormat false])) \/
  (exists token command d' log,
     parseCommand messageText = Some (token, command) /\
     processCommand env chatId token command d = (tt, d', log) /\
     parseAndProcess env chatId messageText d = (tt, d', log)).
Proof.
  unfold parseAndProcess.
  destruct (parseCommand messageText) as [[token command]|].
  - right. exists token, command.
    destruct (processCommand env chatId token command d) as [[[] d'] log].
    exists d', log. repeat split.
  - left. split; reflexivity.
Qed.

(** The ways [_handleMessage] ends: in silence, with one message of its
    own, or in [_processCommand] for a token and a command; where the
    message replies to a bot, the current session of the chat is asked for
    first. *)
Lemma handleMessage_cases (message : Message) (d : Dir) :
  ((text message = None \/ exists raw, text message = Some raw /\ trim raw = []) /\
   handleMessage env message d = (tt, d, [])) \/
  (exists raw before,
     text message = Some raw /\ trim raw <> [] /\
     (before = [] \/
      (before = [GetCurrentChatSession (ofInt (chat message))] /\
       repliesToBot message = true)) /\
     ((exists reply,
         handleMessage env message d
         = (tt, d, before ++ [SendMessage (chat message) reply false]) /\
         ((reply = Text.unauthorized /\
           isAuthorized env (from message) (chat message) = false) \/
          (isAuthorized env (from message) (chat message) = true /\
           (reply = Text.welcome \/ reply = Text.help \/
            (reply = Text.invalidFormat /\ parseCommand (trim raw) = None))))) \/
      (exists token command d' log,
         processCommand env (chat message) token command d = (tt, d', log) /\
         handleMessage env message d = (tt, d', before ++ log) /\
         isAuthorized env (from message) (chat message) = true /\
         (parseCommand (trim raw) = Some (token, command) \/
          (before <> [] /\ command = trim raw))))).
Proof.
  unfold handleMessage.
  destruct (text message) as [raw|] eqn:Htext; cbn [fmap option_fmap option_map];
    [|left; split; [now left|reflexivity]].
  destruct (trim raw) as [|c rest] eqn:Htrim.
  { left. split; [right; now exists raw|reflexivity]. }
  right. exists raw. rewrite <- Htrim.
  replace (truthy (trim raw)) with true by now rewrite Htrim.
  assert (Hne : trim raw <> []) by now rewrite Htrim.
  cbn [negb].
  destruct (isAuthorized env (from message) (chat message)) eqn:Hauth; cbn [negb];
    [|exists []; repeat split; [exact Hne|now left|];
      left; eexists; split; [reflexivity|tauto]].
  destruct (eqb (trim raw) (lit "/start"));
    [exists []; repeat split; [exact Hne|now left|];
     left; eexists; split; [reflexivity|tauto]|].
  destruct (eqb (trim raw) (lit "/help"));
    [exists []; repeat split; [exact Hne|now left|];
     left; eexists; split; [reflexivity|tauto]|].
  destruct (repliesToBot message) eqn:Hreply.
  - exists [GetCurrentChatSession (ofInt (chat message))].
    split; [reflexivity|]. split; [exact Hne|]. split; [now right|].
    unfold bind, ask.
    destruct (getCurrentChatSession (persistentSessions env) d (ofInt (chat message)))
      as [currentSession|].
    + right. exists (PersistentSession.token currentSession), (trim raw).
      destruct (processCommand env (chat message) (PersistentSession.token currentSession)
                  (trim raw) d) as [[[] d'] log].
      exists d', log. repeat split. right. split; [easy|reflexivity].
    + destruct (parseAndProcess_cases (chat message) (trim raw) d)
        as [[Hnone ->]|(token & command & d' & log & Hsome & Hpc & ->)].
      * left. eexists. split; [reflexivity|tauto].
      * right. exists token, command, d', log. repeat split; [exact Hpc|now left].
  - exists []. split; [reflexivity|]. split; [exact Hne|]. split; [now left|].
    destruct (parseAndProcess_cases (chat message) (trim raw) d)
      as [[Hnone ->]|(token & command & d' & log & Hsome & Hpc & ->)].
    + left. eexists. split; [reflexivity|tauto].
    + right. exists token, command, d', log. repeat split; [exact Hpc|now left].
Qed.

Lemma startsWith_first (s p : jsstring) c :
  startsWith s (c :: p) = true -> exists s', s = c :: s'.
Proof.
  destruct s as [|e s']; cbn; [discriminate|].
  intros H. apply andb_true_iff in H as [H _]. apply Z.eqb_eq in H as ->. now exists s'.
Qed.

(** The ways [_handleCallbackQuery] ends, after it has answered the
    callback: in [_processCommand] for a [quickcmd] payload, otherwise with
    at most one message of its own. *)
Lemma handleCallbackQuery_cases (callbackQuery : CallbackQuery) (d : Dir) :
  (startsWith (data callbackQuery) (lit "quickcmd:") = true /\
   exists d' log,
     processCommand env (callbackChat callbackQuery)
       (part (split 58 (data callbackQuery)) 1)
       (join (lit ":") (drop 2 (split 58 (data callbackQuery)))) d = (tt, d', log) /\
     handleCallbackQuery env callbackQuery d
     = (tt, d', AnswerCallbackQuery (callbackId callbackQuery) :: log)) \/
  (startsWith (data callbackQuery) (lit "quickcmd:") = false /\
   exists rest,
     handleCallbackQuery env callbackQuery d
     = (tt, d, AnswerCallbackQuery (callbackId callbackQuery) :: rest) /\
     lookups rest = [] /\ injections rest = [] /\
     (replies rest = [] \/ exists reply, replies rest = [(callbackChat callbackQuery, reply)])).
Proof.
  destruct callbackQuery as [queryId queryFrom queryChat payload].
  cbn [data callbackId callbackChat].
  destruct (startsWith payload (lit "quickcmd:")) eqn:Hquick.
  - left. split; [reflexivity|].
    destruct (startsWith_first payload (lit "uickcmd:") 113 Hquick) as [rest ->].
    unfold handleCallbackQuery.
    cbn [data callbackId callbackChat]. rewrite Hquick.
    change (startsWith (113 :: rest) (lit "personal:")) with false.
    change (startsWith (113 :: rest) (lit "group:")) with false.
    change (startsWith (113 :: rest) (lit "copy:")) with false.
    change (startsWith (113 :: rest) (lit "format:")) with false.
    cbv iota. unfold bind, emit.
    destruct (processCommand env queryChat _ _ d) as [[[] d'] log].
    exists d', log. split; reflexivity.
  - right. split; [reflexivity|]. unfold handleCallbackQuery.
    cbn [data callbackId callbackChat]. rewrite Hquick.
    unfold bind, emit, sendMessage, ret.
    destruct (startsWith payload (lit "personal:"));
      [eexists; split; [reflexivity|]; repeat split; right; eexists; reflexivity|].
    destruct (startsWith payload (lit "group:"));
      [eexists; split; [reflexivity|]; repeat split; right; eexists; reflexivity|].
    destruct (startsWith payload (lit "copy:"));
      [eexists; split; [reflexivity|]; repeat split; right; eexists; reflexivity|].
    destruct (startsWith payload (lit "format:"));
      [eexists; split; [reflexivity|]; repeat split; right; eexists; reflexivity|].
    destruct (startsWith payload (lit "session:"));
      [eexists; split; [reflexivity|]; repeat split; right; eexists; reflexivity|].
    exists []. repeat split. now left.
Qed.

End HandlerCases.

(* ================================================================== *)
(** ** The quick-command payload *)
(* ================================================================== *)

(** C9.  For a token [T] without a colon and any command [C], colons
    inside [C] included, the payload [quickcmd:T:C] is taken apart into
    exactly [T] and [C], and the command is dispatched for the token:
    after the callback is answered, the session store is asked for [T] and
    for nothing else; when the session it finds has not expired, [C] is
    what is injected, once, into the tmux target of that session, and the
    chat is told of the outcome; when it finds none or an expired one,
    nothing is injected and the chat is told so. *)
Theorem quickcmd_roundtrip (env : Env) (callbackQuery : CallbackQuery)
    (T C : jsstring) (d : Dir) :
  Forall (fun c => c <> 58) T ->
  data callbackQuery = lit "quickcmd:" ++ T ++ lit ":" ++ C ->
  let r := Webhook.handleWebhook env (UpdateCallbackQuery callbackQuery) d in
  let chatId := callbackChat callbackQuery in
  Webhook.part (split 58 (data callbackQuery)) 1 = T /\
  join (lit ":") (drop 2 (split 58 (data callbackQuery))) = C /\
  Webhook.handleCallbackQuery env callbackQuery d
  = bind (emit (AnswerCallbackQuery (callbackId callbackQuery)))
      (fun _ => Webhook.processCommand env chatId T C) d /\
  (exists rest, calls r = AnswerCallbackQuery (callbackId callbackQuery) :: rest) /\
  lookups (calls r) = [T] /\
  (lookupSession env T d = None ->
   injections (calls r) = [] /\
   replies (calls r) = [(chatId, Text.invalidToken)] /\
   finalDir r = d) /\
  (forall session : Session.t,
     lookupSession env T d = Some session ->
     (Session.expiresAt session < dateNow env / 1000 ->
      injections (calls r) = [] /\
      replies (calls r) = [(chatId, Text.tokenExpired)] /\
      finalDir r = delete (sessionFile (Session.id session)) d) /\
     (dateNow env / 1000 <= Session.expiresAt session ->
      let tmuxSession := if truthy (Session.tmuxSession session)
                         then Session.tmuxSession session else lit "default" in
      injections (calls r) = [(C, tmuxSession)] /\
      replies (calls r)
      = [(chatId, match injectCommand env C tmuxSession with
                  | None => Text.commandSent C tmuxSession
                  | Some errorMessage => Text.commandFailed errorMessage
                  end)] /\
      finalDir r = d)).
Proof.
  intros HT Hdata r chatId.
  split; [rewrite Hdata, split_quickcmd by exact HT; reflexivity|].
  split.
  { rewrite Hdata, split_quickcmd by exact HT. cbn [drop].
    unfold split. apply (join_splitAux 58 C []). }
  split; [now apply handleCallbackQuery_quickcmd|].
  subst r. cbn [Webhook.handleWebhook].
  rewrite (handleCallbackQuery_quickcmd env callbackQuery T C d HT Hdata).
  fold chatId.
  destruct (processCommand_outcome env chatId T C d) as (d' & log & Hrun & Hlookups & Hcases).
  unfold bind, emit. rewrite Hrun. unfold calls, finalDir. cbn [fst snd app].
  split; [now exists log|].
  split; [exact Hlookups|].
  change (injections (AnswerCallbackQuery (callbackId callbackQuery) :: log))
    with (injections log).
  change (replies (AnswerCallbackQuery (callbackId callbackQuery) :: log))
    with (replies log).
  split.
  - intros Hnone.
    destruct Hcases as [(_ & -> & Hr & Hi)|[(session & Hsome & _)|(session & t & Hsome & _)]];
      [now repeat split|congruence|congruence].
  - intros session Hfound. split.
    + intros Hexpired.
      destruct Hcases as [(Hnone & _)|[(session' & Hsome & _ & -> & Hr & Hi)
                                      |(session' & t & Hsome & Hlive & _)]].
      * congruence.
      * assert (session' = session) as -> by congruence. now repeat split.
      * assert (session' = session) as -> by congruence. lia.
    + intros Hlive.
      destruct Hcases as [(Hnone & _)|[(session' & Hsome & Hexpired & _)
                                      |(session' & t & Hsome & _ & Ht & -> & Hi & Hr)]].
      * congruence.
      * assert (session' = session) as -> by congruence. lia.
      * assert (session' = session) as -> by congruence.
        subst t. now repeat split.
Qed.

Lemma quickcmd_roundtrip_witness :
  let env := Sample.webhook Sample.noPersistentSessions 1700000000000 in
  let callbackQuery :=
    {| callbackId := lit "cb-2"; callbackFrom := 42; callbackChat := 42;
       data := lit "quickcmd:ABC12345:git commit -m fix: typo" |} in
  let r := Webhook.handleWebhook env (UpdateCallbackQuery callbackQuery) Sample.sessionsDir in
  Webhook.part (split 58 (data callbackQuery)) 1 = lit "ABC12345" /\
  join (lit ":") (drop 2 (split 58 (data callbackQuery))) = lit "git commit -m fix: typo" /\
  lookups (calls r) = [lit "ABC12345"] /\
  injections (calls r) = [(lit "git commit -m fix: typo", lit "main")] /\
  replies (calls r) = [(42, Text.commandSent (lit "git commit -m fix: typo") (lit "main"))] /\
  finalDir r = Sample.sessionsDir.
Proof.
  cbv zeta.
  pose proof (quickcmd_roundtrip
                (Sample.webhook Sample.noPersistentSessions 1700000000000)
                {| callbackId := lit "cb-2"; callbackFrom := 42; callbackChat := 42;
                   data := lit "quickcmd:ABC12345:git commit -m fix: typo" |}
                (lit "ABC12345") (lit "git commit -m fix: typo") Sample.sessionsDir) as H.
  destruct H as (H1 & H2 & _ & _ & H3 & _ & H4).
  - repeat constructor; discriminate.
  - reflexivity.
  - destruct (H4 Sample.storedSession) as [_ Hlive]; [vm_compute; reflexivity|].
    destruct Hlive as (Hi & Hr & Hd); [vm_compute; discriminate|].
    split; [exact H1|]. split; [exact H2|]. split; [exact H3|].
    split; [exact Hi|]. split; [exact Hr|exact Hd].
Defined.

(* ================================================================== *)
(** ** Replies, the gate and the directory *)
(* ================================================================== *)

(** Where nothing throws, a message whose trimmed text is not empty is
    answered with exactly one message, to the chat it came from; a message
    without text or with white space only leaves no trace. *)
Lemma handleMessage_one_reply (env : Env) (message : Message) (d : Dir) :
  match trim <$> text message with
  | None | Some [] => Webhook.handleWebhook env (UpdateMessage message) d = (tt, d, [])
  | Some (_ :: _) =>
      exists reply,
        replies (calls (Webhook.handleWebhook env (UpdateMessage message) d))
        = [(chat message, reply)]
  end.
Proof.
  cbn [Webhook.handleWebhook].
  destruct (handleMessage_cases env message d)
    as [[Hsilent ->]|(raw & before & Htext & Htrim & Hbefore & Hcases)].
  - destruct Hsilent as [->|(raw & -> & Htrim)]; cbn [fmap option_fmap option_map];
      [reflexivity|now rewrite Htrim].
  - rewrite Htext. cbn [fmap option_fmap option_map].
    destruct (trim raw) as [|c rest] eqn:E; [easy|].
    assert (Hquiet : replies before = []).
    { destruct Hbefore as [->|[-> _]]; reflexivity. }
    destruct Hcases as [(reply & -> & _)|(token & command & d' & log & Hpc & -> & _)].
    + exists reply. unfold calls. cbn [snd]. now rewrite replies_app, Hquiet.
    + pose proof (processCommand_replies env (chat message) token command d) as (reply & Hr & _).
      rewrite Hpc in Hr. exists reply. unfold calls in *. cbn [snd] in *.
      now rewrite replies_app, Hquiet.
Qed.

(** X2.  For a message with a non-empty trimmed text, the rejection
    [You are not authorized to use this bot] is what the handler sends
    exactly when [_isAuthorized] turns the sender down; it is then all the
    handler does: nothing is looked up, injected or deleted. *)
Theorem rejection_iff_unauthorized (env : Env) (message : Message) (raw : jsstring)
    (d : Dir) :
  text message = Some raw ->
  trim raw <> [] ->
  (Webhook.isAuthorized env (from message) (chat message) = false ->
   Webhook.handleWebhook env (UpdateMessage message) d
   = (tt, d, [SendMessage (chat message) Text.unauthorized false])) /\
  (Webhook.isAuthorized env (from message) (chat message) = true ->
   forall chatId,
     (chatId, Text.unauthorized)
     ∉ replies (calls (Webhook.handleWebhook env (UpdateMessage message) d))).
Proof.
  intros Htext Htrim. split.
  - intros Hauth. unfold Webhook.handleWebhook, Webhook.handleMessage.
    rewrite Htext. cbn [fmap option_fmap option_map].
    destruct (trim raw); [easy|]. cbn [truthy negb]. now rewrite Hauth.
  - intros Hauth chatId. cbn [Webhook.handleWebhook].
    destruct (handleMessage_cases env message d)
      as [[Hsilent ->]|(raw' & before & Htext' & _ & Hbefore & Hcases)].
    + cbn. apply not_elem_of_nil.
    + assert (Hquiet : replies before = []).
      { destruct Hbefore as [->|[-> _]]; reflexivity. }
      destruct Hcases as [(reply & -> & Hreply)|(token & command & d' & log & Hpc & -> & _)];
        unfold calls; cbn [snd]; rewrite replies_app, Hquiet; cbn [app].
      * intros Hin. apply list_elem_of_singleton in Hin. injection Hin as _ Heq.
        destruct Hreply as [[_ Hno]|[_ [->|[->|[-> _]]]]]; [congruence|discriminate..].
      * pose proof (processCommand_replies env (chat message) token command d)
          as (reply & Hr & Hne).
        rewrite Hpc in Hr. unfold calls in Hr. cbn [snd] in Hr. rewrite Hr.
        intros Hin. apply list_elem_of_singleton in Hin. injection Hin as _ Heq.
        now subst.
Qed.

(** X3.  Handling an update never creates or rewrites a file of the
    sessions directory.  The directory is left as it was, unless the
    handler found a session past its expiry: then the file named after that
    session is what is deleted, and the one message sent is
    [Token has expired]. *)
Theorem webhook_deletes_only_expired (env : Env) (update : Update) (d : Dir) :
  finalDir (Webhook.handleWebhook env update d) = d \/
  exists session chatId token,
    lookupSession env token d = Some session /\
    Session.expiresAt session < dateNow env / 1000 /\
    finalDir (Webhook.handleWebhook env update d)
    = delete (sessionFile (Session.id session)) d /\
    replies (calls (Webhook.handleWebhook env update d)) = [(chatId, Text.tokenExpired)].
Proof.
  assert (Hpc : forall chatId token command d' log before,
            Webhook.processCommand env chatId token command d = (tt, d', log) ->
            replies before = [] ->
            d' = d \/
            exists session chatId token,
              lookupSession env token d = Some session /\
              Session.expiresAt session < dateNow env / 1000 /\
              d' = delete (sessionFile (Session.id session)) d /\
              replies (before ++ log) = [(chatId, Text.tokenExpired)]).
  { intros chatId token command d' log before Hrun Hquiet.
    destruct (processCommand_outcome env chatId token command d)
      as (d'' & log' & Hrun' & _ & Hcases).
    rewrite Hrun in Hrun'. injection Hrun' as <- <-.
    destruct Hcases as [(_ & -> & _)|[(session & Hfound & Hexp & -> & Hr & _)
                                     |(session & tmux & _ & _ & _ & -> & _)]];
      [now left| |now left].
    right. exists session, chatId, token. rewrite replies_app, Hquiet, Hr. repeat split; assumption. }
  destruct update as [message|callbackQuery|]; cbn [Webhook.handleWebhook];
    [| |now left].
  - destruct (handleMessage_cases env message d)
      as [[_ ->]|(raw & before & _ & _ & Hbefore & Hcases)]; [now left|].
    destruct Hcases as [(reply & -> & _)|(token & command & d' & log & Hrun & -> & _)];
      [now left|].
    unfold finalDir, calls. cbn [fst snd].
    apply (Hpc (chat message) token command d' log before Hrun).
    destruct Hbefore as [->|[-> _]]; reflexivity.
  - destruct (handleCallbackQuery_cases env callbackQuery d)
      as [(_ & d' & log & Hrun & ->)|(_ & rest & -> & _)]; [|now left].
    unfold finalDir, calls. cbn [fst snd].
    apply (Hpc (callbackChat callbackQuery) _ _ d' log
             [AnswerCallbackQuery (callbackId callbackQuery)] Hrun).
    reflexivity.
Qed.

(** X4.  A command for a session that is found and has not expired is
    handed to the injector once, for the tmux session of the record
    ([default] when the record names none); the operator is told of the
    success, or of the error the injector threw.  The record stays, so the
    next command for the same token is served the same way. *)
Theorem live_session_serves_every_command (env : Env) (d : Dir) (chatId : Z)
    (token first second : jsstring) (session : Session.t) :
  lookupSession env token d = Some session ->
  dateNow env / 1000 <= Session.expiresAt session ->
  let tmuxSession := if truthy (Session.tmuxSession session)
                     then Session.tmuxSession session else lit "default" in
  let r := Webhook.processCommand env chatId token first d in
  finalDir r = d /\
  injections (calls r) = [(first, tmuxSession)] /\
  replies (calls r)
  = [(chatId, match injectCommand env first tmuxSession with
              | None => Text.commandSent first tmuxSession
              | Some errorMessage => Text.commandFailed errorMessage
              end)] /\
  injections (calls (Webhook.processCommand env chatId token second (finalDir r)))
  = [(second, tmuxSession)].
Proof.
  intros Hfound Hlive tmuxSession r.
  assert (Hserve : forall command,
            exists log,
              Webhook.processCommand env chatId token command d = (tt, d, log) /\
              injections log = [(command, tmuxSession)] /\
              replies log
              = [(chatId, match injectCommand env command tmuxSession with
                          | None => Text.commandSent command tmuxSession
                          | Some errorMessage => Text.commandFailed errorMessage
                          end)]).
  { intros command.
    destruct (processCommand_outcome env chatId token command d)
      as (d' & log & Hrun & _ & Hcases).
    destruct Hcases as [(Hnone & _)|[(session' & Hfound' & Hexp & _)
                                    |(session' & tmux & Hfound' & _ & -> & -> & Hi & Hr)]].
    - congruence.
    - assert (session' = session) as -> by congruence. lia.
    - assert (session' = session) as -> by congruence.
      exists log. repeat split; assumption. }
  destruct (Hserve first) as (log1 & Hrun1 & Hi1 & Hr1).
  subst r. rewrite Hrun1. unfold finalDir, calls. cbn [fst snd].
  split; [reflexivity|]. split; [exact Hi1|]. split; [exact Hr1|].
  destruct (Hserve second) as (log2 & Hrun2 & Hi2 & _).
  now rewrite Hrun2.
Qed.

Lemma live_session_serves_every_command_witness :
  let env := Sample.webhook Sample.noPersistentSessions 1700000000000 in
  injections
    (calls (Webhook.processCommand env 42 (lit "ABC12345") (lit "run tests")
              (finalDir (Webhook.processCommand env 42 (lit "ABC12345") (lit "ls")
                           Sample.sessionsDir))))
  = [(lit "run tests", lit "main")].
Proof.
  cbv zeta.
  apply (live_session_serves_every_command
           (Sample.webhook Sample.noPersistentSessions 1700000000000)
           Sample.sessionsDir 42 (lit "ABC12345") (lit "ls") (lit "run tests")
           Sample.storedSession).
  - vm_compute. reflexivity.
  - vm_compute. discriminate.
Defined.

Lemma rejection_iff_unauthorized_witness :
  let env := Sample.webhook Sample.noPersistentSessions 1700000000000 in
  let message :=
    {| chat := 777; from := 666; text := Some (lit " /cmdABC12345 ls ");
       reply_to_message := None |} in
  Webhook.handleWebhook env (UpdateMessage message) Sample.sessionsDir
  = (tt, Sample.sessionsDir, [SendMessage 777 Text.unauthorized false]).
Proof.
  cbv zeta.
  apply (rejection_iff_unauthorized
           (Sample.webhook Sample.noPersistentSessions 1700000000000)
           {| chat := 777; from := 666; text := Some (lit " /cmdABC12345 ls ");
              reply_to_message := None |}
           (lit " /cmdABC12345 ls ") Sample.sessionsDir).
  - reflexivity.
  - vm_compute. discriminate.
  - vm_compute. reflexivity.
Defined.

(** X5.  Every callback query is acknowledged first.  A payload that does
    not start with [quickcmd:] never reaches the session store or the
    injector and leaves the directory alone: it is answered with one
    informational message when it starts with [personal:], [group:],
    [copy:], [format:] or [session:], and with nothing otherwise. *)
Theorem informational_callbacks_touch_nothing (env : Env)
    (callbackQuery : CallbackQuery) (d : Dir) :
  exists rest,
    calls (Webhook.handleWebhook env (UpdateCallbackQuery callbackQuery) d)
    = AnswerCallbackQuery (callbackId callbackQuery) :: rest /\
    (startsWith (data callbackQuery) (lit "quickcmd:") = false ->
     finalDir (Webhook.handleWebhook env (UpdateCallbackQuery callbackQuery) d) = d /\
     lookups rest = [] /\ injections rest = [] /\
     (replies rest = [] \/
      exists reply, replies rest = [(callbackChat callbackQuery, reply)]) /\
     (existsb (startsWith (data callbackQuery))
        [lit "personal:"; lit "group:"; lit "copy:"; lit "format:"; lit "session:"] = false ->
      rest = [])).
Proof.
  cbn [Webhook.handleWebhook].
  destruct (handleCallbackQuery_cases env callbackQuery d)
    as [(Hquick & d' & log & Hrun & ->)|(Hquick & rest & Hrun & Hl & Hi & Hr)].
  - exists log. split; [reflexivity|]. congruence.
  - exists rest. rewrite Hrun. split; [reflexivity|]. intros _.
    split; [reflexivity|]. split; [exact Hl|]. split; [exact Hi|]. split; [exact Hr|].
    intros Hnone. cbn [existsb] in Hnone.
    repeat (apply orb_false_iff in Hnone as [? Hnone]).
    revert Hrun. unfold Webhook.handleCallbackQuery.
    repeat match goal with H : startsWith _ _ = false |- _ => rewrite H; clear H end.
    unfold bind, emit, ret. cbn. intros [= <-]. reflexivity.
Qed.

(* ================================================================== *)
(** ** What the message path hands on *)
(* ================================================================== *)

(** X6.  Whatever pair the three patterns extract from a text: the token
    has 8 characters, each an uppercase letter or a digit; the command is
    not empty, holds no line terminator, and is the end of the text, after
    at least 9 code units (the token and white space). *)
Theorem parsed_pair_is_well_formed (messageText token command : jsstring) :
  parseCommand messageText = Some (token, command) ->
  length token = 8%nat /\
  Forall (fun c => isTokenChar c = true) token /\
  command <> [] /\
  Forall (fun c => isLineTerminator c = false) command /\
  exists before, messageText = before ++ command /\ (8 < length before)%nat.
Proof. apply parseCommand_Some. Qed.

Lemma parsed_pair_is_well_formed_witness :
  length (lit "AB12CD34") = 8%nat /\
  Forall (fun c => isTokenChar c = true) (lit "AB12CD34") /\
  lit "fix: the bug" <> [] /\
  Forall (fun c => isLineTerminator c = false) (lit "fix: the bug") /\
  exists before,
    lit "/CMD ab12cd34   fix: the bug" = before ++ lit "fix: the bug" /\
    (8 < length before)%nat.
Proof.
  apply (parsed_pair_is_well_formed (lit "/CMD ab12cd34   fix: the bug")
           (lit "AB12CD34") (lit "fix: the bug")).
  vm_compute. reflexivity.
Defined.

Section MessagePath.
Import Webhook.
Context (env : Env).

Lemma processCommand_injections (chatId : Z) (token command : jsstring) (d : Dir) :
  forall injected tmuxSession,
    (injected, tmuxSession) ∈ injections (calls (processCommand env chatId token command d)) ->
    injected = command.
Proof.
  intros injected tmuxSession.
  destruct (processCommand_outcome env chatId token command d)
    as (d' & log & -> & _ & Hcases).
  unfold calls. cbn [snd].
  destruct Hcases as [(_ & _ & _ & ->)|[(session & _ & _ & _ & _ & ->)
                                       |(session & tmux & _ & _ & _ & _ & -> & _)]].
  - intros H. now apply elem_of_nil in H.
  - intros H. now apply elem_of_nil in H.
  - intros H. apply list_elem_of_singleton in H. now injection H.
Qed.

End MessagePath.

(** X7.  A message that does not reply to a bot never makes the handler
    query the session store with anything but a token of 8 uppercase
    letters or digits, and never makes it inject an empty command or one
    with a line terminator inside. *)
Theorem message_path_hands_on_well_formed_pairs (env : Env) (message : Message) (d : Dir) :
  Webhook.repliesToBot message = false ->
  (forall token,
     token ∈ lookups (calls (Webhook.handleWebhook env (UpdateMessage message) d)) ->
     length token = 8%nat /\ Forall (fun c => isTokenChar c = true) token) /\
  (forall command tmuxSession,
     (command, tmuxSession)
     ∈ injections (calls (Webhook.handleWebhook env (UpdateMessage message) d)) ->
     command <> [] /\ Forall (fun c => isLineTerminator c = false) command).
Proof.
  intros Hreply. cbn [Webhook.handleWebhook].
  destruct (handleMessage_cases env message d)
    as [[_ ->]|(raw & before & _ & _ & Hbefore & Hcases)].
  { split; intros ? **;
      match goal with H : _ ∈ _ |- _ => cbn in H; now apply elem_of_nil in H end. }
  destruct Hbefore as [->|[_ Hyes]]; [|congruence].
  destruct Hcases as [(reply & -> & _)|(token & command & d' & log & Hpc & -> & _ & Hhow)].
  { split; intros ? **;
      match goal with H : _ ∈ _ |- _ => cbn in H; now apply elem_of_nil in H end. }
  destruct Hhow as [Hparse|[Hno _]]; [|easy].
  apply parseCommand_Some in Hparse as (Hlen & Htok & Hne & Hlines & _).
  unfold calls. cbn [snd app]. split.
  - intros token' Hin.
    pose proof (processCommand_lookups env (chat message) token command d) as Hl.
    rewrite Hpc in Hl. unfold calls in Hl. cbn [snd] in Hl. rewrite Hl in Hin.
    apply list_elem_of_singleton in Hin as ->. split; assumption.
  - intros command' tmuxSession Hin.
    pose proof (processCommand_injections env (chat message) token command d
                  command' tmuxSession) as Hi.
    rewrite Hpc in Hi. unfold calls in Hi. cbn [snd] in Hi.
    rewrite (Hi Hin). split; assumption.
Qed.

Lemma message_path_hands_on_well_formed_pairs_witness :
  let handled :=
    calls (Webhook.handleWebhook
             (Sample.webhook Sample.noPersistentSessions 1700000000000)
             (UpdateMessage (Sample.textMessage (lit "/cmdabc12345 ls") false))
             Sample.sessionsDir) in
  (forall token,
     token ∈ lookups handled ->
     length token = 8%nat /\ Forall (fun c => isTokenChar c = true) token) /\
  (forall command tmuxSession,
     (command, tmuxSession) ∈ injections handled ->
     command <> [] /\ Forall (fun c => isLineTerminator c = false) command).
Proof.
  cbv zeta.
  apply (message_path_hands_on_well_formed_pairs
           (Sample.webhook Sample.noPersistentSessions 1700000000000)
           (Sample.textMessage (lit "/cmdabc12345 ls") false) Sample.sessionsDir).
  reflexivity.
Defined.

Section UnparsedTexts.

Lemma dropWhile_stop p (l : jsstring) c :
  p c = false -> exists l', dropWhile p (l ++ [c]) = l' ++ [c].
Proof.
  intros Hc. induction l as [|e l IH]; cbn.
  - rewrite Hc. now exists [].
  - destruct (p e); [exact IH|]. now exists (e :: l).
Qed.

(** [trim] keeps the first code unit of a text that does not start with
    white space. *)
Lemma trim_head c (s : jsstring) :
  isWhiteSpace c = false -> exists s', trim (c :: s) = c :: s'.
Proof.
  intros Hc. unfold trim. rewrite dropWhile_head by exact Hc.
  rewrite reverse_cons.
  destruct (dropWhile_stop isWhiteSpace (reverse s) c Hc) as [l' ->].
  exists (reverse l'). now rewrite reverse_app.
Qed.

(** A text that starts with anything but a slash, a letter or a digit
    matches none of the three patterns. *)
Lemma parseCommand_first c (s : jsstring) :
  c <> 47 -> isAlnum c = false -> parseCommand (c :: s) = None.
Proof.
  intros Hslash Halnum.
  assert (Hlit : accepts true (CChar 47) c = false).
  { unfold accepts. cbn [member andb].
    assert (swapCase c = c) as ->.
    { unfold swapCase. unfold isAlnum in Halnum.
      apply orb_false_iff in Halnum as [Halnum _].
      apply orb_false_iff in Halnum as [-> ->]. reflexivity. }
    apply Z.eqb_neq in Hslash. now rewrite Hslash. }
  assert (Htok : accepts false tokenChar c = false).
  { unfold accepts, tokenChar. cbn [member andb]. rewrite orb_false_r.
    fold (isUpper c) (isDigit c). unfold isAlnum in Halnum.
    apply orb_false_iff in Halnum as [Halnum ->].
    apply orb_false_iff in Halnum as [-> _]. reflexivity. }
  unfold parseCommand, newFormat.
  rewrite (jsMatch_bol_fail true _ (c :: s)).
  2:{ change (lit "/cmd") with (47 :: lit "cmd"). now apply run_rlit_reject. }
  unfold oldFormat. rewrite (jsMatch_bol_fail true _ (c :: s)).
  2:{ change (lit "/cmd") with (47 :: lit "cmd"). now apply run_rlit_reject. }
  unfold directFormat. rewrite (jsMatch_bol_fail false _ (c :: s)); [reflexivity|].
  cbn [run]. now apply repeatSet_reject.
Qed.

End UnparsedTexts.

(** X8.  The command format that the handler itself advertises for group
    chats, [@botname /cmd TOKEN command], is not accepted by the handler:
    whatever the bot name, the token and the command are, an authorized
    message with that text (no reply to a bot) is answered with the usage
    hint, and nothing is looked up or injected. *)
Theorem group_format_is_not_accepted (env : Env) (message : Message) (d : Dir)
    (name token command : jsstring) :
  text message
  = Some (lit "@" ++ name ++ lit " /cmd " ++ token ++ lit " " ++ command) ->
  Webhook.isAuthorized env (from message) (chat message) = true ->
  Webhook.repliesToBot message = false ->
  Webhook.handleWebhook env (UpdateMessage message) d
  = (tt, d, [SendMessage (chat message) Text.invalidFormat false]).
Proof.
  intros Htext Hauth Hreply. cbn [Webhook.handleWebhook].
  set (raw := lit "@" ++ name ++ lit " /cmd " ++ token ++ lit " " ++ command) in *.
  destruct (trim_head 64 (name ++ lit " /cmd " ++ token ++ lit " " ++ command) eq_refl)
    as [rest Htrim].
  change (64 :: name ++ lit " /cmd " ++ token ++ lit " " ++ command) with raw in Htrim.
  rewrite (handleMessage_parses env message raw d Htext); rewrite ?Htrim;
    try assumption; try reflexivity.
  unfold Webhook.parseAndProcess.
  now rewrite parseCommand_first.
Qed.

Lemma group_format_is_not_accepted_witness :
  Webhook.handleWebhook (Sample.webhook Sample.noPersistentSessions 1700000000000)
    (UpdateMessage (Sample.textMessage (lit "@claude_remote_bot /cmd ABC12345 ls") false))
    Sample.sessionsDir
  = (tt, Sample.sessionsDir, [SendMessage 42 Text.invalidFormat false]).
Proof.
  apply (group_format_is_not_accepted
           (Sample.webhook Sample.noPersistentSessions 1700000000000)
           (Sample.textMessage (lit "@claude_remote_bot /cmd ABC12345 ls") false)
           Sample.sessionsDir (lit "claude_remote_bot") (lit "ABC12345") (lit "ls"));
    reflexivity.
Defined.

(* ================================================================== *)
(** ** White space around a text *)
(* ================================================================== *)

Section Trimming.

Lemma dropWhile_head_false p (s : jsstring) c (s' : jsstring) :
  dropWhile p s = c :: s' -> p c = false.
Proof.
  induction s as [|e s IH]; cbn; [discriminate|].
  destruct (p e) eqn:He; [exact IH|]. now intros [= <- _].
Qed.

Lemma dropWhile_suffix p (s : jsstring) : exists before, s = before ++ dropWhile p s.
Proof.
  induction s as [|c s [before IH]]; cbn; [now exists []|].
  destruct (p c); [|now exists []].
  exists (c :: before). cbn. now rewrite <- IH.
Qed.

Lemma dropWhile_idempotent p (s : jsstring) :
  dropWhile p (dropWhile p s) = dropWhile p s.
Proof.
  destruct (dropWhile p s) as [|c s'] eqn:E; [reflexivity|].
  apply dropWhile_head. exact (dropWhile_head_false p s c s' E).
Qed.

Lemma trim_idempotent (s : jsstring) : trim (trim s) = trim s.
Proof.
  unfold trim.
  set (u := dropWhile isWhiteSpace s).
  set (t := dropWhile isWhiteSpace (reverse u)).
  assert (Hfront : dropWhile isWhiteSpace (reverse t) = reverse t).
  { destruct (dropWhile_suffix isWhiteSpace (reverse u)) as [before Hsuffix].
    fold t in Hsuffix.
    apply (f_equal reverse) in Hsuffix. rewrite reverse_involutive, reverse_app in Hsuffix.
    destruct (reverse t) as [|c r] eqn:Ert; [reflexivity|].
    apply dropWhile_head.
    apply (dropWhile_head_false isWhiteSpace s c (r ++ reverse before)).
    exact Hsuffix. }
  rewrite Hfront, reverse_involutive. subst t.
  now rewrite dropWhile_idempotent.
Qed.

End Trimming.

(** X9.  White space around the text of a message counts for nothing: the
    message and the same message with its text trimmed are handled alike,
    with the same calls and the same directory in the end. *)
Theorem surrounding_white_space_is_ignored (env : Env) (message : Message) (d : Dir) :
  Webhook.handleWebhook env (UpdateMessage message) d
  = Webhook.handleWebhook env
      (UpdateMessage {| chat := chat message;
                        from := from message;
                        text := trim <$> text message;
                        reply_to_message := reply_to_message message |}) d.
Proof.
  cbn [Webhook.handleWebhook]. unfold Webhook.handleMessage, Webhook.repliesToBot.
  cbn [chat from text reply_to_message].
  destruct (text message) as [raw|]; cbn [fmap option_fmap option_map]; [|reflexivity].
  now rewrite trim_idempotent.
Qed.

(* ================================================================== *)
(** ** Who is authorized *)
(* ================================================================== *)

Section Ids.

Lemma lit_inj (s t : string) : lit s = lit t -> s = t.
Proof.
  unfold lit. intros H.
  rewrite <- (string_of_list_ascii_of_string s), <- (string_of_list_ascii_of_string t).
  f_equal. revert H.
  generalize (list_ascii_of_string s) (list_ascii_of_string t).
  induction l as [|a l IH]; intros [|b l']; cbn; try discriminate; [reflexivity|].
  intros [= Hab Hl]. f_equal; [|now apply IH].
  apply N2Z.inj in Hab.
  rewrite <- (ascii_N_embedding a), <- (ascii_N_embedding b). now rewrite Hab.
Qed.

(** Different integers print differently. *)
Lemma ofInt_inj (a b : Z) : ofInt a = ofInt b -> a = b.
Proof.
  unfold ofInt. intros H. apply lit_inj in H.
  apply DecimalZ.to_int_inj.
  pose proof (NilEmpty.isi (Z.to_int a)) as Ha.
  rewrite H, NilEmpty.isi in Ha. now injection Ha.
Qed.

Lemma ofInt_truthy (a : Z) : truthy (ofInt a) = true.
Proof.
  unfold ofInt. destruct a as [|p|p]; [reflexivity| |reflexivity].
  cbn [Z.to_int NilEmpty.string_of_int].
  pose proof (DecimalPos.Unsigned.to_uint_nonnil p) as Hnil.
  destruct (Pos.to_uint p); [easy|reflexivity..].
Qed.

Lemma includes_ofInt (a : Z) (allowed : list Z) :
  existsb (eqb (ofInt a)) (ofInt <$> allowed) = true <-> a ∈ allowed.
Proof.
  induction allowed as [|b allowed IH]; cbn.
  - split; [discriminate|]. intros H. now apply elem_of_nil in H.
  - rewrite orb_true_iff, IH, elem_of_cons, eqb_eq. split.
    + intros [H|H]; [left; now apply ofInt_inj|now right].
    + intros [->|H]; [now left|now right].
Qed.

End Ids.

(** X10.  For a user id and a chat id that are safe integers (the ids
    [String] prints digit by digit), with an allow-list of decimal ids and
    a configured decimal chat id, a sender is authorized exactly when the id
    of the chat or the id of the user is on the list, or when the list is
    empty and the chat is the configured one; a configured chat counts for
    nothing beside a list that is not empty. *)
Theorem authorization_is_exact (env : Env) (allowed : list Z) (configured userId chatId : Z) :
  isSafeInteger userId -> isSafeInteger chatId ->
  whitelist (config env) = ofInt <$> allowed ->
  configChatId (config env) = Some (ofInt configured) ->
  Webhook.isAuthorized env userId chatId = true <->
  chatId ∈ allowed \/ userId ∈ allowed \/ (allowed = [] /\ chatId = configured).
Proof.
  intros _ _ Hlist Hchat. unfold Webhook.isAuthorized. rewrite Hlist, Hchat.
  unfold orElse. rewrite ofInt_truthy.
  destruct (existsb (eqb (ofInt chatId)) (ofInt <$> allowed)) eqn:Hc.
  { apply includes_ofInt in Hc. cbn [orb]. tauto. }
  destruct (existsb (eqb (ofInt userId)) (ofInt <$> allowed)) eqn:Hu.
  { apply includes_ofInt in Hu. cbn [orb]. tauto. }
  cbn [orb].
  assert (Hnc : chatId ∉ allowed).
  { intros H. apply includes_ofInt in H. congruence. }
  assert (Hnu : userId ∉ allowed).
  { intros H. apply includes_ofInt in H. congruence. }
  destruct allowed as [|b allowed]; cbn [fmap list_fmap].
  - rewrite eqb_eq. split.
    + intros H. right. right. split; [reflexivity|now apply ofInt_inj].
    + intros [H|[H|[_ ->]]]; [easy|easy|reflexivity].
  - split; [discriminate|]. intros [H|[H|[H _]]]; easy.
Qed.

Lemma authorization_is_exact_witness :
  Webhook.isAuthorized (Sample.webhook Sample.noPersistentSessions 1700000000000) 666 42
  = true.
Proof.
  apply (authorization_is_exact
           (Sample.webhook Sample.noPersistentSessions 1700000000000) [42] 42 666 42).
  - split; reflexivity.
  - split; reflexivity.
  - reflexivity.
  - reflexivity.
  - left. apply elem_of_cons. now left.
Defined.

(* ================================================================== *)
(** ** The session files *)
(* ================================================================== *)

Section SessionFiles.
Import Webhook.

(** The files [_findSessionByToken] looks into: those named [*.json],
    [chat-sessions.json] apart. *)
Lemma scanFiles_found token files session :
  scanFiles token files = Some session ->
  exists file,
    (file, Some session) ∈ files /\ Session.token session = token /\
    endsWith file (lit ".json") = true /\ file <> lit "chat-sessions.json".
Proof.
  induction files as [|[file content] files IH]; cbn [scanFiles]; [discriminate|].
  intros Hscan.
  assert (Hrest : scanFiles token files = Some session ->
                  exists file',
                    (file', Some session) ∈ (file, content) :: files /\
                    Session.token session = token /\
                    endsWith file' (lit ".json") = true /\
                    file' <> lit "chat-sessions.json").
  { intros H. destruct (IH H) as (file' & Hin & Hrest).
    exists file'. split; [apply elem_of_cons; now right|exact Hrest]. }
  destruct (endsWith file (lit ".json")) eqn:Hjson; cbn [negb orb] in Hscan;
    [|now apply Hrest].
  destruct (eqb file (lit "chat-sessions.json")) eqn:Hchat; [now apply Hrest|].
  destruct content as [other|]; [|now apply Hrest].
  destruct (eqb (Session.token other) token) eqn:Htok; [|now apply Hrest].
  injection Hscan as ->. exists file. split; [apply elem_of_cons; now left|].
  split; [now apply eqb_eq|]. split; [exact Hjson|].
  intros ->. now rewrite eqb_refl in Hchat.
Qed.

Lemma scanFiles_missed token files :
  scanFiles token files = None ->
  forall file session,
    (file, Some session) ∈ files ->
    endsWith file (lit ".json") = true -> file <> lit "chat-sessions.json" ->
    Session.token session <> token.
Proof.
  induction files as [|[file content] files IH]; cbn [scanFiles];
    intros Hscan file' session Hin Hjson Hchat.
  { now apply elem_of_nil in Hin. }
  apply elem_of_cons in Hin as [Heq|Hin].
  - injection Heq as <- <-.
    rewrite Hjson, (eqb_neq _ _ Hchat) in Hscan. cbn [negb orb] in Hscan.
    destruct (eqb (Session.token session) token) eqn:Htok; [discriminate|].
    intros Heq. rewrite Heq, eqb_refl in Htok. discriminate.
  - assert (Hrest : scanFiles token files = None).
    { destruct (negb (endsWith file (lit ".json")) || eqb file (lit "chat-sessions.json"));
        [exact Hscan|].
      destruct content as [other|]; [|exact Hscan].
      destruct (eqb (Session.token other) token); [discriminate|exact Hscan]. }
    exact (IH Hrest file' session Hin Hjson Hchat).
Qed.

Lemma endsWith_app (s p : jsstring) : endsWith (s ++ p) p = true.
Proof. unfold endsWith. rewrite reverse_app. apply startsWith_app. Qed.

Lemma sessionFile_inj (a b : jsstring) : sessionFile a = sessionFile b -> a = b.
Proof. unfold sessionFile. apply app_inv_tail. Qed.

Lemma sessionFile_json (sessionId : jsstring) :
  endsWith (sessionFile sessionId) (lit ".json") = true.
Proof. apply endsWith_app. Qed.

Lemma sessionFile_chat_sessions (sessionId : jsstring) :
  sessionId <> lit "chat-sessions" -> sessionFile sessionId <> lit "chat-sessions.json".
Proof.
  intros Hne Heq. apply Hne. apply (sessionFile_inj sessionId (lit "chat-sessions")).
  exact Heq.
Qed.

End SessionFiles.

(** X11.  With no persistent session for a token, the lookup finds nothing
    exactly when no file named [*.json], [chat-sessions.json] apart, holds
    a session with that very token; and what it finds is a session held by
    such a file, with that token.  Files of other names are never
    looked into. *)
Theorem file_lookup_is_exact (env : Env) (token : jsstring) (d : Dir) :
  getSessionByToken (persistentSessions env) d token = None ->
  (forall session,
     lookupSession env token d = Some session ->
     exists file,
       d !! file = Some (Some session) /\ Session.token session = token /\
       endsWith file (lit ".json") = true /\ file <> lit "chat-sessions.json") /\
  (lookupSession env token d = None <->
   forall file session,
     d !! file = Some (Some session) ->
     endsWith file (lit ".json") = true -> file <> lit "chat-sessions.json" ->
     Session.token session <> token).
Proof.
  intros Hnone. rewrite (lookupSession_files env token d Hnone). split.
  - intros session Hscan.
    apply scanFiles_found in Hscan as (file & Hin & Hrest).
    exists file. split; [now apply elem_of_map_to_list in Hin|exact Hrest].
  - split.
    + intros Hscan file session Hfile. apply (scanFiles_missed token _ Hscan).
      now apply elem_of_map_to_list.
    + intros Hall. destruct (Webhook.scanFiles token (map_to_list d)) as [session|] eqn:Hscan;
        [|reflexivity].
      apply scanFiles_found in Hscan as (file & Hin & Htok & Hjson & Hchat).
      apply elem_of_map_to_list in Hin. now destruct (Hall file session Hin Hjson Hchat).
Qed.

Lemma file_lookup_is_exact_witness :
  lookupSession (Sample.webhook Sample.noPersistentSessions 1700000000000)
    (lit "ZZZ99999") Sample.sessionsDir = None.
Proof.
  apply (file_lookup_is_exact (Sample.webhook Sample.noPersistentSessions 1700000000000)
           (lit "ZZZ99999") Sample.sessionsDir).
  - reflexivity.
  - intros file session Hfile _ _. unfold Sample.sessionsDir in Hfile.
    apply lookup_singleton_Some in Hfile as [_ [= <-]]. vm_compute. discriminate.
Defined.

(** X12.  Sessions of different ids live in different files: creating one
    leaves the other as it was written, and removing one leaves the other
    in place. *)
Theorem sessions_of_different_ids_coexist (t1 t2 t3 t4 : Z) (a b tokenA tokenB : jsstring)
    (notificationA notificationB : Notification) (d : Dir) :
  a <> b ->
  let d2 := Channel.createSession t3 t4 b notificationB tokenB
              (Channel.createSession t1 t2 a notificationA tokenA d) in
  d2 !! sessionFile a = Some (Some (Channel.newSession t1 t2 a notificationA tokenA)) /\
  d2 !! sessionFile b = Some (Some (Channel.newSession t3 t4 b notificationB tokenB)) /\
  Channel.removeSession a d2 !! sessionFile a = None /\
  Channel.removeSession a d2 !! sessionFile b
  = Some (Some (Channel.newSession t3 t4 b notificationB tokenB)).
Proof.
  intros Hne d2.
  assert (Hfiles : sessionFile b <> sessionFile a).
  { intros H. apply Hne. symmetry. now apply sessionFile_inj. }
  assert (Ha : d2 !! sessionFile a
               = Some (Some (Channel.newSession t1 t2 a notificationA tokenA))).
  { subst d2. unfold Channel.createSession.
    rewrite lookup_insert_ne by exact Hfiles. apply lookup_insert_eq. }
  assert (Hb : d2 !! sessionFile b
               = Some (Some (Channel.newSession t3 t4 b notificationB tokenB))).
  { subst d2. unfold Channel.createSession. apply lookup_insert_eq. }
  split; [exact Ha|]. split; [exact Hb|].
  unfold Channel.removeSession. rewrite Ha.
  split; [apply lookup_delete_eq|].
  rewrite lookup_delete_ne by (intros H; now apply Hfiles). exact Hb.
Qed.

Lemma sessions_of_different_ids_coexist_witness :
  Channel.removeSession (lit "id-a")
    (Channel.createSession 3000 4000 (lit "id-b") Sample.notification (lit "BBBBBBBB")
       (Channel.createSession 1000 2000 (lit "id-a") Sample.notification (lit "AAAAAAAA") ∅))
    !! sessionFile (lit "id-b")
  = Some (Some (Channel.newSession 3000 4000 (lit "id-b") Sample.notification (lit "BBBBBBBB"))).
Proof.
  apply (sessions_of_different_ids_coexist 1000 2000 3000 4000 (lit "id-a") (lit "id-b")
           (lit "AAAAAAAA") (lit "BBBBBBBB") Sample.notification Sample.notification ∅).
  vm_compute. discriminate.
Defined.

(** X13.  The two copies of [_removeSession], the channel's and the
    handler's, do the same to the directory: the file of the session is
    gone afterwards and no other file is touched.  Removing a session that
    has no file changes nothing and unlinks nothing, so removing twice is
    removing once. *)
Theorem removeSession_is_idempotent (sessionId : jsstring) (d : Dir) :
  Channel.removeSession sessionId d = delete (sessionFile sessionId) d /\
  finalDir (Webhook.removeSession sessionId d) = Channel.removeSession sessionId d /\
  Channel.removeSession sessionId (Channel.removeSession sessionId d)
  = Channel.removeSession sessionId d /\
  Webhook.removeSession sessionId (finalDir (Webhook.removeSession sessionId d))
  = (tt, finalDir (Webhook.removeSession sessionId d), []).
Proof.
  assert (Hchannel : forall d' : Dir,
            Channel.removeSession sessionId d' = delete (sessionFile sessionId) d').
  { intros d'. unfold Channel.removeSession.
    destruct (d' !! sessionFile sessionId) eqn:Hfile; [reflexivity|].
    now rewrite delete_id. }
  assert (Hwebhook : finalDir (Webhook.removeSession sessionId d)
                     = delete (sessionFile sessionId) d).
  { unfold Webhook.removeSession, finalDir.
    destruct (d !! sessionFile sessionId) eqn:Hfile; cbn [fst snd]; [reflexivity|].
    now rewrite delete_id. }
  split; [apply Hchannel|]. split; [now rewrite Hwebhook, Hchannel|].
  split; [rewrite !Hchannel; apply delete_delete_eq|].
  rewrite Hwebhook. unfold Webhook.removeSession. now rewrite lookup_delete_eq.
Qed.

(* ================================================================== *)
(** ** The name of the bot *)
(* ================================================================== *)

(** X14.  [_getBotUsername] never returns the empty string.  A cached
    name is returned without a request.  With nothing cached, Telegram is
    asked: a name it gives is returned and cached, so that the next call
    returns it without a request, whatever that request would come to;
    when the request throws, is refused or gives no name, the fallback (the
    configured name, or [claude_remote_bot]) is returned and the cache stays
    as it was, so that the next call asks again. *)
Theorem bot_username_is_cached (configBotUsername : option jsstring)
    (first later : GetMe) (cache : option jsstring) :
  let fallback :=
    match configBotUsername with
    | Some name => if truthy name then name else lit "claude_remote_bot"
    | None => lit "claude_remote_bot"
    end in
  let r := getBotUsername configBotUsername first cache in
  truthy r.1.1 = true /\
  (forall name, cache = Some name -> truthy name = true -> r = (name, cache, false)) /\
  (Channel.truthyOpt cache = false ->
   r.2 = true /\
   (forall username,
      first = GetMeResponse true username -> truthy username = true ->
      r = (username, Some username, true) /\
      getBotUsername configBotUsername later r.1.2 = (username, Some username, false)) /\
   ((forall username, first = GetMeResponse true username -> truthy username = false) ->
    r = (fallback, cache, true) /\
    (getBotUsername configBotUsername later r.1.2).2 = true)).
Proof.
  cbv zeta.
  assert (Hfallback :
            match orElse configBotUsername (Some (lit "claude_remote_bot")) with
            | Some name => name
            | None => lit "claude_remote_bot"
            end
            = match configBotUsername with
              | Some name => if truthy name then name else lit "claude_remote_bot"
              | None => lit "claude_remote_bot"
              end).
  { unfold orElse. destruct configBotUsername as [name|]; [|reflexivity].
    now destruct (truthy name). }
  assert (Htruthy :
            truthy match configBotUsername with
                   | Some name => if truthy name then name else lit "claude_remote_bot"
                   | None => lit "claude_remote_bot"
                   end = true).
  { destruct configBotUsername as [name|]; [|reflexivity].
    destruct (truthy name) eqn:Hn; [exact Hn|reflexivity]. }
  assert (Hasks : forall request stale,
            Channel.truthyOpt stale = false ->
            (getBotUsername configBotUsername request stale).2 = true).
  { intros request stale Hstale. unfold getBotUsername.
    destruct stale as [name|]; cbn [Channel.truthyOpt] in Hstale; rewrite ?Hstale;
      destruct request as [|[] username]; try reflexivity; now destruct (truthy username). }
  pose proof (Hasks later) as Hlater. clear Hasks.
  set (next := getBotUsername configBotUsername later) in *.
  unfold getBotUsername. rewrite Hfallback.
  set (fallback := match configBotUsername with
                   | Some name => if truthy name then name else lit "claude_remote_bot"
                   | None => lit "claude_remote_bot"
                   end) in *.
  assert (Hfetch : Channel.truthyOpt cache = false ->
            let fetch := match first with
                         | GetMeThrows => (fallback, cache, true)
                         | GetMeResponse true username =>
                             if truthy username then (username, Some username, true)
                             else (fallback, cache, true)
                         | GetMeResponse false _ => (fallback, cache, true)
                         end in
            truthy fetch.1.1 = true /\
            fetch.2 = true /\
            (forall username,
               first = GetMeResponse true username -> truthy username = true ->
               fetch = (username, Some username, true) /\
               next fetch.1.2
               = (username, Some username, false)) /\
            ((forall username, first = GetMeResponse true username -> truthy username = false) ->
             fetch = (fallback, cache, true) /\
             (next fetch.1.2).2 = true)).
  { intros Hstale. cbv zeta. destruct first as [|[] username].
    - split; [exact Htruthy|]. split; [reflexivity|]. split; [discriminate|].
      intros _. split; [reflexivity|]. now apply Hlater.
    - destruct (truthy username) eqn:Hname.
      + split; [exact Hname|]. split; [reflexivity|]. split.
        * intros username' [= <-] _. split; [reflexivity|].
          cbn [fst snd]. subst next. unfold getBotUsername. now rewrite Hname.
        * intros Hnone. specialize (Hnone username eq_refl). congruence.
      + split; [exact Htruthy|]. split; [reflexivity|]. split.
        * intros username' [= <-] Hyes. congruence.
        * intros _. split; [reflexivity|]. now apply Hlater.
    - split; [exact Htruthy|]. split; [reflexivity|]. split; [discriminate|].
      intros _. split; [reflexivity|]. now apply Hlater. }
  destruct cache as [cached|]; cbv beta iota; [destruct (truthy cached) eqn:Hcached|].
  - split; [exact Hcached|]. split; [now intros name [= <-] _|].
    cbn [Channel.truthyOpt]. congruence.
  - specialize (Hfetch Hcached). cbv zeta in Hfetch.
    destruct Hfetch as (H1 & H2 & H3 & H4).
    split; [exact H1|]. split; [intros name [= <-] Hyes; congruence|].
    intros _. split; [exact H2|]. split; [exact H3|exact H4].
  - specialize (Hfetch eq_refl). cbv zeta in Hfetch.
    destruct Hfetch as (H1 & H2 & H3 & H4).
    split; [exact H1|]. split; [discriminate|].
    intros _. split; [exact H2|]. split; [exact H3|exact H4].
Qed.

(* ================================================================== *)
(** ** What a notification leaves behind *)
(* ================================================================== *)

Section Sending.
Import Channel.

Lemma orElse_truthy (a b : option jsstring) :
  truthyOpt a || truthyOpt b = true -> truthyOpt (orElse a b) = true.
Proof.
  unfold orElse, truthyOpt. destruct a as [s|]; [|now cbn].
  destruct (truthy s) eqn:Hs; [now rewrite Hs|now cbn].
Qed.

Lemma validateConfig_chat (config : Config) :
  validateConfig config = true ->
  truthyOpt (orElse (configGroupId config) (configChatId config)) = true.
Proof.
  unfold validateConfig. intros Hvalid. apply orElse_truthy.
  destruct (truthyOpt (botToken config)); [|discriminate].
  destruct (truthyOpt (configChatId config)), (truthyOpt (configGroupId config));
    cbn in *; congruence.
Qed.

Lemma newSession_tmuxSession (t1 t2 : Z) (sessionId token : jsstring)
    (notification : Notification) :
  truthy (Session.tmuxSession (newSession t1 t2 sessionId notification token)) = true.
Proof.
  cbn. destruct (metadata notification) as [meta|]; [|reflexivity].
  destruct (truthy (metaTmuxSession meta)) eqn:Hm; [exact Hm|reflexivity].
Qed.

(** What [_sendImpl] has done when it returns [true]. *)
Lemma sendImpl_sent (env : ChannelEnv) (notification : Notification) (d d' : Dir)
    (request : Request) :
  sendImpl env notification d = (Returns true request, d') ->
  d' = createSession (dateNowCreated env) (dateNowExpires env) (uuidv4 env)
         (withConversation env notification) (generateToken (random env)) d /\
  callback_data request
  = [lit "personal:" ++ generateToken (random env); lit "group:" ++ generateToken (random env)].
Proof.
  unfold sendImpl.
  destruct (validateConfig (channelConfig env)); cbn [negb]; [|discriminate].
  match goal with |- context [postResolves env ?r] => destruct (postResolves env r) end;
    [|discriminate].
  intros [= <- <-]. split; reflexivity.
Qed.

Lemma generateToken_chars (random : nat -> Double.t) :
  (forall i, (i < 8)%nat -> Double.inUnitInterval (random i)) ->
  length (generateToken random) = 8%nat /\
  Forall (fun c => isTokenChar c = true) (generateToken random).
Proof.
  intros Hdraws. unfold generateToken.
  apply (generateTokenFrom_spec random 8 0 []); [|constructor].
  intros j Hj. apply Hdraws. lia.
Qed.

Lemma isTokenChar_colon (token : jsstring) :
  Forall (fun c => isTokenChar c = true) token -> Forall (fun c => c <> 58) token.
Proof.
  intros Hall. eapply Forall_impl; [exact Hall|].
  intros c Hc ->. vm_compute in Hc. discriminate.
Qed.

End Sending.

(** X15.  [_sendImpl] writes to one file only, the one named after the
    session id it drew: every other file of the directory is as it was,
    whatever the outcome, and nothing at all changes when the
    configuration is refused.  A request that was made goes to a chat id
    that is not empty and carries the two buttons of the token; after a
    request that succeeded the file holds the session of that id and
    token, with a tmux target that is not empty and an expiry 86400
    seconds after the second of [Date.now()]. *)
Theorem sendImpl_writes_one_file (env : ChannelEnv) (notification : Notification) (d : Dir) :
  let outcome := (Channel.sendImpl env notification d).1 in
  let d' := (Channel.sendImpl env notification d).2 in
  let token := Channel.generateToken (random env) in
  (forall file, file <> sessionFile (uuidv4 env) -> d' !! file = d !! file) /\
  (outcome = Throws <-> Channel.validateConfig (channelConfig env) = false) /\
  (outcome = Throws -> d' = d) /\
  (forall sent request,
     outcome = Returns sent request ->
     Channel.truthyOpt (chat_id request) = true /\
     callback_data request = [lit "personal:" ++ token; lit "group:" ++ token] /\
     (sent = true ->
      exists session,
        d' !! sessionFile (uuidv4 env) = Some (Some session) /\
        Session.id session = uuidv4 env /\
        Session.token session = token /\
        truthy (Session.tmuxSession session) = true /\
        Session.expiresAt session = dateNowExpires env / 1000 + 86400)).
Proof.
  unfold Channel.sendImpl.
  destruct (Channel.validateConfig (channelConfig env)) eqn:Hvalid; cbn [negb].
  - match goal with |- context [postResolves env ?r] =>
      set (request := r); destruct (postResolves env request) eqn:Hpost end;
      cbn [fst snd]; cbv zeta.
    + split; [intros file Hfile; unfold Channel.createSession;
              now rewrite lookup_insert_ne by congruence|].
      split; [split; discriminate|]. split; [discriminate|].
      intros sent request' [= <- <-].
      split; [now apply validateConfig_chat|]. split; [reflexivity|].
      intros _. eexists. split; [apply lookup_insert_eq|].
      split; [reflexivity|]. split; [reflexivity|].
      split; [apply newSession_tmuxSession|].
      cbn [Session.expiresAt Channel.newSession].
      change (24 * 60 * 60 * 1000) with (86400 * 1000). apply Z.div_add. lia.
    + split.
      { intros file Hfile. unfold Channel.removeSession, Channel.createSession.
        rewrite lookup_insert_eq, lookup_delete_ne by congruence.
        now rewrite lookup_insert_ne by congruence. }
      split; [split; discriminate|]. split; [discriminate|].
      intros sent request' [= <- <-].
      split; [now apply validateConfig_chat|]. split; [reflexivity|]. discriminate.
  - cbn [fst snd]. split; [reflexivity|]. split; [split; reflexivity|].
    split; [reflexivity|]. discriminate.
Qed.

Section Answering.
Import Webhook.
Context (env : Env).

(** The lookup of a token that one file only holds. *)
Lemma lookupSession_unique (token file : jsstring) (session : Session.t) (d : Dir) :
  getSessionByToken (persistentSessions env) d token = None ->
  d !! file = Some (Some session) ->
  Session.token session = token ->
  endsWith file (lit ".json") = true -> file <> lit "chat-sessions.json" ->
  (forall (other : jsstring) (session' : Session.t),
     d !! other = Some (Some session') -> other <> file ->
     endsWith other (lit ".json") = true -> Session.token session' <> token) ->
  lookupSession env token d = Some session.
Proof.
  intros Hnone Hfile Htoken Hjson Hchat Hothers.
  rewrite (lookupSession_files env token d Hnone).
  destruct (scanFiles token (map_to_list d)) as [found|] eqn:Hscan.
  - apply scanFiles_found in Hscan as (file' & Hin & Htok' & Hjson' & Hchat').
    apply elem_of_map_to_list in Hin.
    destruct (decide (file' = file)) as [->|Hne]; [congruence|].
    now destruct (Hothers file' found Hin Hne Hjson').
  - exfalso. apply (scanFiles_missed token _ Hscan file session); try assumption.
    now apply elem_of_map_to_list.
Qed.

Lemma splitAux_plain sep (s : jsstring) :
  forall cur, Forall (fun c => c <> sep) s -> splitAux sep cur s = [reverse cur ++ s].
Proof.
  induction s as [|c s IH]; intros cur Hall; cbn [splitAux].
  - now rewrite app_nil_r.
  - inversion Hall as [|? ? Hc Hs]; subst. apply Z.eqb_neq in Hc. rewrite Hc, IH by exact Hs.
    now rewrite reverse_cons, <- app_assoc.
Qed.

(** [data.split(':')[1]] of a payload made of a prefix without colon, a
    colon and a token without colon. *)
Lemma part_of_payload (prefix token : jsstring) :
  Forall (fun c => c <> 58) prefix -> Forall (fun c => c <> 58) token ->
  part (split 58 (prefix ++ 58 :: token)) 1 = token.
Proof.
  intros Hprefix Htoken. unfold split.
  rewrite splitAux_first by exact Hprefix.
  now rewrite splitAux_plain by exact Htoken.
Qed.

End Answering.

(** X16.  From the notification to the command.  After [_sendImpl] has
    returned [true], a message that writes the token it drew and a plain
    command in one of the three forms, sent by an authorized user not later
    than 86400 seconds after the notification, is injected as that very
    command into the tmux target of the session, is confirmed with one
    reply, and leaves the directory as it is; provided the session id is
    not [chat-sessions], the persistent sessions know nothing of the token
    and no other session file holds it. *)
Theorem notified_token_is_served (cenv : ChannelEnv) (env : Env)
    (notification : Notification) (request : Request) (d d' : Dir)
    (message : Message) (command text' : jsstring) :
  let token := Channel.generateToken (random cenv) in
  (forall i, (i < 8)%nat -> Double.inUnitInterval (random cenv i)) ->
  Channel.sendImpl cenv notification d = (Returns true request, d') ->
  uuidv4 cenv <> lit "chat-sessions" ->
  getSessionByToken (persistentSessions env) d' token = None ->
  (forall (file : jsstring) (session : Session.t),
     d !! file = Some (Some session) -> file <> sessionFile (uuidv4 cenv) ->
     endsWith file (lit ".json") = true -> Session.token session <> token) ->
  dateNow env / 1000 <= dateNowExpires cenv / 1000 + 86400 ->
  plainCommand command ->
  text' = attachedForm token command \/ text' = spacedForm token command \/
    text' = bareForm token command ->
  text message = Some text' ->
  Webhook.isAuthorized env (from message) (chat message) = true ->
  Webhook.repliesToBot message = false ->
  exists (session : Session.t) (log : list Event),
    d' !! sessionFile (uuidv4 cenv) = Some (Some session) /\
    Webhook.handleMessage env message d' = (tt, d', log) /\
    injections log = [(command, Session.tmuxSession session)] /\
    replies log
    = [(chat message,
        match injectCommand env command (Session.tmuxSession session) with
        | None => Text.commandSent command (Session.tmuxSession session)
        | Some errorMessage => Text.commandFailed errorMessage
        end)].
Proof.
  intros token Hdraws Hsend Hid Hnone Hothers Hlive Hcommand Hform Htext Hauth Hreply.
  destruct (generateToken_chars (random cenv) Hdraws) as [Hlen Hchars]. fold token in Hlen, Hchars.
  destruct (sendImpl_sent cenv notification d d' request Hsend) as [Hd' _]. fold token in Hd'.
  set (session := Channel.newSession (dateNowCreated cenv) (dateNowExpires cenv) (uuidv4 cenv)
                    (Channel.withConversation cenv notification) token) in *.
  assert (Hfile : d' !! sessionFile (uuidv4 cenv) = Some (Some session)).
  { rewrite Hd'. apply lookup_insert_eq. }
  assert (Hfound : lookupSession env token d' = Some session).
  { apply (lookupSession_unique env token (sessionFile (uuidv4 cenv)) session d' Hnone Hfile).
    - reflexivity.
    - apply sessionFile_json.
    - now apply sessionFile_chat_sessions.
    - intros other session' Hother Hne. apply (Hothers other session'); [|exact Hne].
      rewrite Hd' in Hother. unfold Channel.createSession in Hother.
      now rewrite lookup_insert_ne in Hother by congruence. }
  assert (Halnum : alnumToken token).
  { split; [exact Hlen|]. eapply Forall_impl; [exact Hchars|]. apply isTokenChar_isAlnum. }
  rewrite (handleMessage_form env message token command text' d' Halnum Hcommand
             ltac:(tauto) Htext Hauth Hreply).
  rewrite (toUpperCase_token token Hchars).
  destruct (processCommand_outcome env (chat message) token command d')
    as (d'' & log & Hrun & _ & [Hcase|[Hcase|Hcase]]).
  - destruct Hcase as (Hmiss & _). congruence.
  - destruct Hcase as (session' & Hfound' & Hexpired & _).
    assert (session' = session) as -> by congruence.
    exfalso. revert Hexpired. subst session.
    cbn [Session.expiresAt Channel.newSession].
    change (24 * 60 * 60 * 1000) with (86400 * 1000). rewrite Z.div_add by lia. lia.
  - destruct Hcase as (session' & tmuxSession & Hfound' & _ & Htmux & -> & Hinj & Hrep).
    assert (session' = session) as -> by congruence.
    assert (Htarget : tmuxSession = Session.tmuxSession session).
    { rewrite Htmux. subst session. now rewrite newSession_tmuxSession. }
    rewrite Htarget in Hinj, Hrep.
    exists session, log. repeat split; assumption.
Qed.

Lemma notified_token_is_served_witness :
  let cenv := Sample.succeedingSend in
  let env := Sample.webhook Sample.noPersistentSessions 1700050000000 in
  let token := Channel.generateToken Sample.draws in
  let d' := (Channel.sendImpl cenv Sample.notification Sample.sessionsDir).2 in
  exists (session : Session.t) (log : list Event),
    d' !! sessionFile (uuidv4 cenv) = Some (Some session) /\
    Webhook.handleMessage env (Sample.textMessage (spacedForm token (lit "ls")) false) d'
    = (tt, d', log) /\
    injections log = [(lit "ls", Session.tmuxSession session)] /\
    replies log
    = [(42, match injectCommand env (lit "ls") (Session.tmuxSession session) with
            | None => Text.commandSent (lit "ls") (Session.tmuxSession session)
            | Some errorMessage => Text.commandFailed errorMessage
            end)].
Proof.
  cbv zeta.
  apply (notified_token_is_served Sample.succeedingSend
           (Sample.webhook Sample.noPersistentSessions 1700050000000)
           Sample.notification
           (match (Channel.sendImpl Sample.succeedingSend Sample.notification
                     Sample.sessionsDir).1 with
            | Returns _ request => request
            | Throws => {| chat_id := None; requestText := []; callback_data := [] |}
            end)
           Sample.sessionsDir
           (Channel.sendImpl Sample.succeedingSend Sample.notification Sample.sessionsDir).2
           (Sample.textMessage (spacedForm (Channel.generateToken Sample.draws) (lit "ls")) false)
           (lit "ls") (spacedForm (Channel.generateToken Sample.draws) (lit "ls"))).
  - intros i Hi. unfold Double.inUnitInterval. cbn [random Sample.succeedingSend].
    unfold Sample.draws. cbn [Double.mant Double.expo].
    pose proof (Z.mod_pos_bound (Z.of_nat i * 1111111111111111 + 123456789012345) (2 ^ 53)
                  ltac:(lia)).
    lia.
  - reflexivity.
  - vm_compute. discriminate.
  - reflexivity.
  - intros file session Hfile _ _. unfold Sample.sessionsDir in Hfile.
    apply lookup_singleton_Some in Hfile as [_ [= <-]]. vm_compute. discriminate.
  - vm_compute. discriminate.
  - split; [discriminate|]. split; [reflexivity|]. repeat constructor.
  - right. left. reflexivity.
  - reflexivity.
  - reflexivity.
  - reflexivity.
Defined.

(** X17.  The two buttons under a notification come back to the handler as
    callback data; each is answered once, with the personal or the group
    format written for the very token of the notification, and neither
    injects a command, looks a session up or changes the directory. *)
Theorem notification_buttons_are_answered (cenv : ChannelEnv) (env : Env)
    (notification : Notification) (d d0 : Dir) (sent : bool) (request : Request)
    (callbackQuery : CallbackQuery) :
  let token := Channel.generateToken (random cenv) in
  (forall i, (i < 8)%nat -> Double.inUnitInterval (random cenv i)) ->
  (Channel.sendImpl cenv notification d).1 = Returns sent request ->
  data callbackQuery ∈ callback_data request ->
  (data callbackQuery = lit "personal:" ++ token /\
   Webhook.handleCallbackQuery env callbackQuery d0
   = (tt, d0, [AnswerCallbackQuery (callbackId callbackQuery);
               SendMessage (callbackChat callbackQuery) (Text.personalFormat token) true])) \/
  (data callbackQuery = lit "group:" ++ token /\
   Webhook.handleCallbackQuery env callbackQuery d0
   = (tt, d0, [AnswerCallbackQuery (callbackId callbackQuery);
               GetBotUsername;
               SendMessage (callbackChat callbackQuery)
                 (Text.groupFormat (botUsername env) token) true])).
Proof.
  intros token Hdraws Hsend Hdata.
  destruct (generateToken_chars (random cenv) Hdraws) as [_ Hchars]. fold token in Hchars.
  apply isTokenChar_colon in Hchars.
  assert (Hbuttons : callback_data request = [lit "personal:" ++ token; lit "group:" ++ token]).
  { revert Hsend. unfold Channel.sendImpl.
    destruct (Channel.validateConfig (channelConfig cenv)); cbn [negb fst]; [|discriminate].
    match goal with |- context [postResolves cenv ?r] => destruct (postResolves cenv r) end;
      cbn [fst]; now intros [= <- <-]. }
  rewrite Hbuttons in Hdata.
  destruct callbackQuery as [queryId queryFrom queryChat payload].
  cbn [data callbackId callbackChat] in *.
  apply elem_of_cons in Hdata as [->|Hdata];
    [|apply elem_of_cons in Hdata as [->|Hdata]; [|now apply elem_of_nil in Hdata]].
  - left. split; [reflexivity|]. unfold Webhook.handleCallbackQuery.
    cbn [data callbackId callbackChat].
    rewrite startsWith_app.
    change (lit "personal:" ++ token) with (lit "personal" ++ 58 :: token).
    rewrite part_of_payload; [reflexivity| |exact Hchars].
    repeat constructor; discriminate.
  - right. split; [reflexivity|]. unfold Webhook.handleCallbackQuery.
    cbn [data callbackId callbackChat].
    change (startsWith (lit "group:" ++ token) (lit "personal:")) with false.
    rewrite startsWith_app. cbv iota.
    change (lit "group:" ++ token) with (lit "group" ++ 58 :: token).
    rewrite part_of_payload; [reflexivity| |exact Hchars].
    repeat constructor; discriminate.
Qed.

Lemma notification_buttons_are_answered_witness :
  let env := Sample.webhook Sample.noPersistentSessions 1700050000000 in
  let token := Channel.generateToken Sample.draws in
  let callbackQuery := {| callbackId := lit "cb-2"; callbackFrom := 42; callbackChat := 42;
                          data := lit "group:" ++ token |} in
  (data callbackQuery = lit "personal:" ++ token /\
   Webhook.handleCallbackQuery env callbackQuery Sample.sessionsDir
   = (tt, Sample.sessionsDir,
      [AnswerCallbackQuery (lit "cb-2");
       SendMessage 42 (Text.personalFormat token) true])) \/
  (data callbackQuery = lit "group:" ++ token /\
   Webhook.handleCallbackQuery env callbackQuery Sample.sessionsDir
   = (tt, Sample.sessionsDir,
      [AnswerCallbackQuery (lit "cb-2");
       GetBotUsername;
       SendMessage 42 (Text.groupFormat (lit "claude_remote_bot") token) true])).
Proof.
  cbv zeta.
  apply (notification_buttons_are_answered Sample.succeedingSend
           (Sample.webhook Sample.noPersistentSessions 1700050000000)
           Sample.notification ∅ Sample.sessionsDir true
           (match (Channel.sendImpl Sample.succeedingSend Sample.notification ∅).1 with
            | Returns _ request => request
            | Throws => {| chat_id := None; requestText := []; callback_data := [] |}
            end)
           {| callbackId := lit "cb-2"; callbackFrom := 42; callbackChat := 42;
              data := lit "group:" ++ Channel.generateToken Sample.draws |}).
  - intros i Hi. unfold Double.inUnitInterval. cbn [random Sample.succeedingSend].
    unfold Sample.draws. cbn [Double.mant Double.expo].
    pose proof (Z.mod_pos_bound (Z.of_nat i * 1111111111111111 + 123456789012345) (2 ^ 53)
                  ltac:(lia)).
    lia.
  - reflexivity.
  - apply elem_of_cons. right. apply elem_of_cons. left. reflexivity.
Defined.

(* ================================================================== *)
(** ** How much of the texts a notification shows *)
(* ================================================================== *)

Section MessageBudget.
Import Channel.

(** On the lengths a message can have, [Math.floor(n * 0.3)] is the integer
    quotient of [3 * n] by 10: the rounding of the double product never
    crosses an integer there. *)
Lemma floorMul_threeTenths_exact (r : Z) :
  0 <= r <= 4000 -> Double.floorMul (Double.ofInt r) Double.threeTenths = 3 * r / 10.
Proof.
  intros Hr.
  assert (Hall : forallb (fun n => Double.floorMul (Double.ofInt (Z.of_nat n)) Double.threeTenths
                                   =? 3 * Z.of_nat n / 10) (seq 0 4001) = true)
    by (vm_compute; reflexivity).
  rewrite forallb_forall in Hall. specialize (Hall (Z.to_nat r)).
  rewrite Z2Nat.id in Hall by lia. apply Z.eqb_eq, Hall. apply in_seq. lia.
Qed.

End MessageBudget.

Section ResponseBudget.
Import Channel.

(** The question section takes at most 522 code units of the space. *)
Lemma questionSection_rest (meta : Metadata) (remainingSpace : Z) :
  0 <= remainingSpace ->
  remainingSpace - 522 <= (questionSection meta remainingSpace).2 <= remainingSpace.
Proof.
  intros Hspace. unfold questionSection.
  destruct (truthy (userQuestion meta) && (50 <? remainingSpace)); [|cbn [snd]; lia].
  change (len userQuestionHeader) with 20. change (len sectionSeparator) with 2.
  set (budget := Z.min 500 _).
  destruct (Z.ltb_spec 20 budget) as [Hbudget|Hbudget]; [|cbn [snd]; lia].
  cbn [snd].
  pose proof (clip_length (userQuestion meta) budget ltac:(lia)) as Hclip.
  pose proof (len_nonneg (clip (userQuestion meta) budget)) as Hnonneg.
  assert (budget <= 500) by apply Z.le_min_l. lia.
Qed.

Lemma truthy_length (s : jsstring) : 0 < len s -> truthy s = true.
Proof. destruct s; [intros H; vm_compute in H; discriminate|reflexivity]. Qed.

End ResponseBudget.

(** X18.  Where the frame leaves more than 100 code units, the message is
    the head, the question section, the response section and the foot, and
    the response section is decided by the space [rest] that the question
    section leaves: it is empty exactly when there is no response or [rest]
    is at most 54; it is the response in full when the response has at most
    [rest - 34] code units; otherwise the response is cut to its first
    [rest - 37] code units and three dots, and the whole message is then
    exactly 3990 code units long.  This is what happens to every response
    longer than [3966] less the frame, when the frame is within 2000 code
    units. *)
Theorem cut_response_fills_the_message (notification : Notification)
    (sessionId token : jsstring) (meta : Metadata) :
  metadata notification = Some meta ->
  let frame := Channel.len (Channel.fixedContent notification token) in
  100 < 4000 - frame ->
  let text := Channel.generateTelegramMessage notification sessionId token in
  let question := (Channel.questionSection meta (4000 - frame)).1 in
  let rest := (Channel.questionSection meta (4000 - frame)).2 in
  let response := Channel.responseSection meta rest in
  text = Channel.messageHead notification token ++ question ++ response ++
         Channel.messageFoot token /\
  ((response = [] /\ (truthy (claudeResponse meta) = false \/ rest <= 54)) \/
   (response = Channel.claudeResponseHeader ++ claudeResponse meta ++
               Channel.sectionSeparator /\
    truthy (claudeResponse meta) = true /\ 54 < rest /\
    Channel.len (claudeResponse meta) <= rest - 34) \/
   (response = Channel.claudeResponseHeader ++
               (take (Z.to_nat (rest - 37)) (claudeResponse meta) ++ lit "...") ++
               Channel.sectionSeparator /\
    truthy (claudeResponse meta) = true /\ 54 < rest /\
    rest - 34 < Channel.len (claudeResponse meta) /\
    Channel.len text = 3990)) /\
  (frame <= 2000 -> 3966 - frame < Channel.len (claudeResponse meta) ->
   Channel.len text = 3990).
Proof.
  intros Hmeta frame Hroom text question rest response.
  pose proof (len_nonneg (Channel.fixedContent notification token)) as Hframe.
  fold frame in Hframe.
  pose proof (questionSection_length meta (4000 - frame) ltac:(lia)) as Hq.
  pose proof (questionSection_rest meta (4000 - frame) ltac:(lia)) as Hrest.
  fold rest in Hrest.
  assert (Hlen : Channel.len question = 4000 - frame - rest).
  { subst question rest.
    destruct (Channel.questionSection meta (4000 - frame)) as [q r]. now destruct Hq. }
  assert (Htext : text = Channel.messageHead notification token ++ question ++ response ++
                         Channel.messageFoot token).
  { subst text. unfold Channel.generateTelegramMessage. rewrite Hmeta.
    unfold Channel.maxTotalLength. fold frame.
    destruct (Z.ltb_spec 100 (4000 - frame)) as [_|?]; [|lia].
    subst question response rest.
    destruct (Channel.questionSection meta (4000 - frame)) as [q r]. cbn [fst snd].
    now rewrite <- !app_assoc. }
  assert (Htotal : forall body,
            response = Channel.claudeResponseHeader ++ body ++ Channel.sectionSeparator ->
            Channel.len body = rest - 34 -> Channel.len text = 3990).
  { intros body Hresponse Hbody. rewrite Htext, Hresponse, !len_app, Hlen, Hbody.
    change (Channel.len Channel.claudeResponseHeader) with 22.
    change (Channel.len Channel.sectionSeparator) with 2.
    assert (Hsum : Channel.len (Channel.messageHead notification token)
                   + Channel.len (Channel.messageFoot token) = frame).
    { subst frame. unfold Channel.fixedContent. now rewrite len_app. }
    lia. }
  assert (Hcases :
    (response = [] /\ (truthy (claudeResponse meta) = false \/ rest <= 54)) \/
    (response = Channel.claudeResponseHeader ++ claudeResponse meta ++
                Channel.sectionSeparator /\
     truthy (claudeResponse meta) = true /\ 54 < rest /\
     Channel.len (claudeResponse meta) <= rest - 34) \/
    (response = Channel.claudeResponseHeader ++
                (take (Z.to_nat (rest - 37)) (claudeResponse meta) ++ lit "...") ++
                Channel.sectionSeparator /\
     truthy (claudeResponse meta) = true /\ 54 < rest /\
     rest - 34 < Channel.len (claudeResponse meta) /\
     Channel.len text = 3990)).
  { assert (Hresponse : response = Channel.responseSection meta rest) by reflexivity.
    revert Hresponse. unfold Channel.responseSection.
    change (Channel.len Channel.claudeResponseHeader) with 22.
    change (Channel.len Channel.sectionSeparator) with 2.
    destruct (truthy (claudeResponse meta)) eqn:Htruthy; cbn [andb];
      [|intros ->; left; split; [reflexivity|now left]].
    destruct (Z.ltb_spec 50 rest) as [H50|H50];
      [|intros ->; left; split; [reflexivity|right; lia]].
    destruct (Z.ltb_spec 20 (rest - (22 + 2) - 10)) as [H54|H54];
      [|intros ->; left; split; [reflexivity|right; lia]].
    unfold Channel.clip.
    destruct (Z.ltb_spec (rest - (22 + 2) - 10) (Channel.len (claudeResponse meta)))
      as [Hcut|Hwhole]; intros Hresponse.
    - right. right.
      replace (rest - (22 + 2) - 10 - 3) with (rest - 37) in Hresponse by lia.
      split; [exact Hresponse|]. split; [reflexivity|]. split; [lia|]. split; [lia|].
      apply (Htotal _ Hresponse). rewrite len_app. change (Channel.len (lit "...")) with 3.
      unfold Channel.len in *. rewrite length_take. lia.
    - right. left. split; [exact Hresponse|]. split; [reflexivity|]. split; lia. }
  split; [exact Htext|]. split; [exact Hcases|].
  intros Hnarrow Hlong.
  destruct Hcases as [[_ [Hnone|Hsmall]]|[(_ & _ & _ & Hfits)|(_ & _ & _ & _ & Hdone)]].
  - rewrite truthy_length in Hnone by lia. discriminate.
  - lia.
  - lia.
  - exact Hdone.
Qed.

Lemma cut_response_fills_the_message_witness :
  let notification := Sample.longNotification in
  let token := lit "ABC12345" in
  let meta := {| userQuestion := replicate 700 113;
                 claudeResponse := replicate 5000 114;
                 metaTmuxSession := lit "main" |} in
  let frame := Channel.len (Channel.fixedContent notification token) in
  let text := Channel.generateTelegramMessage notification (lit "id-1") token in
  let question := (Channel.questionSection meta (4000 - frame)).1 in
  let rest := (Channel.questionSection meta (4000 - frame)).2 in
  let response := Channel.responseSection meta rest in
  text = Channel.messageHead notification token ++ question ++ response ++
         Channel.messageFoot token /\
  ((response = [] /\ (truthy (claudeResponse meta) = false \/ rest <= 54)) \/
   (response = Channel.claudeResponseHeader ++ claudeResponse meta ++
               Channel.sectionSeparator /\
    truthy (claudeResponse meta) = true /\ 54 < rest /\
    Channel.len (claudeResponse meta) <= rest - 34) \/
   (response = Channel.claudeResponseHeader ++
               (take (Z.to_nat (rest - 37)) (claudeResponse meta) ++ lit "...") ++
               Channel.sectionSeparator /\
    truthy (claudeResponse meta) = true /\ 54 < rest /\
    rest - 34 < Channel.len (claudeResponse meta) /\
    Channel.len text = 3990)) /\
  (frame <= 2000 -> 3966 - frame < Channel.len (claudeResponse meta) ->
   Channel.len text = 3990).
Proof.
  apply (cut_response_fills_the_message Sample.longNotification (lit "id-1") (lit "ABC12345")
           {| userQuestion := replicate 700 113;
              claudeResponse := replicate 5000 114;
              metaTmuxSession := lit "main" |}).
  - reflexivity.
  - vm_compute. reflexivity.
Defined.

(** The long sample notification is cut: its message has exactly 3990 code
    units. *)
Example long_notification_has_3990_code_units :
  Channel.len (Channel.generateTelegramMessage Sample.longNotification (lit "id-1")
                 (lit "ABC12345")) = 3990.
Proof. vm_compute. reflexivity. Qed.

(** X19.  Short texts are shown in full.  When the frame of the message
    takes at most 2000 code units, a question of at most 500 code units
    and a response that, with the frame, stays within 3444 code units are
    both in the message as they are, each under its header; an empty one
    is left out with its header. *)
Theorem short_texts_are_sent_in_full (notification : Notification)
    (sessionId token : jsstring) (meta : Metadata) :
  metadata notification = Some meta ->
  Channel.len (Channel.fixedContent notification token) <= 2000 ->
  Channel.len (userQuestion meta) <= 500 ->
  Channel.len (Channel.fixedContent notification token) + Channel.len (claudeResponse meta)
    <= 3444 ->
  Channel.generateTelegramMessage notification sessionId token
  = Channel.messageHead notification token ++
    ((if truthy (userQuestion meta)
      then Channel.userQuestionHeader ++ userQuestion meta ++ Channel.sectionSeparator
      else []) ++
     (if truthy (claudeResponse meta)
      then Channel.claudeResponseHeader ++ claudeResponse meta ++ Channel.sectionSeparator
      else [])) ++
    Channel.messageFoot token.
Proof.
  intros Hmeta Hframe Hquestion Hresponse. unfold Channel.generateTelegramMessage.
  rewrite Hmeta. unfold Channel.maxTotalLength.
  pose proof (len_nonneg (Channel.fixedContent notification token)) as Hnonneg.
  pose proof (len_nonneg (claudeResponse meta)) as Hnonneg'.
  set (frame := Channel.len (Channel.fixedContent notification token)) in *.
  destruct (Z.ltb_spec 100 (4000 - frame)) as [_|Hfull]; [|lia].
  do 2 f_equal. unfold Channel.questionSection.
  rewrite (floorMul_threeTenths_exact (4000 - frame)) by lia.
  change (Channel.len Channel.userQuestionHeader) with 20.
  change (Channel.len Channel.sectionSeparator) with 2.
  assert (Hmin : Z.min 500 (3 * (4000 - frame) / 10 - (20 + 2)) = 500).
  { apply Z.min_l. pose proof (Z.div_le_mono 6000 (3 * (4000 - frame)) 10 ltac:(lia) ltac:(lia)).
    change (6000 / 10) with 600 in *. lia. }
  rewrite Hmin. change (20 <? 500) with true. cbv iota.
  assert (Hclip : Channel.clip (userQuestion meta) 500 = userQuestion meta).
  { unfold Channel.clip. destruct (Z.ltb_spec 500 (Channel.len (userQuestion meta))); [lia|].
    reflexivity. }
  rewrite Hclip.
  assert (Hresp : forall rest, 4000 - frame - 522 <= rest ->
            Channel.responseSection meta rest
            = if truthy (claudeResponse meta)
              then Channel.claudeResponseHeader ++ claudeResponse meta ++
                   Channel.sectionSeparator
              else []).
  { intros rest Hrest. unfold Channel.responseSection.
    destruct (truthy (claudeResponse meta)); [|reflexivity].
    destruct (Z.ltb_spec 50 rest) as [_|?]; [|lia]. cbn [andb].
    change (Channel.len Channel.claudeResponseHeader) with 22.
    change (Channel.len Channel.sectionSeparator) with 2.
    destruct (Z.ltb_spec 20 (rest - (22 + 2) - 10)) as [_|?]; [|lia].
    unfold Channel.clip.
    destruct (Z.ltb_spec (rest - (22 + 2) - 10) (Channel.len (claudeResponse meta)));
      [lia|reflexivity]. }
  destruct (truthy (userQuestion meta)).
  - destruct (Z.ltb_spec 50 (4000 - frame)) as [_|?]; [|lia]. cbn [andb].
    f_equal. apply Hresp. lia.
  - cbn [andb]. f_equal. apply Hresp. lia.
Qed.

Lemma short_texts_are_sent_in_full_witness :
  Channel.generateTelegramMessage Sample.shortNotification (lit "id-1") (lit "ABC12345")
  = Channel.messageHead Sample.shortNotification (lit "ABC12345") ++
    ((Channel.userQuestionHeader ++ lit "run the tests" ++ Channel.sectionSeparator) ++
     (Channel.claudeResponseHeader ++ lit "All 42 tests pass." ++ Channel.sectionSeparator)) ++
    Channel.messageFoot (lit "ABC12345").
Proof.
  apply (short_texts_are_sent_in_full Sample.shortNotification (lit "id-1") (lit "ABC12345")
           {| userQuestion := lit "run the tests";
              claudeResponse := lit "All 42 tests pass.";
              metaTmuxSession := lit "main" |}).
  - reflexivity.
  - vm_compute. discriminate.
  - vm_compute. discriminate.
  - vm_compute. discriminate.
Defined.

(* ================================================================== *)
(** ** A call that throws *)
(* ================================================================== *)

Section Throws.
Context (env : Env) (faults : Faults).

Lemma retT_cutShort {A} (a : A) (d : Dir) : cutShort faults (retT a d) (ret a d).
Proof. reflexivity. Qed.

Lemma lift_cutShort {A} (m : Handler A) (d : Dir) : cutShort faults (lift m d) (m d).
Proof. unfold cutShort, lift. now destruct (m d) as [[a d1] log]. Qed.

Lemma askT_cutShort {A} (e : Event) (answer : Dir -> A) (throws : Dir -> bool) (d : Dir) :
  (quiet faults -> throws d = false) ->
  cutShort faults (askT e answer throws d) (ask e answer d).
Proof.
  intros Hquiet. unfold cutShort, askT, ask. destruct (throws d) eqn:Hthrows; cbn.
  - split; [intros Hq; specialize (Hquiet Hq); congruence|]. now exists [].
  - reflexivity.
Qed.

Lemma bindT_cutShort {A B} (m : Try A) (m' : Handler A) (k : A -> Try B)
    (k' : A -> Handler B) (d : Dir) :
  cutShort faults (m d) (m' d) ->
  (forall a d1, cutShort faults (k a d1) (k' a d1)) ->
  cutShort faults (bindT m k d) (bind m' k' d).
Proof.
  unfold cutShort, bindT, bind. intros Hm Hk.
  destruct (m d) as [[r d1] log1]. destruct r as [a|]; cbn [fst snd] in Hm.
  - rewrite Hm. specialize (Hk a d1).
    destruct (k a d1) as [[r2 d2] log2]. destruct r2 as [b|]; cbn [fst snd] in *.
    + now rewrite Hk.
    + destruct Hk as [Hnq [rest Hrest]]. split; [exact Hnq|].
      destruct (k' a d1) as [[b d2'] log2']. unfold calls in *. cbn [fst snd] in *.
      exists rest. now rewrite Hrest, app_assoc.
  - cbn [fst snd]. destruct Hm as [Hnq [rest Hrest]]. split; [exact Hnq|].
    destruct (m' d) as [[a d1'] log1']. destruct (k' a d1') as [[b d2] log2].
    unfold calls in *. cbn [fst snd] in *. exists (rest ++ log2).
    now rewrite Hrest, app_assoc.
Qed.

Lemma findSessionByToken_cutShort (token : jsstring) (d : Dir) :
  cutShort faults (Throwing.findSessionByToken env faults token d)
    (Webhook.findSessionByToken env token d).
Proof.
  unfold Throwing.findSessionByToken, Webhook.findSessionByToken.
  apply bindT_cutShort.
  - apply askT_cutShort. intros Hq. apply Hq.
  - intros [session|] d1; [apply retT_cutShort|].
    apply askT_cutShort. intros Hq. apply Hq.
Qed.

Lemma removeSession_cutShort (sessionId : jsstring) (d : Dir) :
  cutShort faults (Throwing.removeSession faults sessionId d)
    (Webhook.removeSession sessionId d).
Proof.
  unfold cutShort, Throwing.removeSession, Webhook.removeSession.
  destruct (d !! sessionFile sessionId); [|reflexivity].
  destruct (unlinkSyncThrows faults d (sessionFile sessionId)) eqn:Hthrows; cbn; [|reflexivity].
  split; [intros Hq; destruct Hq as (_ & _ & _ & Hq); rewrite Hq in Hthrows; discriminate|].
  now exists [].
Qed.

Lemma processCommand_cutShort (chatId : Z) (token command : jsstring) (d : Dir) :
  cutShort faults (Throwing.processCommand env faults chatId token command d)
    (Webhook.processCommand env chatId token command d).
Proof.
  unfold Throwing.processCommand, Webhook.processCommand.
  apply bindT_cutShort; [apply findSessionByToken_cutShort|].
  intros [session|] d1; [|apply lift_cutShort].
  destruct (Session.expiresAt session <? dateNow env / 1000).
  - apply bindT_cutShort; [apply lift_cutShort|]. intros _ d2. apply removeSession_cutShort.
  - apply bindT_cutShort; [apply lift_cutShort|]. intros _ d2.
    destruct (injectCommand env command _); apply lift_cutShort.
Qed.

Lemma parseAndProcess_cutShort (chatId : Z) (messageText : jsstring) (d : Dir) :
  cutShort faults (Throwing.parseAndProcess env faults chatId messageText d)
    (Webhook.parseAndProcess env chatId messageText d).
Proof.
  unfold Throwing.parseAndProcess, Webhook.parseAndProcess.
  destruct (parseCommand messageText) as [[token command]|];
    [apply processCommand_cutShort|apply lift_cutShort].
Qed.

Lemma handleMessage_cutShort (message : Message) (d : Dir) :
  cutShort faults (Throwing.handleMessage env faults message d)
    (Webhook.handleMessage env message d).
Proof.
  unfold Throwing.handleMessage, Webhook.handleMessage.
  destruct (trim <$> text message) as [messageText|]; [|apply retT_cutShort].
  destruct (negb (truthy messageText)); [apply retT_cutShort|].
  destruct (negb (Webhook.isAuthorized env (from message) (chat message)));
    [apply lift_cutShort|].
  destruct (eqb messageText (lit "/start")); [apply lift_cutShort|].
  destruct (eqb messageText (lit "/help")); [apply lift_cutShort|].
  destruct (Webhook.repliesToBot message); [|apply parseAndProcess_cutShort].
  apply bindT_cutShort.
  - apply askT_cutShort. intros Hq. apply Hq.
  - intros [currentSession|] d1; [apply processCommand_cutShort|apply parseAndProcess_cutShort].
Qed.

End Throws.

(** X1.  A text message is never answered twice, also when a call of the
    handler throws and the webhook answers 500.  A message without text or
    with white space only leaves no trace at all and is answered 200,
    whoever sent it.  For any other message the handler sends at most one
    message, to the chat the message came from, and exactly one whenever
    the webhook answers 200; and it answers 200 when neither the persistent
    sessions nor [readdirSync] nor [unlinkSync] throw. *)
Theorem text_message_is_answered_once (env : Env) (faults : Faults) (message : Message)
    (d : Dir) :
  let r := Throwing.handleWebhook env faults (UpdateMessage message) d in
  match trim <$> text message with
  | None | Some [] => r = (Status200, d, [])
  | Some (_ :: _) =>
      exists reply,
        (replies (calls r) = [] \/ replies (calls r) = [(chat message, reply)]) /\
        (r.1.1 = Status200 -> replies (calls r) = [(chat message, reply)]) /\
        (quiet faults -> r.1.1 = Status200)
  end.
Proof.
  cbv zeta. unfold Throwing.handleWebhook.
  pose proof (handleMessage_cutShort env faults message d) as Hcut.
  pose proof (handleMessage_one_reply env message d) as Hone.
  cbn [Webhook.handleWebhook] in Hone.
  destruct (trim <$> text message) as [[|c rest]|] eqn:Htext.
  - unfold Throwing.handleMessage. now rewrite Htext.
  - destruct Hone as [reply Hone]. exists reply.
    unfold cutShort in Hcut.
    destruct (Throwing.handleMessage env faults message d) as [[[u|] d1] log];
      cbn [fst snd] in *; unfold calls in *; cbn [fst snd] in *.
    + rewrite Hcut in Hone. cbn [snd] in Hone.
      split; [now right|]. split; [intros _; exact Hone|reflexivity].
    + destruct Hcut as [Hnq [rest' Hrest]]. rewrite Hrest, replies_app in Hone.
      split; [|split; [discriminate|intros Hq; now destruct Hnq]].
      destruct (replies log) as [|first others]; [now left|right].
      cbn [app] in Hone. injection Hone as -> Hothers.
      apply app_eq_nil in Hothers as [-> _]. reflexivity.
  - unfold Throwing.handleMessage. now rewrite Htext.
Qed.

(** When the sessions directory cannot be listed, a well-formed command of
    an authorized user is answered with nothing, and the webhook with
    500. *)
Example missing_directory_answers_500 :
  Throwing.handleWebhook (Sample.webhook Sample.noPersistentSessions 1700000000000)
    Sample.missingDirectory
    (UpdateMessage (Sample.textMessage (lit "/cmdABC12345 ls") false)) Sample.sessionsDir
  = (Status500, Sample.sessionsDir, [GetSessionByToken (lit "ABC12345"); ReadSessionsDir]).
Proof. vm_compute. reflexivity. Qed.
